(** * x-agent: the community-post to thread pipeline, embedded and verified

    The Python sources under [src/] are embedded shallowly:

    - [str] values are lists of Unicode code points, so that [len], slicing
      and concatenation are the list operations;
    - [float] values are binary64 primitive floats, with the operations in
      the order the source writes them;
    - every call that leaves the process (feed download, page download,
      chat completion, message delivery) is answered by an oracle of the
      [World], which sees the whole history of the run so far;
    - code that raises returns [Raised]; the history of outside calls is
      threaded through every operation as a trace. *)

From Stdlib Require Import ZArith NArith List String Ascii Bool Lia Floats Uint63.
From Stdlib Require Import Permutation.
From Stdlib Require DecimalString.
Import ListNotations.

Set Implicit Arguments.
Set Warnings "-inexact-float".
Local Open Scope Z_scope.

(** ** Python strings *)

Definition str : Type := list N.

(** A literal of the source, one code point per character. *)
Definition lit (s : string) : str := map N_of_ascii (list_ascii_of_string s).

Definition NL : str := [10%N].

Fixpoint str_eqb (a b : str) : bool :=
  match a, b with
  | [], [] => true
  | x :: a', y :: b' => N.eqb x y && str_eqb a' b'
  | _, _ => false
  end.

(** [len(s)] *)
Definition len (s : str) : Z := Z.of_nat (List.length s).

(** [s[:k]]: a negative bound counts from the end. *)
Definition slice_to (k : Z) (s : str) : str :=
  if 0 <=? k then firstn (Z.to_nat k) s
  else firstn (Z.to_nat (len s + k)) s.

Fixpoint starts_with (needle hay : str) : bool :=
  match needle, hay with
  | [], _ => true
  | x :: n', y :: h' => N.eqb x y && starts_with n' h'
  | _ :: _, [] => false
  end.

(** [needle in hay] *)
Fixpoint contains (needle hay : str) : bool :=
  starts_with needle hay ||
  match hay with
  | [] => false
  | _ :: h' => contains needle h'
  end.

(** [str.lower] on one code point.  Only A-Z are mapped: no other code point
    lower-cases to one of the letters a-z that occur in the words this
    program searches for. *)
Definition lower_char (c : N) : N :=
  if (65 <=? c)%N && (c <=? 90)%N then (c + 32)%N else c.

Definition lower (s : str) : str := map lower_char s.

(** [str.isspace] on one code point. *)
Definition is_space (c : N) : bool :=
  ((9 <=? c)%N && (c <=? 13)%N) || ((28 <=? c)%N && (c <=? 32)%N)
  || N.eqb c 133 || N.eqb c 160 || N.eqb c 5760
  || ((8192 <=? c)%N && (c <=? 8202)%N)
  || N.eqb c 8232 || N.eqb c 8233 || N.eqb c 8239 || N.eqb c 8287
  || N.eqb c 12288.

Fixpoint lstrip (s : str) : str :=
  match s with
  | c :: s' => if is_space c then lstrip s' else s
  | [] => []
  end.

(** [s.strip()] *)
Definition strip (s : str) : str := rev (lstrip (rev (lstrip s))).

(** [s.split(",")], as the pair (current field, remaining fields). *)
Fixpoint split_on (sep : N) (s : str) : str * list str :=
  match s with
  | [] => ([], [])
  | c :: s' =>
      let '(cur, rest) := split_on sep s' in
      if N.eqb c sep then ([], cur :: rest) else (c :: cur, rest)
  end.

Definition split (sep : N) (s : str) : list str :=
  let '(cur, rest) := split_on sep s in cur :: rest.

(** [sep.join(parts)] *)
Fixpoint join (sep : str) (parts : list str) : str :=
  match parts with
  | [] => []
  | [p] => p
  | p :: ps => p ++ sep ++ join sep ps
  end.

(** [str(n)] for a natural number. *)
Definition decimal (n : nat) : str :=
  lit (DecimalString.NilZero.string_of_uint (Nat.to_uint n)).

(** [c * n] for a one-character string. *)
Definition repeat_char (c : N) (n : nat) : str := repeat c n.

(** [d.get(key, default)], the looked-up key being [None] when missing. *)
Definition get {A} (o : option A) (default : A) : A :=
  match o with Some a => a | None => default end.

(** Truth value of a string or of a list: non-empty. *)
Definition nonempty {A} (l : list A) : bool :=
  match l with [] => false | _ :: _ => true end.

(** ** Python floats *)

(** The binary64 value nearest to an integer, ties to even; an infinity
    beyond the largest float. *)
Definition float_of_Z (z : Z) : float :=
  SF2Prim (binary_normalize prec emax z 0 false).

(** The conversion of an [int] operand in [n * 0.15]: the nearest binary64
    value, and [None] where Python raises [OverflowError] because that value
    would not be finite. *)
Definition float_of_int (n : Z) : option float :=
  match binary_normalize prec emax n 0 false with
  | S754_infinity _ => None
  | f => Some (SF2Prim f)
  end.

(** Truth value of a float: anything but zero. *)
Definition float_truthy (x : float) : bool := negb (PrimFloat.eqb x 0%float).

(** ** models.py *)

Record Post := {
  id : str;
  title : str;
  link : str;
  author : str;
  subreddit : str;
  updated : str;
  rss_summary : str;
  full_content : option str
}.

Record EditorialDecision := {
  action : str;
  confidence : float;
  weakness : str;
  suggested_revision : str
}.

(** ** Decoded JSON values the services exchange *)

(** One entry of a parsed feed; every key may be missing. *)
Record Entry := {
  e_title : option str;
  e_link : option str;
  e_author : option str;
  e_updated : option str;
  e_summary : option str
}.

(** One element of the ranking payload. *)
Record Payload := {
  pl_id : str;
  pl_title : str;
  pl_rss_summary : str;
  pl_subreddit : str
}.

(** One entry of the ranking answer, [{"id": ..., "score": ...}]; the score
    is the integer the prompt asks for, and nothing checks its range. *)
Record RankItem := {
  r_id : str;
  r_score : Z
}.

(** A generated thread: a JSON object whose keys may each be missing. *)
Record Thread := {
  post_id : option str;
  post_title : option str;
  tweets : option (list str);
  thread_length : option Z;
  reasoning : option str
}.

(** Truth value of the thread object: a dict is false exactly when empty. *)
Definition thread_truthy (t : Thread) : bool :=
  match post_id t, post_title t, tweets t, thread_length t, reasoning t with
  | None, None, None, None, None => false
  | _, _, _, _, _ => true
  end.

(** The usage dict a service returns next to its result; [{}] is [None] in
    the services' results. *)
Record UsageData := {
  u_model : str;
  prompt_tokens : Z;
  completion_tokens : Z;
  total_tokens : Z;
  u_cost : option float
}.

(** ** The outside world *)

Inductive Event :=
| EFeedGet (url : str)                      (* requests.get of a feed *)
| ESleep                                    (* time.sleep(delay) *)
| ERankRequest (model : str) (payload : list Payload)
| ECandidate (i : nat) (item : RankItem)    (* "Processing Candidate i+1" *)
| EPageFetch (url : str)                    (* ContentExtractor.extract *)
| EGenerateRequest (model : str) (posts : list Post)
| EJudgeRequest (model : str) (thread_text : str)
| EVerdict (i : nat) (item : RankItem) (thread : Thread) (approved : bool)
                                            (* what _process_single_thread returned *)
| ERejectionPost (text : str)               (* POST of a rejection notice *)
| EThreadPost (text : str).                 (* POST of a finished thread *)

Definition Trace := list Event.

(** Decoded answers of the three chat completions, with the token counts of
    [response.usage]. *)
Record RankReply := {
  ranked_posts : list RankItem;   (* result.get('ranked_posts', []) *)
  rank_prompt : Z; rank_completion : Z; rank_total : Z
}.

Record GenReply := {
  selected_threads : list Thread; (* result.get("selected_threads") *)
  gen_prompt : Z; gen_completion : Z; gen_total : Z
}.

Record JudgeReply := {
  decision : EditorialDecision;
  judge_prompt : Z; judge_completion : Z; judge_total : Z
}.

Record World := {
  (* library functions *)
  md5_hexdigest : str -> str;
  strip_tags : str -> str;            (* re.sub('<[^<]+?>', '', s) *)
  html_unescape : str -> str;
  parse_int : str -> option Z;        (* int(s); None: ValueError *)
  (* process environment *)
  getenv : str -> option str;
  (* remote services; [None] stands for a raised exception *)
  feed_get : Trace -> str -> option (Z * list Entry);
  chat_rank : Trace -> str -> list Payload -> option RankReply;
  page_text : Trace -> str -> str;
  chat_generate : Trace -> str -> list Post -> option GenReply;
  chat_judge : Trace -> str -> str -> JudgeReply + str;
  telegram_post : Trace -> str -> bool   (* false: the POST raised or
                                            raise_for_status() did *)
}.

(** ** Exceptions and the trace monad *)

Inductive Exn :=
| ValueError (msg : str)
| RuntimeError (msg : str)
| TypeError (msg : str)
| OverflowError (msg : str)
| OpenAIError (msg : str)
| RequestException (msg : str).

Inductive Result (A : Type) :=
| Ok (a : A)
| Raised (e : Exn).
Arguments Ok {A} a.
Arguments Raised {A} e.

Definition M (A : Type) : Type := Trace -> Result A * Trace.

Definition ret {A} (a : A) : M A := fun tr => (Ok a, tr).

Definition raise {A} (e : Exn) : M A := fun tr => (Raised e, tr).

Definition bind {A B} (m : M A) (k : A -> M B) : M B :=
  fun tr =>
    match m tr with
    | (Ok a, tr') => k a tr'
    | (Raised e, tr') => (Raised e, tr')
    end.

(** An outside call: the oracle sees the history, then the call is recorded. *)
Definition call {A} (oracle : Trace -> A) (e : Event) : M A :=
  fun tr => (Ok (oracle tr), tr ++ [e]).

Definition emit (e : Event) : M unit := fun tr => (Ok tt, tr ++ [e]).

Declare Scope py_scope.
Delimit Scope py_scope with py.
Notation "x <- m ;; k" := (bind m (fun x => k))
  (at level 100, m at next level, right associativity) : py_scope.
Notation "' p <- m ;; k" := (bind m (fun x => match x with p => k end))
  (at level 100, p pattern, m at next level, right associativity) : py_scope.
Notation "m ;;; k" := (bind m (fun _ => k))
  (at level 100, right associativity) : py_scope.
Local Open Scope py_scope.

(** ** The chat client *)

(** [OpenAI(api_key=os.getenv('OPENAI_API_KEY'))], as the constructor of
    every service that has a chat client calls it: with the key unset the
    client cannot be built. *)
Definition openai_client (w : World) : Result unit :=
  match getenv w (lit "OPENAI_API_KEY") with
  | None =>
      Raised (OpenAIError
        (lit "The api_key client option must be set either by passing api_key to the client or by setting the OPENAI_API_KEY environment variable"))
  | Some _ => Ok tt
  end.

(** ** services/reddit_provider.py *)

Module RedditProvider.

(** [self._url_map]: each template is the text before and after [{}]. *)
Definition url_map (filter_type : str) : option (str * str) :=
  if str_eqb filter_type (lit "hot") then
    Some (lit "https://www.reddit.com/r/", lit "/.rss")
  else if str_eqb filter_type (lit "new") then
    Some (lit "https://www.reddit.com/r/", lit "/new/.rss")
  else if str_eqb filter_type (lit "top") then
    Some (lit "https://www.reddit.com/r/", lit "/top/.rss?t=day")
  else if str_eqb filter_type (lit "rising") then
    Some (lit "https://www.reddit.com/r/", lit "/rising/.rss")
  else None.

Definition feed_url (filter_type subreddit : str) : str :=
  let '(pre, post) :=
    match url_map filter_type with
    | Some t => t
    | None => (lit "https://www.reddit.com/r/", lit "/.rss")
    end in
  pre ++ subreddit ++ post.

(** The test of the loop on [author.lower()]. *)
Definition is_moderator (author : str) : bool :=
  contains (lit "automoderator") (lower author)
  || contains (lit "moderator") (lower author).

Definition make_post (w : World) (subreddit : str) (entry : Entry) : Post :=
  let author := get (e_author entry) (lit "unknown") in
  let summary_html := get (e_summary entry) [] in
  let clean_text := strip_tags w summary_html in
  let rss_content := strip (html_unescape w clean_text) in
  let link := get (e_link entry) [] in
  let post_id := slice_to 10 (md5_hexdigest w link) in
  {| id := post_id;
     title := get (e_title entry) (lit "No Title");
     link := link;
     author := author;
     subreddit := subreddit;
     updated := get (e_updated entry) (lit "unknown");
     rss_summary := rss_content;
     full_content := None |}.

(** The [for entry in feed.entries] loop, with its two variables. *)
Fixpoint collect (w : World) (subreddit : str) (limit : Z)
    (entries : list Entry) (count : Z) (posts : list Post) : list Post :=
  match entries with
  | [] => posts
  | entry :: rest =>
      if limit <=? count then posts
      else
        let author := get (e_author entry) (lit "unknown") in
        if is_moderator author then collect w subreddit limit rest count posts
        else collect w subreddit limit rest (count + 1)
               (posts ++ [make_post w subreddit entry])
  end.

Definition fetch_subreddit_posts (w : World) (subreddit filter_type : str)
    (limit : Z) : M (list Post) :=
  let url := feed_url filter_type subreddit in
  response <- call (fun tr => feed_get w tr url) (EFeedGet url) ;;
  match response with
  | None => ret []                        (* except Exception: posts is [] *)
  | Some (status_code, entries) =>
      if negb (status_code =? 200) then ret []
      else ret (collect w subreddit limit entries 0 [])
  end.

(** The loop of [fetch_all] from index [i] on. *)
Fixpoint fetch_all_from (w : World) (i : nat) (subreddits : list str)
    (posts_per_sub : Z) (delay : float) (all_posts : list Post)
    : M (list Post) :=
  match subreddits with
  | [] => ret all_posts
  | sub :: rest =>
      (if (0 <? i)%nat && PrimFloat.ltb 0%float delay then emit ESleep
       else ret tt) ;;;
      posts <- fetch_subreddit_posts w sub (lit "hot") posts_per_sub ;;
      fetch_all_from w (S i) rest posts_per_sub delay (all_posts ++ posts)
  end.

Definition fetch_all (w : World) (subreddits : list str) (posts_per_sub : Z)
    (delay : float) : M (list Post) :=
  fetch_all_from w 0 subreddits posts_per_sub delay [].

End RedditProvider.

(** ** services/ai_filter.py *)

Module AIFilter.

Record t := { model : str }.

Definition init (w : World) (model : str) : Result t :=
  match openai_client w with
  | Raised e => Raised e
  | Ok _ => Ok {| model := model |}
  end.

(** What [filter] returns: the bare [[]] of its first line, or a pair. *)
Inductive FilterResult :=
| BareList (l : list RankItem)
| Pair (ranked : list RankItem) (usage : option UsageData).

(** [(s[:limit-3] + "...") if len(s) > limit else s] *)
Definition shorten (limit : Z) (s : str) : str :=
  if limit <? len s then slice_to (limit - 3) s ++ lit "..." else s.

Definition build_payload (title_limit summary_limit : Z) (posts : list Post)
    : list Payload :=
  map (fun p =>
         {| pl_id := id p;
            pl_title := shorten title_limit (title p);
            pl_rss_summary := shorten summary_limit (rss_summary p);
            pl_subreddit := subreddit p |}) posts.

Definition filter (w : World) (self : t) (posts : list Post)
    (title_limit summary_limit : Z) : M FilterResult :=
  match posts with
  | [] => ret (BareList [])
  | _ :: _ =>
      let payload := build_payload title_limit summary_limit posts in
      response <- call (fun tr => chat_rank w tr (model self) payload)
                       (ERankRequest (model self) payload) ;;
      match response with
      | None => ret (Pair [] None)        (* except Exception *)
      | Some r =>
          (* the pricing is inside the try: a reply it cannot price is one
             of the failures that [None] stands for *)
          let cost :=
            (float_of_Z (rank_prompt r) * 0.15 / 1000000
             + float_of_Z (rank_completion r) * 0.60 / 1000000)%float in
          let usage_data :=
            {| u_model := model self;
               prompt_tokens := rank_prompt r;
               completion_tokens := rank_completion r;
               total_tokens := rank_total r;
               u_cost := Some cost |} in
          ret (Pair (firstn 15 (ranked_posts r)) (Some usage_data))
      end
  end.

End AIFilter.

(** ** services/content_extractor.py *)

Module ContentExtractor.

(** [extract] never raises; its downloads are one outside call here. *)
Definition extract (w : World) (post : Post) : M str :=
  match link post with
  | [] => ret []
  | url => call (fun tr => page_text w tr url) (EPageFetch url)
  end.

Definition enrich (w : World) (post : Post) : M Post :=
  text <- extract w post ;;
  ret {| id := id post; title := title post; link := link post;
         author := author post; subreddit := subreddit post;
         updated := updated post; rss_summary := rss_summary post;
         full_content := Some text |}.

End ContentExtractor.

(** ** services/thread_generator.py *)

Module ThreadGenerator.

Record t := { model : str }.

Definition init (w : World) (model : str) : Result t :=
  match openai_client w with
  | Raised e => Raised e
  | Ok _ => Ok {| model := model |}
  end.

Definition generate_threads (w : World) (self : t) (curated_posts : list Post)
    : M (list Thread * option UsageData) :=
  match curated_posts with
  | [] => ret ([], None)
  | _ :: _ =>
      response <- call (fun tr => chat_generate w tr (model self) curated_posts)
                       (EGenerateRequest (model self) curated_posts) ;;
      match response with
      | None => ret ([], None)            (* except Exception *)
      | Some r =>
          (* the pricing is inside the try: a reply it cannot price is one
             of the failures that [None] stands for *)
          let cost :=
            (float_of_Z (gen_prompt r) * 10.0 / 1000000
             + float_of_Z (gen_completion r) * 30.0 / 1000000)%float in
          let usage_data :=
            {| u_model := model self;
               prompt_tokens := gen_prompt r;
               completion_tokens := gen_completion r;
               total_tokens := gen_total r;
               u_cost := Some cost |} in
          ret (selected_threads r, Some usage_data)
      end
  end.

End ThreadGenerator.

(** ** services/editorial_judge.py *)

Module EditorialJudge.

Record t := { model : str }.

Definition init (w : World) (model : str) : Result t :=
  match openai_client w with
  | Raised e => Raised e
  | Ok _ => Ok {| model := model |}
  end.

(** The oracle answers with a decoded reply or with the text of the
    exception. *)
Definition evaluate (w : World) (self : t) (thread_text : str)
    : M (EditorialDecision * option UsageData) :=
  response <- call (fun tr => chat_judge w tr (model self) thread_text)
                   (EJudgeRequest (model self) thread_text) ;;
  match response with
  | inl r =>
      let usage_data :=
        {| u_model := model self;
           prompt_tokens := judge_prompt r;
           completion_tokens := judge_completion r;
           total_tokens := judge_total r;
           u_cost := None |} in
      ret (decision r, Some usage_data)
  | inr e =>
      ret ({| action := lit "abort"; confidence := 0%float;
              weakness := e; suggested_revision := [] |}, None)
  end.

End EditorialJudge.

(** ** services/telegram_notifier.py *)

Module TelegramNotifier.

Record t := { bot_token : option str; chat_id : option str }.

Definition init (w : World) : t :=
  {| bot_token := getenv w (lit "TELEGRAM_BOT_TOKEN");
     chat_id := getenv w (lit "TELEGRAM_CHAT_ID") |}.

(** [not self.bot_token or not self.chat_id] *)
Definition credentials_missing (self : t) : bool :=
  match bot_token self, chat_id self with
  | Some (_ :: _), Some (_ :: _) => false
  | _, _ => true
  end.

Definition OPEN_BOOK : str := [128214%N].
Definition NO_ENTRY : str := [128683%N].
Definition FENCE : str := [96%N; 96%N; 96%N].

(** The chunks of the message, tweet [i] being numbered [i+1]. *)
Fixpoint message_chunks (i : nat) (tweets : list str) : list str :=
  match tweets with
  | [] => []
  | tweet :: rest =>
      (lit "Tweet " ++ decimal (i + 1) ++ lit ":" ++ NL ++ FENCE ++ NL
         ++ tweet ++ NL ++ FENCE)
      :: message_chunks (S i) rest
  end.

Definition thread_message (title : str) (tweets : list str) : str :=
  let header :=
    OPEN_BOOK ++ lit " *THREAD FOR: " ++ title ++ lit "*" ++ NL
      ++ repeat_char 45%N 20 ++ NL in
  let full_message := header ++ join (NL ++ NL) (message_chunks 0 tweets) in
  if 4000 <? len full_message then slice_to 3997 full_message ++ lit "..."
  else full_message.

Definition send_thread (w : World) (self : t) (thread : Thread) : M bool :=
  if credentials_missing self then ret false
  else
    let title := get (post_title thread) (lit "Untitled Thread") in
    let tweets := get (tweets thread) [] in
    if negb (nonempty tweets) then ret false
    else
      let full_message := thread_message title tweets in
      delivered <- call (fun tr => telegram_post w tr full_message)
                        (EThreadPost full_message) ;;
      (* requests.post / raise_for_status(): no try around them *)
      if delivered then ret true
      else raise (RequestException (lit "sendMessage failed")).

Definition rejection_message (title reason : str) : str :=
  NO_ENTRY ++ lit " *ABORTED THREAD*" ++ NL ++ NL ++ lit "*Topic*: " ++ title
    ++ NL ++ lit "*Reason*: " ++ reason.

Definition send_rejection_notice (w : World) (self : t) (title reason : str)
    : M bool :=
  if credentials_missing self then ret false
  else
    let message := rejection_message title reason in
    delivered <- call (fun tr => telegram_post w tr message)
                      (ERejectionPost message) ;;
    ret delivered.                        (* except Exception: return False *)

(** The [for thread in threads] loop. *)
Fixpoint send_each (w : World) (self : t) (threads : list Thread) : M unit :=
  match threads with
  | [] => ret tt
  | thread :: rest =>
      send_thread w self thread ;;;
      send_each w self rest
  end.

(** [threads] is [thread_output.get("selected_threads", [])]. *)
Definition notify_all (w : World) (self : t) (threads : list Thread) : M unit :=
  if negb (nonempty threads) then ret tt
  else send_each w self threads.

End TelegramNotifier.

(** ** core/curator.py *)

Module ContentCurator.

Record t := {
  ai_filter : AIFilter.t;
  thread_gen : ThreadGenerator.t;
  notifier : TelegramNotifier.t;
  judge : EditorialJudge.t
}.

(** [__init__]: the services are built in the order of the source; the
    feed provider and the extractor hold constants only. *)
Definition init (w : World) (filter_model thread_model : str) : Result t :=
  match AIFilter.init w filter_model with
  | Raised e => Raised e
  | Ok ai_filter =>
      match ThreadGenerator.init w thread_model with
      | Raised e => Raised e
      | Ok thread_gen =>
          let notifier := TelegramNotifier.init w in
          match EditorialJudge.init w (lit "gpt-5.2") with
          | Raised e => Raised e
          | Ok judge =>
              Ok {| ai_filter := ai_filter; thread_gen := thread_gen;
                    notifier := notifier; judge := judge |}
          end
      end
  end.

(** *** The usage ledger *)

Record ModelStats := { prompt : Z; completion : Z; total : Z; cost : float }.

(** The dict [usage_stats]: the entries keyed by a model name, in insertion
    order, and the float under the key ["total_cost"]. *)
Record UsageStats := {
  models : list (str * ModelStats);
  total_cost : float
}.

Definition zero_stats : ModelStats :=
  {| prompt := 0; completion := 0; total := 0; cost := 0%float |}.

Definition initial_usage_stats : UsageStats :=
  {| models := [(lit "gpt-5-mini", zero_stats); (lit "gpt-5.2", zero_stats)];
     total_cost := 0%float |}.

Fixpoint lookup (model : str) (d : list (str * ModelStats)) : option ModelStats :=
  match d with
  | [] => None
  | (k, v) :: d' => if str_eqb k model then Some v else lookup model d'
  end.

(** [d[model] = v]: in place when the key exists, at the end otherwise. *)
Fixpoint store (model : str) (v : ModelStats) (d : list (str * ModelStats))
    : list (str * ModelStats) :=
  match d with
  | [] => [(model, v)]
  | (k, v') :: d' =>
      if str_eqb k model then (k, v) :: d' else (k, v') :: store model v d'
  end.

(** [usage_stats[model]] once a missing model has been given the zero
    entry. *)
Definition entry_of (model : str) (usage_stats : UsageStats) : ModelStats :=
  match lookup model (models usage_stats) with
  | Some e => e
  | None => zero_stats
  end.

(** [p * rate_p / 1000000 + c * rate_c / 1000000] for two [int] counts:
    each count is converted to a float first, and the conversion raises
    beyond the float range. *)
Definition priced (p c : Z) (rate_p rate_c : float) : option float :=
  match float_of_int p with
  | None => None
  | Some fp =>
      match float_of_int c with
      | None => None
      | Some fc => Some (fp * rate_p / 1000000 + fc * rate_c / 1000000)%float
      end
  end.

(** The cost that [_update_usage] adds for a record; [None] when the
    fallback pricing raises [OverflowError]. *)
Definition merged_cost (usage_data : UsageData) : option float :=
  let model := u_model usage_data in
  let cost := get (u_cost usage_data) 0%float in
  if negb (float_truthy cost) then
    if contains (lit "gpt-5-mini") model then
      priced (prompt_tokens usage_data) (completion_tokens usage_data) 0.15 0.6
    else if contains (lit "gpt-5.2") model then
      priced (prompt_tokens usage_data) (completion_tokens usage_data) 10.0 30.0
    else Some cost
  else Some cost.

(** The dict is mutated in place; here the new dict is returned.  A model
    named like the key of the grand total finds a float where an entry is
    expected.  When the pricing raises, the token counts have been added
    already; the exception leaves [run_pipeline], so that no code sees the
    dict after it. *)
Definition _update_usage (usage_stats : UsageStats) (usage_data : UsageData)
    : Result UsageStats :=
  let model := u_model usage_data in
  if str_eqb model (lit "total_cost") then
    Raised (TypeError (lit "'float' object is not subscriptable"))
  else
    let entry := entry_of model usage_stats in
    match merged_cost usage_data with
    | None => Raised (OverflowError (lit "int too large to convert to float"))
    | Some cost =>
        let entry' :=
          {| prompt := prompt entry + prompt_tokens usage_data;
             completion := completion entry + completion_tokens usage_data;
             total := total entry + total_tokens usage_data;
             cost := (ContentCurator.cost entry + cost)%float |} in
        Ok {| models := store model entry' (models usage_stats);
              total_cost := (total_cost usage_stats + cost)%float |}
    end.

(** Successive calls of [_update_usage] on one ledger. *)
Fixpoint merge_all (usage_stats : UsageStats) (records : list UsageData)
    : Result UsageStats :=
  match records with
  | [] => Ok usage_stats
  | usage_data :: rest =>
      match _update_usage usage_stats usage_data with
      | Ok s => merge_all s rest
      | Raised e => Raised e
      end
  end.

(** The sum of the per-model cost fields, in the order of the dict. *)
Definition sum_model_costs (usage_stats : UsageStats) : float :=
  fold_left (fun acc kv => (acc + cost (snd kv))%float) (models usage_stats) 0%float.

(** [if usage: self._update_usage(usage_stats, usage)] *)
Definition update_if_any (usage_stats : UsageStats) (usage : option UsageData)
    : M UsageStats :=
  match usage with
  | None => ret usage_stats
  | Some usage_data =>
      match _update_usage usage_stats usage_data with
      | Ok s => ret s
      | Raised e => raise e
      end
  end.

(** *** The editorial loop *)

Definition _process_single_thread (w : World) (self : t) (thread : Thread)
    (usage_stats : UsageStats) : M (Thread * bool * UsageStats) :=
  let post_title := get (post_title thread) (lit "Untitled") in
  let thread_text := join (NL ++ NL) (get (tweets thread) []) in
  '(decision, judge_usage) <- EditorialJudge.evaluate w (judge self) thread_text ;;
  usage_stats <- update_if_any usage_stats judge_usage ;;
  if str_eqb (action decision) (lit "accept") then ret (thread, true, usage_stats)
  else
    let reason := weakness decision in
    TelegramNotifier.send_rejection_notice w (notifier self) post_title reason ;;;
    ret (thread, false, usage_stats).

(** The variables the loop of [run_pipeline] updates. *)
Record LoopState := {
  approved_threads : list Thread;
  best_thread_so_far : option Thread;
  best_judge_score : Z;                   (* starts at -1.0 *)
  usage_stats : UsageStats
}.

(** [next((p for p in all_posts if p.id == post_id), None)] *)
Definition find_post (all_posts : list Post) (post_id : str) : option Post :=
  find (fun p => str_eqb (id p) post_id) all_posts.

(** [for i, rank_item in enumerate(...)], from index [i] on. *)
Fixpoint editorial_loop (w : World) (self : t) (all_posts : list Post)
    (i : nat) (items : list RankItem) (st : LoopState) : M LoopState :=
  match items with
  | [] => ret st
  | rank_item :: rest =>
      let post_id := r_id rank_item in
      let score := r_score rank_item in
      match find_post all_posts post_id with
      | None => editorial_loop w self all_posts (S i) rest st
      | Some post =>
          emit (ECandidate i rank_item) ;;;
          enriched_post <- ContentExtractor.enrich w post ;;
          '(gen_output, gen_usage) <-
             ThreadGenerator.generate_threads w (thread_gen self) [enriched_post] ;;
          stats <- update_if_any (usage_stats st) gen_usage ;;
          match gen_output with
          | [] =>
              editorial_loop w self all_posts (S i) rest
                {| approved_threads := approved_threads st;
                   best_thread_so_far := best_thread_so_far st;
                   best_judge_score := best_judge_score st;
                   usage_stats := stats |}
          | current_thread :: _ =>
              '(final_thread, loop_approved, stats) <-
                 _process_single_thread w self current_thread stats ;;
              emit (EVerdict i rank_item final_thread loop_approved) ;;;
              if loop_approved then
                let approved := approved_threads st ++ [final_thread] in
                let st' :=
                  {| approved_threads := approved;
                     best_thread_so_far := best_thread_so_far st;
                     best_judge_score := best_judge_score st;
                     usage_stats := stats |} in
                if 3 <=? Z.of_nat (List.length approved) then ret st'            (* break *)
                else editorial_loop w self all_posts (S i) rest st'
              else if best_judge_score st <? score then
                editorial_loop w self all_posts (S i) rest
                  {| approved_threads := approved_threads st;
                     best_thread_so_far := Some final_thread;
                     best_judge_score := score;
                     usage_stats := stats |}
              else
                editorial_loop w self all_posts (S i) rest
                  {| approved_threads := approved_threads st;
                     best_thread_so_far := best_thread_so_far st;
                     best_judge_score := best_judge_score st;
                     usage_stats := stats |}
          end
      end
  end.

(** The loop variables before the loop. *)
Definition loop_start (usage_stats : UsageStats) : LoopState :=
  {| approved_threads := [];
     best_thread_so_far := None;
     best_judge_score := -1;
     usage_stats := usage_stats |}.

(** [if not approved_threads and best_thread_so_far: append] *)
Definition fallback (st : LoopState) : list Thread :=
  match approved_threads st, best_thread_so_far st with
  | [], Some best =>
      if thread_truthy best then [best] else []
  | approved, _ => approved
  end.

Record PipelineResult := {
  posts : list Post;
  output_selected_threads : list Thread;
  usage : UsageStats
}.

Definition run_pipeline (w : World) (self : t) (subreddits : list str)
    (posts_per_sub : Z) : M PipelineResult :=
  let usage_stats := initial_usage_stats in
  (* Stage 1 *)
  all_posts <- RedditProvider.fetch_all w subreddits posts_per_sub 2.0%float ;;
  if negb (nonempty all_posts) then
    raise (RuntimeError
      (lit "[ORCHESTRATOR] Stage 1 Failed: No posts aggregated from subreddits."))
  else
  (* Stage 2 *)
  filtered <- AIFilter.filter w (ai_filter self) all_posts 300 1500 ;;
  match filtered with
  | AIFilter.BareList _ =>
      raise (ValueError (lit "not enough values to unpack (expected 2, got 0)"))
  | AIFilter.Pair ranked_data filter_usage =>
      usage_stats <- update_if_any usage_stats filter_usage ;;
      if negb (nonempty ranked_data) then
        ret {| posts := []; output_selected_threads := [];
               usage := usage_stats |}
      else
      (* Stages 3-5 *)
      st <- editorial_loop w self all_posts 0 (firstn 10 ranked_data)
              (loop_start usage_stats) ;;
      let approved_threads := fallback st in
      (* Stage 6 *)
      (if nonempty approved_threads
       then TelegramNotifier.notify_all w (notifier self) approved_threads
       else ret tt) ;;;
      ret {| posts := []; output_selected_threads := approved_threads;
             usage := ContentCurator.usage_stats st |}
  end.

End ContentCurator.

(** ** main.py *)

Module Main.

(** [[s.strip() for s in subreddits_env.split(",") if s.strip()]] *)
Definition parse_subreddits (subreddits_env : str) : list str :=
  map strip (List.filter (fun s => nonempty (strip s)) (split 44%N subreddits_env)).


End Main.

(** * What a run shows of itself *)

Module Observe.

(** The events of a trace that [f] selects, in order. *)
Fixpoint pick {A} (f : Event -> option A) (tr : Trace) : list A :=
  match tr with
  | [] => []
  | e :: tr' =>
      match f e with
      | Some a => a :: pick f tr'
      | None => pick f tr'
      end
  end.

(** The candidates the loop took up: index in the ranked list and entry. *)
Definition candidates : Trace -> list (nat * RankItem) :=
  pick (fun e => match e with ECandidate i item => Some (i, item) | _ => None end).

(** The threads judged "accept", in order. *)
Definition approvals : Trace -> list Thread :=
  pick (fun e => match e with EVerdict _ _ t true => Some t | _ => None end).

(** The threads judged otherwise, each with the ranking score of its
    candidate. *)
Definition rejections : Trace -> list (Z * Thread) :=
  pick (fun e => match e with
                 | EVerdict _ item t false => Some (r_score item, t)
                 | _ => None
                 end).

Definition page_fetches : Trace -> list str :=
  pick (fun e => match e with EPageFetch u => Some u | _ => None end).

Definition generate_requests : Trace -> list (list Post) :=
  pick (fun e => match e with EGenerateRequest _ ps => Some ps | _ => None end).

Definition judge_requests : Trace -> list str :=
  pick (fun e => match e with EJudgeRequest _ text => Some text | _ => None end).

Definition thread_posts : Trace -> list str :=
  pick (fun e => match e with EThreadPost m => Some m | _ => None end).

Definition rejection_posts : Trace -> list str :=
  pick (fun e => match e with ERejectionPost m => Some m | _ => None end).

(** Events of aggregation and ranking. *)
Definition early (e : Event) : bool :=
  match e with
  | EFeedGet _ | ESleep | ERankRequest _ _ => true
  | _ => false
  end.

(** Events of aggregation alone. *)
Definition feed_only (e : Event) : bool :=
  match e with
  | EFeedGet _ | ESleep => true
  | _ => false
  end.

(** Events of the editorial loop. *)
Definition in_loop (e : Event) : bool :=
  match e with
  | ECandidate _ _ | EPageFetch _ | EGenerateRequest _ _ | EJudgeRequest _ _
  | EVerdict _ _ _ _ | ERejectionPost _ => true
  | _ => false
  end.

(** Events of one round of the loop between the candidate and its verdict. *)
Definition in_round (e : Event) : bool :=
  match e with
  | EPageFetch _ | EGenerateRequest _ _ | EJudgeRequest _ _ | ERejectionPost _ => true
  | _ => false
  end.

(** Events of the delivery of finished threads. *)
Definition delivery (e : Event) : bool :=
  match e with
  | EThreadPost _ => true
  | _ => false
  end.

(** [l1] is [l2] with some elements left out. *)
Inductive Subseq {A} : list A -> list A -> Prop :=
| Subseq_nil : forall l, Subseq [] l
| Subseq_skip : forall a l1 l2, Subseq l1 l2 -> Subseq l1 (a :: l2)
| Subseq_take : forall a l1 l2, Subseq l1 l2 -> Subseq (a :: l1) (a :: l2).

(** [enumerate(items)] with the count starting at [i]. *)
Definition enumerate_from {A} (i : nat) (items : list A) : list (nat * A) :=
  combine (seq i (List.length items)) items.

(** One update of the pair (best score, best rejected thread). *)
Definition track (best : Z * option Thread) (rejected : Z * Thread)
    : Z * option Thread :=
  if fst best <? fst rejected then (fst rejected, Some (snd rejected)) else best.

End Observe.

(** * One round of the editorial loop *)

Module Round.
Import ContentCurator.

(** How the round of a resolved candidate ends when nothing raises. *)
Inductive t :=
| NoThread (stats : UsageStats)
| Judged (final_thread : Thread) (loop_approved : bool) (stats : UsageStats).

(** The body of the loop from the log line of the candidate to the return
    of [_process_single_thread]. *)
Definition run (w : World) (self : ContentCurator.t) (i : nat)
    (rank_item : RankItem) (post : Post) (stats : UsageStats) : M t :=
  emit (ECandidate i rank_item) ;;;
  enriched_post <- ContentExtractor.enrich w post ;;
  '(gen_output, gen_usage) <-
     ThreadGenerator.generate_threads w (thread_gen self) [enriched_post] ;;
  stats <- update_if_any stats gen_usage ;;
  match gen_output with
  | [] => ret (NoThread stats)
  | current_thread :: _ =>
      '(final_thread, loop_approved, stats) <-
         _process_single_thread w self current_thread stats ;;
      emit (EVerdict i rank_item final_thread loop_approved) ;;;
      ret (Judged final_thread loop_approved stats)
  end.

(** The rest of the body: the new loop variables, and whether the loop
    breaks. *)
Definition conclude (st : LoopState) (score : Z) (r : t) : LoopState * bool :=
  match r with
  | NoThread stats =>
      ({| approved_threads := approved_threads st;
          best_thread_so_far := best_thread_so_far st;
          best_judge_score := best_judge_score st;
          usage_stats := stats |}, false)
  | Judged final_thread true stats =>
      let approved := approved_threads st ++ [final_thread] in
      ({| approved_threads := approved;
          best_thread_so_far := best_thread_so_far st;
          best_judge_score := best_judge_score st;
          usage_stats := stats |},
       3 <=? Z.of_nat (List.length approved))
  | Judged final_thread false stats =>
      if best_judge_score st <? score then
        ({| approved_threads := approved_threads st;
            best_thread_so_far := Some final_thread;
            best_judge_score := score;
            usage_stats := stats |}, false)
      else
        ({| approved_threads := approved_threads st;
            best_thread_so_far := best_thread_so_far st;
            best_judge_score := best_judge_score st;
            usage_stats := stats |}, false)
  end.

(** The verdict event that closes a judged round. *)
Definition verdict_tail (i : nat) (rank_item : RankItem) (res : Result t) : Trace :=
  match res with
  | Ok (Judged final_thread loop_approved _) =>
      [EVerdict i rank_item final_thread loop_approved]
  | _ => []
  end.

End Round.

(** * Concrete worlds and inputs *)

Module Examples.

(** A world in which every outside call fails and nothing is configured. *)
Definition silent : World :=
  {| md5_hexdigest := fun s => s;
     strip_tags := fun s => s;
     html_unescape := fun s => s;
     parse_int := fun _ => None;
     getenv := fun _ => None;
     feed_get := fun _ _ => None;
     chat_rank := fun _ _ _ => None;
     page_text := fun _ _ => [];
     chat_generate := fun _ _ _ => None;
     chat_judge := fun _ _ _ => inr (lit "timeout");
     telegram_post := fun _ _ => false |}.

Definition mini_filter : AIFilter.t := {| AIFilter.model := lit "gpt-5-mini" |}.

Definition post_titled (t : str) : Post :=
  {| id := lit "0123456789"; title := t; link := lit "https://example.org/a";
     author := lit "alice"; subreddit := lit "rust"; updated := lit "today";
     rss_summary := lit "short summary"; full_content := None |}.

(** A post whose title has 350 characters. *)
Definition long_post : Post := post_titled (repeat 120%N 350).

(** The usage records of one candidate's run: ranking, generation (both
    with the cost the service computed), judgment (no cost). *)
Definition rank_usage : UsageData :=
  {| u_model := lit "gpt-5-mini"; prompt_tokens := 12000;
     completion_tokens := 800; total_tokens := 12800;
     u_cost := Some (float_of_Z 12000 * 0.15 / 1000000
                     + float_of_Z 800 * 0.60 / 1000000)%float |}.

Definition gen_usage : UsageData :=
  {| u_model := lit "gpt-5.2"; prompt_tokens := 3000;
     completion_tokens := 700; total_tokens := 3700;
     u_cost := Some (float_of_Z 3000 * 10.0 / 1000000
                     + float_of_Z 700 * 30.0 / 1000000)%float |}.

Definition judge_usage : UsageData :=
  {| u_model := lit "gpt-5.2"; prompt_tokens := 900;
     completion_tokens := 120; total_tokens := 1020;
     u_cost := None |}.

(** *** A working installation *)

Definition entry_by (who : string) (n : string) : Entry :=
  {| e_title := Some (lit "Title " ++ lit n);
     e_link := Some (lit "post-0000" ++ lit n);
     e_author := Some (lit who);
     e_updated := Some (lit "2024-01-01");
     e_summary := Some (lit "summary " ++ lit n) |}.

Definition feed : list Entry :=
  [entry_by "alice" "1"; entry_by "AutoModerator" "2"; entry_by "bob" "3";
   entry_by "carol" "4"; entry_by "dave" "5"; entry_by "erin" "6"].

Definition thread_for (p : Post) : Thread :=
  {| post_id := Some (id p); post_title := Some (title p);
     tweets := Some [lit "hook"; lit "1/1" ++ NL ++ NL ++ title p];
     thread_length := Some 2; reasoning := None |}.

Definition ranking (scores : list (string * Z)) : list RankItem :=
  map (fun '(n, s) => {| r_id := slice_to 10 (lit "post-0000" ++ lit n);
                         r_score := s |}) scores.

(** A world with the given environment, ranking answer, verdict of the
    judge and result of every message delivery. *)
Definition world (env : str -> option str) (ranked : list RankItem)
    (verdict : string) (delivered : bool) : World :=
  {| md5_hexdigest := fun s => s;
     strip_tags := fun s => s;
     html_unescape := fun s => s;
     parse_int := fun _ => None;
     getenv := env;
     feed_get := fun _ _ => Some (200, feed);
     chat_rank := fun _ _ _ =>
       Some {| ranked_posts := ranked;
               rank_prompt := 12000; rank_completion := 800; rank_total := 12800 |};
     page_text := fun _ _ => lit "the full text";
     chat_generate := fun _ _ ps =>
       Some {| selected_threads := map thread_for ps;
               gen_prompt := 3000; gen_completion := 700; gen_total := 3700 |};
     chat_judge := fun _ _ _ =>
       inl {| decision := {| action := lit verdict; confidence := 0.5%float;
                             weakness := lit "bland hook";
                             suggested_revision := [] |};
              judge_prompt := 900; judge_completion := 120; judge_total := 1020 |};
     telegram_post := fun _ _ => delivered |}.

Definition configured (subreddits : string) (key : str) : option str :=
  if str_eqb key (lit "SUBREDDITS") then Some (lit subreddits)
  else if str_eqb key (lit "OPENAI_API_KEY") then Some (lit "sk-test")
  else if str_eqb key (lit "TELEGRAM_BOT_TOKEN") then Some (lit "bot123")
  else if str_eqb key (lit "TELEGRAM_CHAT_ID") then Some (lit "42")
  else None.

Definition five : list RankItem :=
  ranking [("1"%string, 90); ("3"%string, 80); ("4"%string, 70); ("5"%string, 60); ("6"%string, 50)].

(** Everything is accepted, but the messaging channel refuses every POST. *)
Definition undeliverable : World :=
  world (configured "rust") (ranking [("1"%string, 90); ("3"%string, 80)]) "accept" false.


(** The ranking answers with an empty list. *)
Definition nothing_ranked : World := world (configured "rust") [] "accept" true.

Definition all_accepted : World := world (configured "rust") five "accept" true.

Definition all_rejected : World :=
  world (configured "rust")
    (ranking [("1"%string, 40); ("3"%string, 80); ("4"%string, 80); ("5"%string, 60)]) "revise" true.

(** The curator that [ContentCurator()] builds with its default models. *)
Definition curator (w : World) : ContentCurator.t :=
  {| ContentCurator.ai_filter := {| AIFilter.model := lit "gpt-5-mini" |};
     ContentCurator.thread_gen := {| ThreadGenerator.model := lit "gpt-5.2" |};
     ContentCurator.notifier := TelegramNotifier.init w;
     ContentCurator.judge := {| EditorialJudge.model := lit "gpt-5.2" |} |}.


(** One candidate, ranked with the score -1 and rejected. *)
Definition scored_minus_one : World :=
  world (configured "rust") (ranking [("1"%string, -1)]) "revise" true.

(** A judgment record whose prompt count is beyond the float range. *)
Definition huge_usage : UsageData :=
  {| u_model := lit "gpt-5.2"; prompt_tokens := 10 ^ 400;
     completion_tokens := 120; total_tokens := 10 ^ 400 + 120;
     u_cost := None |}.

(** The posts of the feed, moderators left out. *)
Definition posts : list Post :=
  RedditProvider.collect all_accepted (lit "rust") 10 feed 0 [].

End Examples.

(** * Vocabulary of the statements *)

(** ** The ledger *)

(** A float that is one of the two infinities. *)
Definition infinite (x : float) : Prop := exists s, Prim2SF x = S754_infinity s.

(** A token count that converts to a float: it lies inside the binary64
    range. *)
Definition in_float_range (n : Z) : Prop := float_of_int n <> None.

(** A record whose prompt and completion counts lie inside the float
    range. *)
Definition counts_in_range (u : UsageData) : Prop :=
  in_float_range (prompt_tokens u) /\ in_float_range (completion_tokens u).

(** A record [_update_usage] can merge: its model is not named like the key
    of the grand total and its counts lie inside the float range. *)
Definition mergeable (u : UsageData) : Prop :=
  u_model u <> lit "total_cost" /\ counts_in_range u.

(** The amount merged for a record ([0.0] stands in where its pricing
    raises). *)
Definition amount (u : UsageData) : float := get (ContentCurator.merged_cost u) 0%float.

(** One more amount on a running float sum. *)
Definition add_cost (acc : float) (u : UsageData) : float :=
  (acc + amount u)%float.

(** The records of one model. *)
Definition for_model (m : str) (u : UsageData) : bool := str_eqb (u_model u) m.

(** No service is configured with a model named like the key of the grand
    total (the generation and judgment services here, the ranking service
    where it matters). *)
Definition models_fit (self : ContentCurator.t) : Prop :=
  ThreadGenerator.model (ContentCurator.thread_gen self) <> lit "total_cost"
  /\ EditorialJudge.model (ContentCurator.judge self) <> lit "total_cost".

(** ** The feed *)

(** The entries the loop of [fetch_subreddit_posts] does not skip. *)
Definition kept (entry : Entry) : bool :=
  negb (RedditProvider.is_moderator (get (e_author entry) (lit "unknown"))).

(** ** The community list *)


Definition all_space (s : str) : Prop := Forall (fun c => is_space c = true) s.

(** ** Worlds *)



(** No POST to the messaging channel fails. *)
Definition reliable_delivery (w : World) : Prop :=
  forall tr text, telegram_post w tr text = true.

(** The prompt and completion counts of every judgment reply lie inside the
    float range. *)
Definition judge_counts_in_range (w : World) : Prop :=
  forall tr m text r,
    chat_judge w tr m text = inl r ->
    in_float_range (judge_prompt r) /\ in_float_range (judge_completion r).

(** The prompt and completion counts of every reply of the chat service
    (ranking, generation, judgment) lie inside the float range. *)
Definition reply_counts_in_range (w : World) : Prop :=
  (forall tr m payload r,
     chat_rank w tr m payload = Some r ->
     in_float_range (rank_prompt r) /\ in_float_range (rank_completion r))
  /\ (forall tr m ps r,
        chat_generate w tr m ps = Some r ->
        in_float_range (gen_prompt r) /\ in_float_range (gen_completion r))
  /\ judge_counts_in_range w.

(** * More of the sources *)

(** ** models.py: the minimal view of a post *)

Module PostViews.

(** [Post.to_minimal_dict] *)
Definition to_minimal_dict (self : Post) : Payload :=
  {| pl_id := id self;
     pl_title := title self;
     pl_rss_summary := rss_summary self;
     pl_subreddit := subreddit self |}.

End PostViews.

(** ** services/content_extractor.py: [extract], download by download *)

Module Extractor.

(** The web as [extract] sees it.  A download answers with a status code
    and a body, or raises (the text of the exception); the two decoders
    stand for what the code does with a body. *)
Record Web := {
  http_get : Trace -> str -> (Z * str) + str;
  (* resp.json() and [0]['data']['children'][0]['data'].get('selftext',
     '[No selftext]'); None: any of it raised *)
  listing_selftext : str -> option str;
  (* BeautifulSoup, the removal of script/style/nav/footer/header and
     get_text(separator=' ', strip=True); inr: it raised *)
  visible_text : str -> str + str
}.

Fixpoint drop_slashes (s : str) : str :=
  match s with
  | c :: s' => if N.eqb c 47 then drop_slashes s' else s
  | [] => []
  end.

(** [url.rstrip('/')] *)
Definition rstrip_slash (s : str) : str := rev (drop_slashes (rev s)).

(** [str(n)] for an integer. *)
Definition decimal_Z (z : Z) : str :=
  match z with
  | Zneg p => lit "-" ++ decimal (Pos.to_nat p)
  | _ => decimal (Z.to_nat z)
  end.

(** The first [try]: the text of the listing, or [None] to fall through. *)
Definition from_listing (web : Web) (url : str) : M (option str) :=
  if contains (lit "reddit.com") url then
    let json_url := rstrip_slash url ++ lit ".json" in
    resp <- call (fun tr => http_get web tr json_url) (EPageFetch json_url) ;;
    match resp with
    | inl (status_code, body) =>
        if status_code =? 200 then ret (listing_selftext web body)
        else ret None
    | inr _ => ret None                     (* except: pass *)
    end
  else ret None.

(** The second [try]. *)
Definition from_page (web : Web) (url : str) : M str :=
  resp <- call (fun tr => http_get web tr url) (EPageFetch url) ;;
  match resp with
  | inl (status_code, body) =>
      if negb (status_code =? 200) then
        ret (lit "[Error " ++ decimal_Z status_code ++ lit "]")
      else
        match visible_text web body with
        | inl text =>
            ret (if 5000 <? len text then slice_to 5000 text ++ lit "..." else text)
        | inr e => ret (lit "[Extraction Failed: " ++ e ++ lit "]")
        end
  | inr e => ret (lit "[Extraction Failed: " ++ e ++ lit "]")
  end.

Definition extract (web : Web) (post : Post) : M str :=
  let url := link post in
  if negb (nonempty url) then ret []
  else
    listed <- from_listing web url ;;
    match listed with
    | Some text => ret text
    | None => from_page web url
    end.

End Extractor.

(** ** More to read off a trace *)

Module Observe2.

(** The feed addresses requested, in order. *)
Definition feed_gets : Trace -> list str :=
  Observe.pick (fun e => match e with EFeedGet u => Some u | _ => None end).

(** The pauses between feed requests. *)
Definition sleeps : Trace -> list unit :=
  Observe.pick (fun e => match e with ESleep => Some tt | _ => None end).

End Observe2.

(** ** More vocabulary *)

(** What [fetch_subreddit_posts] makes of the answer of the feed. *)
Definition posts_of_answer (w : World) (subreddit : str) (limit : Z)
    (answer : option (Z * list Entry)) : list Post :=
  match answer with
  | Some (status, entries) =>
      if status =? 200 then RedditProvider.collect w subreddit limit entries 0 []
      else []
  | None => []
  end.

(** A world whose feeds answer the same whatever happened before. *)
Definition steady_feeds (w : World) : Prop :=
  forall tr tr' url, feed_get w tr url = feed_get w tr' url.

(** A world in which no feed answers with status 200. *)
Definition feeds_down (w : World) : Prop :=
  forall tr url status entries,
    feed_get w tr url = Some (status, entries) -> status <> 200.

(** The message [send_thread] composes, before it is cut. *)
Definition composed_message (thread : Thread) : str :=
  (TelegramNotifier.OPEN_BOOK ++ lit " *THREAD FOR: "
     ++ get (post_title thread) (lit "Untitled Thread") ++ lit "*" ++ NL
     ++ repeat_char 45%N 20 ++ NL)
  ++ join (NL ++ NL) (TelegramNotifier.message_chunks 0 (get (tweets thread) [])).

(** The text the judge is asked about. *)
Definition judged_text (thread : Thread) : str :=
  join (NL ++ NL) (get (tweets thread) []).

(** The reason a rejection notice states: the weakness the judge named, or
    the text of the exception when the judgment failed. *)
Definition stated_reason (answer : JudgeReply + str) : str :=
  match answer with
  | inl r => weakness (decision r)
  | inr e => e
  end.

(** The text of the rejection notice for a thread. *)
Definition notice_of (thread : Thread) (answer : JudgeReply + str) : str :=
  TelegramNotifier.rejection_message (get (post_title thread) (lit "Untitled"))
    (stated_reason answer).

(** The text [send_thread] posts for a thread. *)
Definition message_of (thread : Thread) : str :=
  TelegramNotifier.thread_message (get (post_title thread) (lit "Untitled Thread"))
    (get (tweets thread) []).

(** The threads [send_thread] tries to deliver: those with a tweet. *)
Definition deliverable (thread : Thread) : bool :=
  nonempty (get (tweets thread) []).

(** Sum of integers. *)
Definition Zsum (l : list Z) : Z := fold_right Z.add 0 l.

(** A community name as [main] keeps it: not empty, no comma, no white
    space at either end. *)
Definition clean_name (name : str) : Prop :=
  name <> []
  /\ ~ In 44%N name
  /\ (forall c rest, name = c :: rest -> is_space c = false)
  /\ (forall c front, name = front ++ [c] -> is_space c = false).

(** ** More concrete inputs *)

Module Examples2.

(** A web where listings answer with a long text, pages named "missing"
    with 404 and every other page with a long visible text. *)
Definition web : Extractor.Web :=
  {| Extractor.http_get := fun _ url =>
       if contains (lit "missing") url then inl (404, lit "not found")
       else inl (200, lit "body");
     Extractor.listing_selftext := fun _ => Some (repeat 97%N (60 * 100));
     Extractor.visible_text := fun _ => inl (repeat 98%N (60 * 100)) |}.

Definition post_at (url : string) : Post :=
  {| id := lit "0123456789"; title := lit "A title"; link := lit url;
     author := lit "alice"; subreddit := lit "rust"; updated := lit "today";
     rss_summary := lit "short summary"; full_content := None |}.

Definition reddit_post : Post := post_at "https://www.reddit.com/r/rust/comments/1/".

Definition outside_post : Post := post_at "https://example.org/article".

Definition missing_post : Post := post_at "https://example.org/missing".

(** The ranking names posts that were never aggregated. *)
Definition strangers : World :=
  Examples.world (Examples.configured "rust")
    (Examples.ranking [("9"%string, 90); ("8"%string, 80)]) "accept" true.

End Examples2.

(** * Properties *)

(** ** Strings *)

Lemma str_eqb_eq (a b : str) : str_eqb a b = true <-> a = b.
Proof.
  revert b; induction a as [|x a IH]; intros [|y b]; simpl; split;
    try congruence; try reflexivity.
  - intros H. apply andb_true_iff in H as [Hx Hr].
    apply N.eqb_eq in Hx. apply IH in Hr. congruence.
  - intros H. inversion H; subst. rewrite N.eqb_refl. simpl. now apply IH.
Qed.

Lemma str_eqb_refl (a : str) : str_eqb a a = true.
Proof. now apply str_eqb_eq. Qed.

Lemma str_eqb_neq (a b : str) : str_eqb a b = false <-> a <> b.
Proof.
  split.
  - intros H E. apply str_eqb_eq in E. congruence.
  - intros H. destruct (str_eqb a b) eqn:E; [|reflexivity].
    apply str_eqb_eq in E. contradiction.
Qed.

Lemma len_app (a b : str) : len (a ++ b) = len a + len b.
Proof. unfold len. rewrite length_app. lia. Qed.

Lemma len_firstn (n : nat) (s : str) :
  Z.of_nat n <= len s -> len (firstn n s) = Z.of_nat n.
Proof. unfold len. intros H. rewrite length_firstn. lia. Qed.

(** ** Ranking payload (AIFilter) *)

Lemma shorten_long (limit : Z) (s : str) :
  3 <= limit -> limit < len s ->
  AIFilter.shorten limit s = firstn (Z.to_nat (limit - 3)) s ++ lit "..."
  /\ len (AIFilter.shorten limit s) = limit.
Proof.
  intros Hl Hs. unfold AIFilter.shorten, slice_to.
  apply Z.ltb_lt in Hs as Hb. rewrite Hb.
  assert (Hk : (0 <=? limit - 3) = true) by (apply Z.leb_le; lia).
  rewrite Hk. split; [reflexivity|].
  rewrite len_app, len_firstn by lia.
  change (len (lit "...")) with 3. lia.
Qed.

Lemma shorten_short (limit : Z) (s : str) :
  len s <= limit -> AIFilter.shorten limit s = s.
Proof.
  intros H. unfold AIFilter.shorten.
  assert (Hb : (limit <? len s) = false) by (apply Z.ltb_ge; lia).
  now rewrite Hb.
Qed.

Lemma filter_request (w : World) (self : AIFilter.t) (p : Post) (ps : list Post)
    (tl sl : Z) (tr : Trace) :
  snd (AIFilter.filter w self (p :: ps) tl sl tr)
  = tr ++ [ERankRequest (AIFilter.model self) (AIFilter.build_payload tl sl (p :: ps))].
Proof.
  unfold AIFilter.filter, bind, call.
  destruct (chat_rank w tr _ _); reflexivity.
Qed.

(** C8.  The payload that [filter] sends holds, for every post, the title cut
    to its first 297 characters plus ["..."] (300 characters in all) when it
    is longer than 300 characters and the title itself otherwise; likewise
    the summary with 1500 and 1497. *)
Theorem C8_payload_truncation (w : World) (self : AIFilter.t)
    (posts : list Post) (i : nat) (p : Post) (tr : Trace) :
  nth_error posts i = Some p ->
  snd (AIFilter.filter w self posts 300 1500 tr)
    = tr ++ [ERankRequest (AIFilter.model self) (AIFilter.build_payload 300 1500 posts)]
  /\ exists e,
       nth_error (AIFilter.build_payload 300 1500 posts) i = Some e
       /\ pl_id e = id p /\ pl_subreddit e = subreddit p
       /\ (300 < len (title p) ->
             pl_title e = firstn 297 (title p) ++ lit "..." /\ len (pl_title e) = 300)
       /\ (len (title p) <= 300 -> pl_title e = title p)
       /\ (1500 < len (rss_summary p) ->
             pl_rss_summary e = firstn 1497 (rss_summary p) ++ lit "..."
             /\ len (pl_rss_summary e) = 1500)
       /\ (len (rss_summary p) <= 1500 -> pl_rss_summary e = rss_summary p).
Proof.
  intros Hp. split.
  - destruct posts as [|q qs]; [destruct i; discriminate|]. apply filter_request.
  - unfold AIFilter.build_payload. rewrite nth_error_map, Hp. simpl.
    eexists; split; [reflexivity|]. simpl.
    split; [reflexivity|]. split; [reflexivity|].
    split; [|split; [|split]].
    + intros H. now apply shorten_long.
    + intros H. now apply shorten_short.
    + intros H. now apply shorten_long.
    + intros H. now apply shorten_short.
Qed.

Lemma C8_payload_truncation_witness :
  exists e,
    nth_error (AIFilter.build_payload 300 1500 [Examples.long_post]) 0 = Some e
    /\ len (pl_title e) = 300.
Proof.
  destruct (@C8_payload_truncation Examples.silent Examples.mini_filter
              [Examples.long_post] 0 Examples.long_post [] eq_refl)
    as (_ & e & He & _ & _ & Hlong & _).
  exists e. split; [exact He|]. apply Hlong. vm_compute. reflexivity.
Defined.

(** C9.  On an empty list of posts [filter] makes no request and returns the
    bare empty list; on every non-empty list it makes one ranking request and
    returns a pair (ranked list, usage), also when the request fails.  The two
    results have different shapes. *)
Theorem C9_filter_result_shape (w : World) (self : AIFilter.t)
    (title_limit summary_limit : Z) (tr : Trace) :
  AIFilter.filter w self [] title_limit summary_limit tr
    = (Ok (AIFilter.BareList []), tr)
  /\ (forall p ps, exists ranked usage,
        AIFilter.filter w self (p :: ps) title_limit summary_limit tr
        = (Ok (AIFilter.Pair ranked usage),
           tr ++ [ERankRequest (AIFilter.model self)
                    (AIFilter.build_payload title_limit summary_limit (p :: ps))]))
  /\ (forall l ranked usage, AIFilter.BareList l <> AIFilter.Pair ranked usage).
Proof.
  split; [reflexivity|]. split.
  - intros p ps. unfold AIFilter.filter, bind, call.
    destruct (chat_rank w tr _ _) as [r|]; eexists; eexists; reflexivity.
  - intros l ranked usage H. discriminate H.
Qed.

(** ** Floats *)

Lemma float_of_int_some (n : Z) :
  in_float_range n -> float_of_int n = Some (float_of_Z n).
Proof.
  unfold in_float_range, float_of_int, float_of_Z.
  destruct (binary_normalize prec emax n 0 false); congruence.
Qed.

Lemma float_of_int_none (n : Z) : float_of_int n = None -> infinite (float_of_Z n).
Proof.
  unfold float_of_int, float_of_Z.
  destruct (binary_normalize prec emax n 0 false) as [| s | |]; try discriminate.
  intros _. exists s. destruct s; reflexivity.
Qed.

Lemma infinite_scaled (x rate : float) (s : bool) (m : positive) (e : Z) :
  Prim2SF rate = S754_finite s m e ->
  infinite x -> infinite (x * rate / 1000000).
Proof.
  intros Hr [sx Hx]. unfold infinite.
  rewrite FloatAxioms.div_spec, FloatAxioms.mul_spec, Hx, Hr.
  eexists. reflexivity.
Qed.

Lemma infinite_sum_truthy (x y : float) :
  infinite x \/ infinite y -> float_truthy (x + y) = true.
Proof.
  unfold float_truthy. rewrite FloatAxioms.eqb_spec, FloatAxioms.add_spec.
  intros [[s H] | [s H]]; rewrite H.
  - destruct (Prim2SF y) as [sy|sy| |sy my ey]; destruct s; try destruct sy; reflexivity.
  - destruct (Prim2SF x) as [sx|sx| |sx mx ex]; destruct s; try destruct sx; reflexivity.
Qed.

(** A cost that a service computed from the counts with finite rates is
    zero only for counts inside the float range. *)
Lemma zero_price_in_range (p c : Z) (rate_p rate_c : float)
    (sp sc : bool) (mp mc : positive) (ep ec : Z) :
  Prim2SF rate_p = S754_finite sp mp ep ->
  Prim2SF rate_c = S754_finite sc mc ec ->
  float_truthy (float_of_Z p * rate_p / 1000000 + float_of_Z c * rate_c / 1000000) = false ->
  in_float_range p /\ in_float_range c.
Proof.
  intros Hp Hc Hz. unfold in_float_range. split; intros Hn.
  - apply float_of_int_none in Hn. apply (infinite_scaled _ Hp) in Hn.
    rewrite infinite_sum_truthy in Hz by (left; exact Hn). discriminate Hz.
  - apply float_of_int_none in Hn. apply (infinite_scaled _ Hc) in Hn.
    rewrite infinite_sum_truthy in Hz by (right; exact Hn). discriminate Hz.
Qed.

(** ** The usage ledger *)

Section Ledger.
Import ContentCurator.

Lemma lookup_store_same (m : str) (v : ModelStats) (d : list (str * ModelStats)) :
  lookup m (store m v d) = Some v.
Proof.
  induction d as [|[k v'] d IH]; simpl.
  - now rewrite str_eqb_refl.
  - destruct (str_eqb k m) eqn:E; simpl; rewrite E; [reflexivity|exact IH].
Qed.

Lemma lookup_store_other (m m' : str) (v : ModelStats) (d : list (str * ModelStats)) :
  m' <> m -> lookup m' (store m v d) = lookup m' d.
Proof.
  intros Hne. induction d as [|[k v'] d IH]; simpl.
  - assert (E : str_eqb m m' = false) by (apply str_eqb_neq; congruence).
    now rewrite E.
  - destruct (str_eqb k m) eqn:E; simpl.
    + apply str_eqb_eq in E. subst k.
      assert (E' : str_eqb m m' = false) by (apply str_eqb_neq; congruence).
      now rewrite E'.
    + now rewrite IH.
Qed.

Lemma priced_in_range (p c : Z) (rate_p rate_c : float) :
  in_float_range p -> in_float_range c ->
  priced p c rate_p rate_c
  = Some (float_of_Z p * rate_p / 1000000 + float_of_Z c * rate_c / 1000000)%float.
Proof.
  intros Hp Hc. unfold priced.
  now rewrite (float_of_int_some Hp), (float_of_int_some Hc).
Qed.

(** Counts inside the float range are always priced. *)
Lemma merged_cost_in_range (u : UsageData) :
  counts_in_range u -> merged_cost u = Some (amount u).
Proof.
  intros [Hp Hc]. unfold amount.
  assert (H : exists c, merged_cost u = Some c); [|destruct H as [c ->]; reflexivity].
  unfold merged_cost.
  destruct (negb (float_truthy (get (u_cost u) 0%float))); [|now eexists].
  destruct (contains (lit "gpt-5-mini") (u_model u));
    [rewrite (priced_in_range _ _ Hp Hc); now eexists|].
  destruct (contains (lit "gpt-5.2") (u_model u));
    [rewrite (priced_in_range _ _ Hp Hc); now eexists | now eexists].
Qed.

(** A record that carries the cost its service computed from its own
    counts is always priced: the fallback is taken only when that cost is
    zero, and then the counts are inside the float range. *)
Lemma merged_cost_service_priced (u : UsageData) (rate_p rate_c : float)
    (sp sc : bool) (mp mc : positive) (ep ec : Z) :
  Prim2SF rate_p = S754_finite sp mp ep ->
  Prim2SF rate_c = S754_finite sc mc ec ->
  u_cost u = Some (float_of_Z (prompt_tokens u) * rate_p / 1000000
                   + float_of_Z (completion_tokens u) * rate_c / 1000000)%float ->
  merged_cost u <> None.
Proof.
  intros Hp Hc Hu.
  destruct (float_truthy (float_of_Z (prompt_tokens u) * rate_p / 1000000
                          + float_of_Z (completion_tokens u) * rate_c / 1000000))
    eqn:Ht.
  - unfold merged_cost. rewrite Hu. cbn [get]. rewrite Ht. discriminate.
  - pose proof (@zero_price_in_range (prompt_tokens u) (completion_tokens u)
                  rate_p rate_c sp sc mp mc ep ec Hp Hc Ht) as Hr.
    rewrite (@merged_cost_in_range u Hr). discriminate.
Qed.

(** One call of [_update_usage]: what it does to the entry of the record's
    model, to every other entry and to the grand total. *)
Lemma update_usage_step (s : UsageStats) (u : UsageData) (paid : float) :
  u_model u <> lit "total_cost" ->
  merged_cost u = Some paid ->
  exists s',
    _update_usage s u = Ok s'
    /\ entry_of (u_model u) s'
       = {| prompt := prompt (entry_of (u_model u) s) + prompt_tokens u;
            completion := completion (entry_of (u_model u) s) + completion_tokens u;
            total := total (entry_of (u_model u) s) + total_tokens u;
            cost := (cost (entry_of (u_model u) s) + paid)%float |}
    /\ total_cost s' = (total_cost s + paid)%float
    /\ (forall m, m <> u_model u -> entry_of m s' = entry_of m s).
Proof.
  intros Hm Hpaid. apply str_eqb_neq in Hm.
  unfold _update_usage. rewrite Hm, Hpaid.
  eexists; split; [reflexivity|]. unfold entry_of at 1; simpl.
  rewrite lookup_store_same. split; [reflexivity|]. split; [reflexivity|].
  intros m Hne. unfold entry_of; simpl. now rewrite lookup_store_other.
Qed.

Lemma update_usage_mergeable (s : UsageStats) (u : UsageData) :
  mergeable u ->
  exists s',
    _update_usage s u = Ok s'
    /\ entry_of (u_model u) s'
       = {| prompt := prompt (entry_of (u_model u) s) + prompt_tokens u;
            completion := completion (entry_of (u_model u) s) + completion_tokens u;
            total := total (entry_of (u_model u) s) + total_tokens u;
            cost := (cost (entry_of (u_model u) s) + amount u)%float |}
    /\ total_cost s' = (total_cost s + amount u)%float
    /\ (forall m, m <> u_model u -> entry_of m s' = entry_of m s).
Proof.
  intros [Hm Hr]. apply update_usage_step; [exact Hm | now apply merged_cost_in_range].
Qed.

(** The error path of the fallback pricing: with no cost in the record, a
    model name that has a fallback rate and a count beyond the float range,
    [_update_usage] raises. *)
Lemma update_usage_overflow (s : UsageStats) (u : UsageData) :
  u_model u <> lit "total_cost" ->
  u_cost u = None ->
  contains (lit "gpt-5-mini") (u_model u) = true
  \/ contains (lit "gpt-5.2") (u_model u) = true ->
  float_of_int (prompt_tokens u) = None \/ float_of_int (completion_tokens u) = None ->
  _update_usage s u = Raised (OverflowError (lit "int too large to convert to float")).
Proof.
  intros Hm Hc Hmodel Hbig. apply str_eqb_neq in Hm.
  unfold _update_usage. rewrite Hm.
  assert (Hp : forall a b, priced (prompt_tokens u) (completion_tokens u) a b = None).
  { intros a b. unfold priced. destruct Hbig as [-> | H]; [reflexivity|].
    rewrite H. now destruct (float_of_int (prompt_tokens u)). }
  assert (Hn : merged_cost u = None).
  { unfold merged_cost. rewrite Hc. cbn [get].
    replace (negb (float_truthy 0)) with true by reflexivity.
    destruct (contains (lit "gpt-5-mini") (u_model u)); [apply Hp|].
    destruct Hmodel as [H | ->]; [discriminate H | apply Hp]. }
  now rewrite Hn.
Qed.

(** At 10 ^ 400 prompt tokens the judgment record of the default judge is
    not merged. *)
Lemma update_usage_overflow_at_huge_count (s : UsageStats) :
  _update_usage s Examples.huge_usage
  = Raised (OverflowError (lit "int too large to convert to float")).
Proof.
  apply update_usage_overflow.
  - vm_compute. discriminate.
  - reflexivity.
  - right. vm_compute. reflexivity.
  - left. vm_compute. reflexivity.
Qed.

(** C5.  For a record whose prompt and completion counts lie inside the
    float range, merging adds its three token counts to the entry of its
    model and one cost amount both to that entry and to the grand total,
    leaving the other entries alone.  With no cost in the record the amount
    is prompt * 0.15 / 1000000 + completion * 0.6 / 1000000 when the model
    name contains "gpt-5-mini", and prompt * 10.0 / 1000000 + completion *
    30.0 / 1000000 when it contains "gpt-5.2" (and not "gpt-5-mini"); a
    non-zero cost in the record is the amount itself. *)
Theorem C5_update_usage_additive (s : UsageStats) (u : UsageData) :
  u_model u <> lit "total_cost" ->
  counts_in_range u ->
  exists s' paid,
    merged_cost u = Some paid
    /\ _update_usage s u = Ok s'
    /\ prompt (entry_of (u_model u) s')
       = prompt (entry_of (u_model u) s) + prompt_tokens u
    /\ completion (entry_of (u_model u) s')
       = completion (entry_of (u_model u) s) + completion_tokens u
    /\ total (entry_of (u_model u) s')
       = total (entry_of (u_model u) s) + total_tokens u
    /\ cost (entry_of (u_model u) s')
       = (cost (entry_of (u_model u) s) + paid)%float
    /\ total_cost s' = (total_cost s + paid)%float
    /\ (forall m, m <> u_model u -> entry_of m s' = entry_of m s)
    /\ (u_cost u = None -> contains (lit "gpt-5-mini") (u_model u) = true ->
        paid
        = (float_of_Z (prompt_tokens u) * 0.15 / 1000000
           + float_of_Z (completion_tokens u) * 0.6 / 1000000)%float)
    /\ (u_cost u = None -> contains (lit "gpt-5-mini") (u_model u) = false ->
        contains (lit "gpt-5.2") (u_model u) = true ->
        paid
        = (float_of_Z (prompt_tokens u) * 10.0 / 1000000
           + float_of_Z (completion_tokens u) * 30.0 / 1000000)%float)
    /\ (forall c, u_cost u = Some c -> float_truthy c = true -> paid = c).
Proof.
  intros Hm Hr.
  pose proof (merged_cost_in_range Hr) as Hpaid.
  destruct (@update_usage_step s u (amount u) Hm Hpaid) as (s' & Hs' & He & Ht & Ho).
  exists s', (amount u). rewrite He. cbn [prompt completion total cost].
  split; [exact Hpaid|]. split; [exact Hs'|].
  do 4 (split; [reflexivity|]). split; [exact Ht|]. split; [exact Ho|].
  destruct Hr as [Hp Hc].
  split; [|split].
  - intros Hcost Hmini.
    assert (E : merged_cost u
                = priced (prompt_tokens u) (completion_tokens u) 0.15 0.6)
      by (unfold merged_cost; rewrite Hcost, Hmini; reflexivity).
    rewrite (priced_in_range _ _ Hp Hc), Hpaid in E. now injection E.
  - intros Hcost Hmini Hbig.
    assert (E : merged_cost u
                = priced (prompt_tokens u) (completion_tokens u) 10.0 30.0)
      by (unfold merged_cost; rewrite Hcost, Hmini, Hbig; reflexivity).
    rewrite (priced_in_range _ _ Hp Hc), Hpaid in E. now injection E.
  - intros c Hcost Htruthy.
    assert (E : merged_cost u = Some c)
      by (unfold merged_cost; rewrite Hcost; cbn [get]; now rewrite Htruthy).
    rewrite Hpaid in E. now injection E.
Qed.

Lemma C5_update_usage_additive_witness :
  exists s',
    _update_usage initial_usage_stats Examples.judge_usage = Ok s'
    /\ entry_of (lit "gpt-5.2") s'
       = {| prompt := 900; completion := 120; total := 1020;
            cost := (0 + (float_of_Z 900 * 10.0 / 1000000
                          + float_of_Z 120 * 30.0 / 1000000))%float |}
    /\ total_cost s' = cost (entry_of (lit "gpt-5.2") s').
Proof.
  assert (Hm : u_model Examples.judge_usage <> lit "total_cost")
    by (vm_compute; discriminate).
  assert (Hr : counts_in_range Examples.judge_usage)
    by (split; vm_compute; discriminate).
  destruct (@C5_update_usage_additive initial_usage_stats Examples.judge_usage Hm Hr)
    as (s' & paid & _ & Hs' & Hp & Hc & Ht & Hk & Htot & _ & _ & Hbig & _).
  exists s'. split; [exact Hs'|].
  specialize (Hbig eq_refl eq_refl eq_refl).
  change (u_model Examples.judge_usage) with (lit "gpt-5.2") in *.
  split.
  - rewrite Hbig in Hk.
    destruct (entry_of (lit "gpt-5.2") s') as [p c t k].
    cbn [prompt completion total cost] in Hp, Hc, Ht, Hk.
    rewrite Hp, Hc, Ht, Hk. reflexivity.
  - rewrite Htot, Hk. reflexivity.
Defined.

Lemma merge_all_running_sums (us : list UsageData) :
  Forall mergeable us ->
  forall s0, exists s,
    merge_all s0 us = Ok s
    /\ total_cost s = fold_left add_cost us (total_cost s0)
    /\ (forall m, cost (entry_of m s)
                  = fold_left add_cost (List.filter (for_model m) us)
                      (cost (entry_of m s0))).
Proof.
  induction 1 as [|u us Hu Hus IH]; intros s0.
  - exists s0. simpl. auto.
  - destruct (@update_usage_mergeable s0 u Hu) as (s1 & Hs1 & He & Ht & Ho).
    destruct (IH s1) as (s & Hs & Hts & Hms).
    exists s. simpl. rewrite Hs1. split; [exact Hs|]. split.
    + rewrite Hts, Ht. reflexivity.
    + intros m. rewrite Hms. unfold for_model at 2.
      destruct (str_eqb (u_model u) m) eqn:E.
      * apply str_eqb_eq in E. subst m. simpl. rewrite He. reflexivity.
      * apply str_eqb_neq in E. rewrite Ho by congruence. reflexivity.
Qed.

Lemma entry_of_initial_cost (m : str) :
  cost (entry_of m initial_usage_stats) = 0%float.
Proof.
  cbv [entry_of initial_usage_stats models lookup].
  destruct (str_eqb (lit "gpt-5-mini") m); [reflexivity|].
  destruct (str_eqb (lit "gpt-5.2") m); reflexivity.
Qed.

(** C10, as the code has it.  The ledger starts with the grand total and
    every per-model cost at 0.0.  For records whose model is not named
    "total_cost" and whose prompt and completion counts lie inside the float
    range, every call of [_update_usage] returns and adds one and the same
    amount to the cost of exactly one entry, that of the record's model, and
    to the grand total.  So after any sequence of such calls the grand total
    is the float sum, in call order, of all the amounts merged, and the cost
    of each model is the float sum, in call order, of the amounts merged for
    that model. *)
Theorem C10_ledger_running_sums (us : list UsageData) :
  Forall mergeable us ->
  (total_cost initial_usage_stats = 0%float
   /\ forall m, cost (entry_of m initial_usage_stats) = 0%float)
  /\ (forall s u, In u us ->
        exists s', merged_cost u = Some (amount u)
          /\ _update_usage s u = Ok s'
          /\ total_cost s' = (total_cost s + amount u)%float
          /\ cost (entry_of (u_model u) s')
             = (cost (entry_of (u_model u) s) + amount u)%float
          /\ forall m, m <> u_model u -> entry_of m s' = entry_of m s)
  /\ exists s,
       merge_all initial_usage_stats us = Ok s
       /\ total_cost s = fold_left add_cost us 0%float
       /\ forall m, cost (entry_of m s)
                    = fold_left add_cost (List.filter (for_model m) us) 0%float.
Proof.
  intros Hus. split; [|split].
  - split; [reflexivity|]. apply entry_of_initial_cost.
  - intros s u Hin. rewrite Forall_forall in Hus.
    destruct (@update_usage_mergeable s u (Hus u Hin)) as (s' & Hs' & He & Ht & Ho).
    exists s'. rewrite He. simpl.
    split; [apply merged_cost_in_range; apply (Hus u Hin) | auto].
  - destruct (@merge_all_running_sums us Hus initial_usage_stats)
      as (s & Hs & Ht & Hm).
    exists s. split; [exact Hs|]. split; [exact Ht|].
    intros m. rewrite Hm. f_equal. apply entry_of_initial_cost.
Qed.

Lemma C10_ledger_running_sums_witness :
  exists s,
    merge_all initial_usage_stats
      [Examples.rank_usage; Examples.gen_usage; Examples.judge_usage] = Ok s
    /\ total_cost s
       = fold_left add_cost
           [Examples.rank_usage; Examples.gen_usage; Examples.judge_usage] 0%float.
Proof.
  assert (H : Forall mergeable
                [Examples.rank_usage; Examples.gen_usage; Examples.judge_usage])
    by (repeat constructor; vm_compute; discriminate).
  destruct (@C10_ledger_running_sums _ H) as (_ & _ & s & Hs & Ht & _).
  exists s. split; [exact Hs | exact Ht].
Defined.

(** C10 as stated fails in binary64: after the ranking and the generation
    record the grand total equals the sum of the per-model costs, and the
    judgment record of the same candidate breaks the equality. *)
Lemma C10_total_differs_from_model_sum :
  exists s2 s3,
    merge_all initial_usage_stats [Examples.rank_usage; Examples.gen_usage] = Ok s2
    /\ total_cost s2 = sum_model_costs s2
    /\ _update_usage s2 Examples.judge_usage = Ok s3
    /\ total_cost s3 <> sum_model_costs s3
    /\ total_cost s3
       <> fold_left (fun acc kv => (acc + cost (snd kv))%float)
            (rev (models s3)) 0%float.
Proof.
  eexists. eexists.
  split; [vm_compute; reflexivity|].
  split; [vm_compute; reflexivity|].
  split; [vm_compute; reflexivity|].
  split.
  - intros H.
    apply (f_equal (fun x => PrimFloat.eqb x 0.065880000000000008%float)) in H.
    vm_compute in H. discriminate H.
  - intros H.
    apply (f_equal (fun x => PrimFloat.eqb x 0.065880000000000008%float)) in H.
    vm_compute in H. discriminate H.
Qed.

End Ledger.

(** ** Feed collection (RedditProvider) *)

Lemma starts_with_iff (n h : str) :
  starts_with n h = true <-> exists post, h = n ++ post.
Proof.
  revert h; induction n as [|x n IH]; intros h; simpl.
  - split; [intros _; now exists h | reflexivity].
  - destruct h as [|y h].
    + split; [discriminate | intros [post H]; discriminate H].
    + rewrite andb_true_iff, N.eqb_eq, IH. split.
      * intros [-> [post ->]]. now exists post.
      * intros [post H]. inversion H; subst. split; [reflexivity | now exists post].
Qed.

Lemma contains_iff (n h : str) :
  contains n h = true <-> exists pre post, h = pre ++ n ++ post.
Proof.
  induction h as [|y h IH].
  - simpl. rewrite orb_false_r, starts_with_iff. split.
    + intros [post H]. now exists [], post.
    + intros (pre & post & H). destruct pre as [|p pre]; [|discriminate H].
      now exists post.
  - cbn [contains]. rewrite orb_true_iff, starts_with_iff, IH. split.
    + intros [[post H] | (pre & post & H)].
      * now exists [], post.
      * exists (y :: pre), post. now rewrite H.
    + intros (pre & post & H). destruct pre as [|p pre].
      * left. now exists post.
      * right. inversion H; subst. now exists pre, post.
Qed.

(** The test on the author is a search for the word "moderator" in any
    letter case. *)
Lemma is_moderator_iff (a : str) :
  RedditProvider.is_moderator a = true
  <-> exists pre mid post, a = pre ++ mid ++ post /\ lower mid = lit "moderator".
Proof.
  unfold RedditProvider.is_moderator. rewrite orb_true_iff, !contains_iff.
  split.
  - intros H.
    assert (Hm : exists pre post, lower a = pre ++ lit "moderator" ++ post).
    { destruct H as [(pre & post & Ha) | Hm]; [|exact Hm].
      exists (pre ++ lit "auto"), post. rewrite Ha, <- app_assoc. reflexivity. }
    destruct Hm as (pre & post & Hl). unfold lower in Hl.
    apply map_eq_app in Hl as (a1 & a2 & -> & H1 & H2).
    apply map_eq_app in H2 as (a3 & a4 & -> & H3 & H4).
    now exists a1, a3, a4.
  - intros (pre & mid & post & -> & Hmid). right.
    exists (lower pre), (lower post). unfold lower in *.
    now rewrite !map_app, Hmid.
Qed.

Lemma collect_spec (w : World) (subreddit : str) (limit : Z) (entries : list Entry) :
  forall count posts,
    RedditProvider.collect w subreddit limit entries count posts
    = posts ++ firstn (Z.to_nat (limit - count))
                 (map (RedditProvider.make_post w subreddit) (List.filter kept entries)).
Proof.
  induction entries as [|e es IH]; intros count posts; simpl.
  - now rewrite firstn_nil, app_nil_r.
  - destruct (limit <=? count) eqn:Hl.
    + apply Z.leb_le in Hl.
      replace (Z.to_nat (limit - count)) with O by lia.
      now rewrite app_nil_r.
    + apply Z.leb_gt in Hl. unfold kept at 1.
      destruct (RedditProvider.is_moderator _); simpl.
      * apply IH.
      * rewrite IH, <- app_assoc. simpl.
        replace (Z.to_nat (limit - count)) with (S (Z.to_nat (limit - (count + 1))))
          by lia.
        reflexivity.
Qed.

(** C7.  When the feed answers with status 200, [fetch_subreddit_posts]
    returns the posts of the first [limit] entries whose author does not
    contain "moderator" in any letter case (which covers "automoderator"), in
    feed order; the limit counts accepted entries only; and once a prefix of
    the feed holds [limit] accepted entries the rest of the feed is not
    looked at. *)
Theorem C7_fetch_skips_moderators (w : World) (subreddit filter_type : str)
    (limit : Z) (entries : list Entry) (tr : Trace) :
  feed_get w tr (RedditProvider.feed_url filter_type subreddit) = Some (200, entries) ->
  RedditProvider.fetch_subreddit_posts w subreddit filter_type limit tr
    = (Ok (firstn (Z.to_nat limit)
             (map (RedditProvider.make_post w subreddit) (List.filter kept entries))),
       tr ++ [EFeedGet (RedditProvider.feed_url filter_type subreddit)])
  /\ (forall entry,
        kept entry = false
        <-> exists pre mid post,
              get (e_author entry) (lit "unknown") = pre ++ mid ++ post
              /\ lower mid = lit "moderator")
  /\ (forall pre rest,
        entries = pre ++ rest ->
        limit <= Z.of_nat (List.length (List.filter kept pre)) ->
        RedditProvider.collect w subreddit limit entries 0 []
        = RedditProvider.collect w subreddit limit pre 0 []).
Proof.
  intros Hfeed. split; [|split].
  - unfold RedditProvider.fetch_subreddit_posts, bind, call. rewrite Hfeed.
    simpl. rewrite collect_spec, Z.sub_0_r. reflexivity.
  - intros entry. rewrite <- is_moderator_iff. unfold kept.
    destruct (RedditProvider.is_moderator _); simpl; split; congruence.
  - intros pre rest -> Hlen. rewrite !collect_spec, Z.sub_0_r. simpl.
    rewrite filter_app, map_app, firstn_app, length_map.
    replace (Z.to_nat limit - List.length (List.filter kept pre))%nat with O by lia.
    now rewrite firstn_O, app_nil_r.
Qed.

Lemma C7_fetch_skips_moderators_witness :
  exists ps,
    fst (RedditProvider.fetch_subreddit_posts Examples.all_accepted
           (lit "rust") (lit "hot") 2 []) = Ok ps
    /\ map author ps = [lit "alice"; lit "bob"].
Proof.
  destruct (@C7_fetch_skips_moderators Examples.all_accepted (lit "rust") (lit "hot")
              2 Examples.feed [] eq_refl) as (H & _ & _).
  eexists. rewrite H. split; [reflexivity|]. vm_compute. reflexivity.
Defined.

(** ** Delivery of finished threads (TelegramNotifier) *)

(** A refused POST leaves [send_thread] as an exception, and [notify_all]
    with it: the threads after the failing one are never tried. *)
Lemma notify_all_stops_at_failure (w : World) (self : TelegramNotifier.t)
    (thread : Thread) (rest : list Thread) (tr : Trace) :
  TelegramNotifier.credentials_missing self = false ->
  nonempty (get (tweets thread) []) = true ->
  telegram_post w tr
    (TelegramNotifier.thread_message (get (post_title thread) (lit "Untitled Thread"))
       (get (tweets thread) [])) = false ->
  TelegramNotifier.notify_all w self (thread :: rest) tr
  = (Raised (RequestException (lit "sendMessage failed")),
     tr ++ [EThreadPost
              (TelegramNotifier.thread_message
                 (get (post_title thread) (lit "Untitled Thread"))
                 (get (tweets thread) []))]).
Proof.
  intros Hc Ht Hp.
  unfold TelegramNotifier.notify_all. cbn [nonempty negb TelegramNotifier.send_each].
  unfold bind, TelegramNotifier.send_thread. rewrite Hc, Ht. cbn [negb].
  unfold bind, call. now rewrite Hp.
Qed.

(** C1, on the code.  Two threads are approved and the channel refuses the
    POST of the first: [send_thread] raises, [notify_all] raises with it
    without trying the second thread, and [run_pipeline] ends with the
    exception instead of its result. *)
Theorem C1_failed_delivery_ends_the_run :
  exists e tr t1 t2,
    ContentCurator.run_pipeline Examples.undeliverable
      (Examples.curator Examples.undeliverable) [lit "rust"] 3 [] = (Raised e, tr)
    /\ e = RequestException (lit "sendMessage failed")
    /\ Observe.approvals tr = [t1; t2]
    /\ Observe.thread_posts tr
       = [TelegramNotifier.thread_message
            (get (post_title t1) (lit "Untitled Thread"))
            (get (tweets t1) [])]
    /\ TelegramNotifier.notify_all Examples.undeliverable
         (ContentCurator.notifier (Examples.curator Examples.undeliverable))
         [t1; t2] []
       = (Raised e, [EThreadPost
                       (TelegramNotifier.thread_message
                          (get (post_title t1) (lit "Untitled Thread"))
                          (get (tweets t1) []))]).
Proof.
  do 4 eexists.
  split; [vm_compute; reflexivity|].
  split; [reflexivity|].
  split; [vm_compute; reflexivity|].
  split; vm_compute; reflexivity.
Qed.

(** ** The entry point (main) *)


Lemma lstrip_suffix (s : str) : exists pre, s = pre ++ lstrip s /\ all_space pre.
Proof.
  induction s as [|c s (pre & Hs & Hp)]; simpl.
  - exists []. split; [reflexivity | constructor].
  - destruct (is_space c) eqn:E.
    + exists (c :: pre). simpl. split; [now f_equal | now constructor].
    + exists []. split; [reflexivity | constructor].
Qed.









(** ** Traces *)

Lemma pick_app {A} (f : Event -> option A) (a b : Trace) :
  Observe.pick f (a ++ b) = Observe.pick f a ++ Observe.pick f b.
Proof.
  induction a as [|e a IH]; simpl; [reflexivity|].
  destruct (f e); simpl; now rewrite IH.
Qed.

Lemma pick_none {A} (f : Event -> option A) (P : Event -> bool) (evs : Trace) :
  (forall e, P e = true -> f e = None) ->
  forallb P evs = true -> Observe.pick f evs = [].
Proof.
  intros HP. induction evs as [|e evs IH]; simpl; [reflexivity|].
  intros H. apply andb_true_iff in H as [He Hr].
  rewrite (HP e He). now apply IH.
Qed.

Lemma fetch_subreddit_posts_trace (w : World) (sub ft : str) (n : Z) (tr : Trace) :
  exists ps,
    RedditProvider.fetch_subreddit_posts w sub ft n tr
    = (Ok ps, tr ++ [EFeedGet (RedditProvider.feed_url ft sub)]).
Proof.
  unfold RedditProvider.fetch_subreddit_posts, bind, call.
  destruct (feed_get w tr _) as [[status entries]|]; [|now eexists].
  destruct (negb (status =? 200)); now eexists.
Qed.

Lemma fetch_all_from_trace (w : World) (n : Z) (d : float) (subs : list str) :
  forall i acc tr,
  exists ps evs,
    RedditProvider.fetch_all_from w i subs n d acc tr = (Ok ps, tr ++ evs)
    /\ forallb Observe.feed_only evs = true.
Proof.
  induction subs as [|sub subs IH]; intros i acc tr; simpl.
  - exists acc, []. now rewrite app_nil_r.
  - unfold bind at 1.
    destruct ((0 <? i)%nat && PrimFloat.ltb 0 d).
    + unfold emit. unfold bind at 1.
      destruct (fetch_subreddit_posts_trace w sub (lit "hot") n (tr ++ [ESleep]))
        as (ps & ->).
      destruct (IH (S i) (acc ++ ps)
                  ((tr ++ [ESleep]) ++ [EFeedGet (RedditProvider.feed_url (lit "hot") sub)]))
        as (ps' & evs & -> & Hevs).
      exists ps', (ESleep :: EFeedGet (RedditProvider.feed_url (lit "hot") sub) :: evs).
      split; [|exact Hevs]. f_equal. now rewrite <- !app_assoc.
    + unfold ret. unfold bind at 1.
      destruct (fetch_subreddit_posts_trace w sub (lit "hot") n tr) as (ps & ->).
      destruct (IH (S i) (acc ++ ps)
                  (tr ++ [EFeedGet (RedditProvider.feed_url (lit "hot") sub)]))
        as (ps' & evs & -> & Hevs).
      exists ps', (EFeedGet (RedditProvider.feed_url (lit "hot") sub) :: evs).
      split; [|exact Hevs]. f_equal. now rewrite <- !app_assoc.
Qed.

Lemma fetch_all_trace (w : World) (subs : list str) (n : Z) (d : float) (tr : Trace) :
  exists ps evs,
    RedditProvider.fetch_all w subs n d tr = (Ok ps, tr ++ evs)
    /\ forallb Observe.feed_only evs = true.
Proof. apply fetch_all_from_trace. Qed.

Lemma filter_pair (w : World) (self : AIFilter.t) (p : Post) (ps : list Post)
    (tl sl : Z) (tr : Trace) :
  exists ranked usage,
    AIFilter.filter w self (p :: ps) tl sl tr
    = (Ok (AIFilter.Pair ranked usage),
       tr ++ [ERankRequest (AIFilter.model self) (AIFilter.build_payload tl sl (p :: ps))])
    /\ (forall u, usage = Some u -> u_model u = AIFilter.model self)
    /\ (forall u, usage = Some u -> ContentCurator.merged_cost u <> None).
Proof.
  unfold AIFilter.filter, bind, call.
  destruct (chat_rank w tr _ _) as [r|]; do 2 eexists; (split; [reflexivity|]).
  - split; intros u H; inversion H; [reflexivity|].
    eapply merged_cost_service_priced; [| |reflexivity]; reflexivity.
  - split; discriminate.
Qed.

Lemma update_if_any_ok (s : ContentCurator.UsageStats) (usage : option UsageData)
    (tr : Trace) :
  (forall u, usage = Some u -> u_model u <> lit "total_cost") ->
  (forall u, usage = Some u -> ContentCurator.merged_cost u <> None) ->
  exists s', ContentCurator.update_if_any s usage tr = (Ok s', tr).
Proof.
  intros H Hp. destruct usage as [u|]; [|now eexists].
  destruct (ContentCurator.merged_cost u) as [paid|] eqn:E;
    [|now destruct (Hp u eq_refl)].
  destruct (@update_usage_step s u paid (H u eq_refl) E) as (s' & Hs' & _).
  exists s'. unfold ContentCurator.update_if_any. now rewrite Hs'.
Qed.

(** ** The orchestrator (ContentCurator) *)

(** C6.  When aggregation returns at least one post and the ranking yields
    no entry, [run_pipeline] returns normally with an empty list of selected
    threads, and the run consists of the feed downloads and the one ranking
    request: no page is fetched, nothing is generated or judged, nothing is
    sent. *)
Theorem C6_empty_ranking_short_circuit (w : World) (self : ContentCurator.t)
    (subreddits : list str) (posts_per_sub : Z) (tr tr1 : Trace)
    (all_posts : list Post) (usage : option UsageData) :
  RedditProvider.fetch_all w subreddits posts_per_sub 2.0%float tr = (Ok all_posts, tr1) ->
  all_posts <> [] ->
  fst (AIFilter.filter w (ContentCurator.ai_filter self) all_posts 300 1500 tr1)
    = Ok (AIFilter.Pair [] usage) ->
  AIFilter.model (ContentCurator.ai_filter self) <> lit "total_cost" ->
  exists stats evs,
    ContentCurator.run_pipeline w self subreddits posts_per_sub tr
    = (Ok {| ContentCurator.posts := [];
             ContentCurator.output_selected_threads := [];
             ContentCurator.usage := stats |},
       tr ++ evs)
    /\ forallb Observe.early evs = true
    /\ Observe.page_fetches evs = []
    /\ Observe.generate_requests evs = []
    /\ Observe.judge_requests evs = []
    /\ Observe.rejection_posts evs = []
    /\ Observe.thread_posts evs = [].
Proof.
  intros Hfetch Hne Hfilter Hmodel.
  destruct (fetch_all_trace w subreddits posts_per_sub 2.0%float tr)
    as (ps & evs1 & Hf & Hevs1).
  rewrite Hfetch in Hf. inversion Hf; subst ps tr1. clear Hf.
  destruct all_posts as [|p ps]; [contradiction|].
  destruct (@filter_pair w (ContentCurator.ai_filter self) p ps 300 1500 (tr ++ evs1))
    as (ranked & usage' & Hfil & Hum & Hpr).
  rewrite Hfil in Hfilter. simpl in Hfilter. inversion Hfilter; subst ranked usage'.
  destruct (@update_if_any_ok ContentCurator.initial_usage_stats usage
              ((tr ++ evs1)
                 ++ [ERankRequest (AIFilter.model (ContentCurator.ai_filter self))
                       (AIFilter.build_payload 300 1500 (p :: ps))]))
    as (stats & Hup).
  { intros u Hu. rewrite (Hum u Hu). exact Hmodel. }
  { exact Hpr. }
  exists stats,
    (evs1 ++ [ERankRequest (AIFilter.model (ContentCurator.ai_filter self))
                (AIFilter.build_payload 300 1500 (p :: ps))]).
  assert (Hearly : forallb Observe.early
                     (evs1 ++ [ERankRequest (AIFilter.model (ContentCurator.ai_filter self))
                                 (AIFilter.build_payload 300 1500 (p :: ps))]) = true).
  { rewrite forallb_app. simpl. rewrite andb_true_r.
    rewrite forallb_forall in *. intros e He. specialize (Hevs1 e He).
    destruct e; simpl in *; congruence. }
  split.
  - unfold ContentCurator.run_pipeline, bind. rewrite Hfetch.
    cbn [negb nonempty]. rewrite Hfil, Hup.
    cbn [negb nonempty]. unfold ret. now rewrite app_assoc.
  - split; [exact Hearly|].
    repeat split; apply (pick_none _ Observe.early); try exact Hearly;
      intros e He; destruct e; simpl in *; congruence.
Qed.

Lemma C6_empty_ranking_short_circuit_witness :
  exists stats evs,
    ContentCurator.run_pipeline Examples.nothing_ranked
      (Examples.curator Examples.nothing_ranked) [lit "rust"] 3 []
    = (Ok {| ContentCurator.posts := [];
             ContentCurator.output_selected_threads := [];
             ContentCurator.usage := stats |}, evs)
    /\ List.length evs = 2%nat
    /\ Observe.generate_requests evs = [].
Proof.
  assert (Hne : map (RedditProvider.make_post Examples.nothing_ranked (lit "rust"))
                  (firstn 3 (List.filter kept Examples.feed)) <> [])
    by (vm_compute; discriminate).
  assert (Hm : AIFilter.model
                 (ContentCurator.ai_filter (Examples.curator Examples.nothing_ranked))
               <> lit "total_cost") by (vm_compute; discriminate).
  destruct (@C6_empty_ranking_short_circuit Examples.nothing_ranked
              (Examples.curator Examples.nothing_ranked) [lit "rust"] 3 []
              [EFeedGet (RedditProvider.feed_url (lit "hot") (lit "rust"))]
              (map (RedditProvider.make_post Examples.nothing_ranked (lit "rust"))
                 (firstn 3 (List.filter kept Examples.feed)))
              (Some {| u_model := lit "gpt-5-mini"; prompt_tokens := 12000;
                       completion_tokens := 800; total_tokens := 12800;
                       u_cost := u_cost Examples.rank_usage |})
              eq_refl Hne eq_refl Hm)
    as (stats & evs & Hrun & _ & _ & Hgen & _).
  exists stats, evs. split; [exact Hrun|]. split; [|exact Hgen].
  apply (f_equal snd) in Hrun. simpl in Hrun. rewrite <- Hrun.
  vm_compute. reflexivity.
Defined.

(** *** The loop, round by round *)

Lemma editorial_loop_cons (w : World) (self : ContentCurator.t) (all_posts : list Post)
    (i : nat) (item : RankItem) (rest : list RankItem)
    (st : ContentCurator.LoopState) (tr : Trace) :
  ContentCurator.editorial_loop w self all_posts i (item :: rest) st tr
  = match ContentCurator.find_post all_posts (r_id item) with
    | None => ContentCurator.editorial_loop w self all_posts (S i) rest st tr
    | Some post =>
        match Round.run w self i item post (ContentCurator.usage_stats st) tr with
        | (Ok r, tr') =>
            if snd (Round.conclude st (r_score item) r)
            then (Ok (fst (Round.conclude st (r_score item) r)), tr')
            else ContentCurator.editorial_loop w self all_posts (S i) rest
                   (fst (Round.conclude st (r_score item) r)) tr'
        | (Raised e, tr') => (Raised e, tr')
        end
    end.
Proof.
  cbn [ContentCurator.editorial_loop].
  destruct (ContentCurator.find_post all_posts (r_id item)) as [post|]; [|reflexivity].
  unfold Round.run, bind, emit.
  destruct (ContentExtractor.enrich w post _) as [[enriched|e] tr1]; [|reflexivity].
  destruct (ThreadGenerator.generate_threads w _ _ tr1) as [[[out gu]|e] tr2];
    [|reflexivity].
  destruct (ContentCurator.update_if_any _ gu tr2) as [[stats|e] tr3]; [|reflexivity].
  destruct out as [|current rest_out]; [reflexivity|].
  destruct (ContentCurator._process_single_thread w self current stats tr3)
    as [[[[final approved] stats']|e] tr4]; [|reflexivity].
  unfold ret. destruct approved; cbn [Round.conclude fst snd].
  - destruct (3 <=? _); reflexivity.
  - destruct (ContentCurator.best_judge_score st <? r_score item); reflexivity.
Qed.

Lemma update_usage_raised (s : ContentCurator.UsageStats) (u : UsageData) (e : Exn) :
  ContentCurator._update_usage s u = Raised e ->
  u_model u = lit "total_cost" \/ ContentCurator.merged_cost u = None.
Proof.
  intros H. destruct (str_eqb (u_model u) (lit "total_cost")) eqn:E.
  - left. now apply str_eqb_eq.
  - apply str_eqb_neq in E.
    destruct (ContentCurator.merged_cost u) as [paid|] eqn:Ep; [|now right].
    destruct (@update_usage_step s u paid E Ep) as (s' & Hs' & _). congruence.
Qed.

Lemma enrich_spec (w : World) (post : Post) (tr : Trace) :
  exists enriched seg,
    ContentExtractor.enrich w post tr = (Ok enriched, tr ++ seg)
    /\ (seg = [] \/ seg = [EPageFetch (link post)]).
Proof.
  unfold ContentExtractor.enrich, ContentExtractor.extract, bind, call, ret.
  destruct (link post) as [|c url].
  - do 2 eexists. split; [now rewrite app_nil_r | now left].
  - do 2 eexists. split; [reflexivity | now right].
Qed.

Lemma generate_threads_spec (w : World) (self : ThreadGenerator.t) (p : Post) (tr : Trace) :
  exists out usage,
    ThreadGenerator.generate_threads w self [p] tr
    = (Ok (out, usage), tr ++ [EGenerateRequest (ThreadGenerator.model self) [p]])
    /\ (forall u, usage = Some u -> u_model u = ThreadGenerator.model self)
    /\ (forall u, usage = Some u -> ContentCurator.merged_cost u <> None).
Proof.
  unfold ThreadGenerator.generate_threads, bind, call, ret.
  destruct (chat_generate w tr _ _) as [r|]; do 2 eexists; (split; [reflexivity|]).
  - split; intros u H; inversion H; [reflexivity|].
    eapply merged_cost_service_priced; [| |reflexivity]; reflexivity.
  - split; discriminate.
Qed.

Lemma evaluate_spec (w : World) (self : EditorialJudge.t) (text : str) (tr : Trace) :
  exists d usage,
    EditorialJudge.evaluate w self text tr
    = (Ok (d, usage), tr ++ [EJudgeRequest (EditorialJudge.model self) text])
    /\ (forall u, usage = Some u -> u_model u = EditorialJudge.model self)
    /\ (judge_counts_in_range w ->
        forall u, usage = Some u -> ContentCurator.merged_cost u <> None).
Proof.
  unfold EditorialJudge.evaluate, bind, call, ret.
  destruct (chat_judge w tr _ _) as [r|e] eqn:E; do 2 eexists; (split; [reflexivity|]).
  - split; [intros u H; inversion H; reflexivity|].
    intros Hfit u H. injection H as <-.
    assert (Hr : counts_in_range
                   {| u_model := EditorialJudge.model self;
                      prompt_tokens := judge_prompt r;
                      completion_tokens := judge_completion r;
                      total_tokens := judge_total r;
                      u_cost := None |}) by exact (Hfit _ _ _ _ E).
    rewrite (merged_cost_in_range Hr). discriminate.
  - split; [discriminate|]. intros _. discriminate.
Qed.

Lemma send_rejection_notice_spec (w : World) (self : TelegramNotifier.t)
    (title reason : str) (tr : Trace) :
  exists b notice,
    TelegramNotifier.send_rejection_notice w self title reason tr = (Ok b, tr ++ notice)
    /\ (notice = [] \/ exists m, notice = [ERejectionPost m]).
Proof.
  unfold TelegramNotifier.send_rejection_notice, bind, call, ret.
  destruct (TelegramNotifier.credentials_missing self).
  - do 2 eexists. split; [now rewrite app_nil_r | now left].
  - do 2 eexists. split; [reflexivity | right; now eexists].
Qed.

Lemma update_if_any_cases (s : ContentCurator.UsageStats) (usage : option UsageData)
    (tr : Trace) :
  (exists s', ContentCurator.update_if_any s usage tr = (Ok s', tr))
  \/ (exists e u, ContentCurator.update_if_any s usage tr = (Raised e, tr)
                  /\ usage = Some u
                  /\ (u_model u = lit "total_cost"
                      \/ ContentCurator.merged_cost u = None)).
Proof.
  unfold ContentCurator.update_if_any.
  destruct usage as [u|]; [|left; now eexists].
  destruct (ContentCurator._update_usage s u) as [s'|e] eqn:E.
  - left. now eexists.
  - right. exists e, u. repeat split. now apply update_usage_raised in E.
Qed.

(** [_process_single_thread]: one judgment request, then at most the POST
    of a rejection notice; the thread comes back unchanged. *)
Lemma process_single_thread_spec (w : World) (self : ContentCurator.t)
    (thread : Thread) (stats : ContentCurator.UsageStats) (tr : Trace) :
  exists res text notice,
    ContentCurator._process_single_thread w self thread stats tr
    = (res, tr ++ EJudgeRequest (EditorialJudge.model (ContentCurator.judge self)) text
                    :: notice)
    /\ (notice = [] \/ exists m, notice = [ERejectionPost m])
    /\ (forall t b s, res = Ok (t, b, s) -> t = thread)
    /\ (EditorialJudge.model (ContentCurator.judge self) <> lit "total_cost" ->
        judge_counts_in_range w ->
        exists b s, res = Ok (thread, b, s)).
Proof.
  unfold ContentCurator._process_single_thread. unfold bind at 1.
  destruct (evaluate_spec w (ContentCurator.judge self)
              (join (NL ++ NL) (get (tweets thread) [])) tr)
    as (d & usage & -> & Hu & Hpr).
  unfold bind at 1.
  destruct (update_if_any_cases stats usage
              (tr ++ [EJudgeRequest (EditorialJudge.model (ContentCurator.judge self))
                        (join (NL ++ NL) (get (tweets thread) []))]))
    as [(s' & ->) | (e & u & -> & Hs & Hm)].
  - destruct (str_eqb (action d) (lit "accept")).
    + exists (Ok (thread, true, s')). do 2 eexists.
      split; [unfold ret; reflexivity|].
      split; [now left|]. split.
      * intros t b s H. now inversion H.
      * intros _ _. now do 2 eexists.
    + unfold bind.
      destruct (send_rejection_notice_spec w (ContentCurator.notifier self)
                  (get (post_title thread) (lit "Untitled"))
                  (weakness d)
                  (tr ++ [EJudgeRequest (EditorialJudge.model (ContentCurator.judge self))
                            (join (NL ++ NL) (get (tweets thread) []))]))
        as (b & notice & -> & Hn).
      exists (Ok (thread, false, s')). exists (join (NL ++ NL) (get (tweets thread) [])), notice.
      split; [unfold ret; rewrite <- app_assoc; reflexivity|].
      split; [exact Hn|]. split.
      * intros t b' s H. now inversion H.
      * intros _ _. now do 2 eexists.
  - exists (Raised e). do 2 eexists.
    split; [reflexivity|].
    split; [now left|]. split; [discriminate|].
    intros Hj Hfit. destruct Hm as [Hm|Hm].
    + rewrite (Hu u Hs) in Hm. contradiction.
    + now destruct (Hpr Hfit u Hs).
Qed.

(** One round: it starts with the candidate event, makes one generation
    request, at most one page fetch and at most one judgment request, and
    ends with the verdict event when a thread was judged. *)
Lemma round_spec (w : World) (self : ContentCurator.t) (i : nat) (item : RankItem)
    (post : Post) (stats : ContentCurator.UsageStats) (tr : Trace) :
  exists res mid,
    Round.run w self i item post stats tr
      = (res, tr ++ ECandidate i item :: mid ++ Round.verdict_tail i item res)
    /\ forallb Observe.in_round mid = true
    /\ (List.length (Observe.page_fetches mid) <= 1)%nat
    /\ List.length (Observe.generate_requests mid) = 1%nat
    /\ (List.length (Observe.judge_requests mid) <= 1)%nat
    /\ (models_fit self -> judge_counts_in_range w -> exists r, res = Ok r).
Proof.
  unfold models_fit, Round.run, emit. unfold bind at 1. unfold bind at 1.
  destruct (enrich_spec w post (tr ++ [ECandidate i item]))
    as (enriched & page & -> & Hpage).
  unfold bind at 1.
  destruct (generate_threads_spec w (ContentCurator.thread_gen self) enriched
              ((tr ++ [ECandidate i item]) ++ page))
    as (out & usage & -> & Hu & Hpr).
  unfold bind at 1.
  destruct (update_if_any_cases stats usage
              (((tr ++ [ECandidate i item]) ++ page)
                 ++ [EGenerateRequest
                       (ThreadGenerator.model (ContentCurator.thread_gen self))
                       [enriched]]))
    as [(s1 & ->) | (e & u & -> & Hs & Hm)].
  - destruct out as [|current others].
    + exists (Ok (Round.NoThread s1)),
        (page ++ [EGenerateRequest
                    (ThreadGenerator.model (ContentCurator.thread_gen self)) [enriched]]).
      split; [unfold ret; cbn [Round.verdict_tail]; now rewrite app_nil_r, <- !app_assoc|].
      destruct Hpage as [-> | ->]; simpl; repeat split; try lia;
        intros _ _; now eexists.
    + unfold bind at 1.
      destruct (process_single_thread_spec w self current s1
                  (((tr ++ [ECandidate i item]) ++ page)
                     ++ [EGenerateRequest
                           (ThreadGenerator.model (ContentCurator.thread_gen self))
                           [enriched]]))
        as (res & text & notice & -> & Hn & Hthread & Hok).
      destruct res as [[[t b] s2]|e].
      * exists (Ok (Round.Judged t b s2)),
          (page ++ EGenerateRequest
                     (ThreadGenerator.model (ContentCurator.thread_gen self)) [enriched]
                :: EJudgeRequest (EditorialJudge.model (ContentCurator.judge self)) text
                :: notice).
        split.
        { unfold bind, ret. cbn [Round.verdict_tail].
          rewrite <- !app_assoc. reflexivity. }
        destruct Hpage as [-> | ->]; destruct Hn as [-> | [m ->]]; simpl;
          repeat split; try lia; intros _ _; now eexists.
      * exists (Raised e),
          (page ++ EGenerateRequest
                     (ThreadGenerator.model (ContentCurator.thread_gen self)) [enriched]
                :: EJudgeRequest (EditorialJudge.model (ContentCurator.judge self)) text
                :: notice).
        split.
        { cbn [Round.verdict_tail]. rewrite app_nil_r, <- !app_assoc. reflexivity. }
        destruct Hpage as [-> | ->]; destruct Hn as [-> | [m ->]]; simpl;
          repeat split; try lia; intros [_ Hj] Hfit;
          destruct (Hok Hj Hfit) as (b & s & H); discriminate H.
  - exists (Raised e),
      (page ++ [EGenerateRequest
                  (ThreadGenerator.model (ContentCurator.thread_gen self)) [enriched]]).
    split; [cbn [Round.verdict_tail]; now rewrite app_nil_r, <- !app_assoc|].
    destruct Hpage as [-> | ->]; simpl; repeat split; try lia;
      intros [Ht _] _; (destruct Hm as [Hm|Hm];
                        [rewrite (Hu u Hs) in Hm; contradiction
                        | now destruct (Hpr u Hs)]).
Qed.

Section RoundEvents.
Import Observe.

Variables (i : nat) (item : RankItem) (mid : Trace).
Hypothesis Hmid : forallb in_round mid = true.

Lemma mid_candidates : candidates mid = [].
Proof.
  apply (pick_none _ in_round); [|exact Hmid].
  intros e He; destruct e; simpl in *; congruence.
Qed.

Lemma mid_approvals : approvals mid = [].
Proof.
  apply (pick_none _ in_round); [|exact Hmid].
  intros e He; destruct e; simpl in *; congruence.
Qed.

Lemma mid_rejections : rejections mid = [].
Proof.
  apply (pick_none _ in_round); [|exact Hmid].
  intros e He; destruct e; simpl in *; congruence.
Qed.

Lemma mid_in_loop : forallb in_loop mid = true.
Proof.
  rewrite forallb_forall in *. intros e He. specialize (Hmid e He).
  destruct e; simpl in *; congruence.
Qed.

Variable res : Result Round.t.

Let seg : Trace := ECandidate i item :: mid ++ Round.verdict_tail i item res.

Lemma tail_facts :
  candidates (Round.verdict_tail i item res) = []
  /\ page_fetches (Round.verdict_tail i item res) = []
  /\ generate_requests (Round.verdict_tail i item res) = []
  /\ judge_requests (Round.verdict_tail i item res) = []
  /\ forallb in_loop (Round.verdict_tail i item res) = true.
Proof. destruct res as [[s|t b s]|e]; repeat split. Qed.

Lemma seg_candidates : candidates seg = [(i, item)].
Proof.
  unfold seg, candidates. cbn [pick]. fold candidates.
  unfold candidates at 1. rewrite pick_app. fold candidates.
  rewrite mid_candidates. destruct tail_facts as (-> & _). reflexivity.
Qed.

Lemma seg_approvals : approvals seg = approvals (Round.verdict_tail i item res).
Proof.
  unfold seg, approvals. cbn [pick]. rewrite pick_app. fold approvals.
  now rewrite mid_approvals.
Qed.

Lemma seg_rejections : rejections seg = rejections (Round.verdict_tail i item res).
Proof.
  unfold seg, rejections. cbn [pick]. rewrite pick_app. fold rejections.
  now rewrite mid_rejections.
Qed.

Lemma seg_page_fetches : page_fetches seg = page_fetches mid.
Proof.
  unfold seg, page_fetches. cbn [pick]. rewrite pick_app. fold page_fetches.
  destruct tail_facts as (_ & -> & _). now rewrite app_nil_r.
Qed.

Lemma seg_generate_requests : generate_requests seg = generate_requests mid.
Proof.
  unfold seg, generate_requests. cbn [pick]. rewrite pick_app. fold generate_requests.
  destruct tail_facts as (_ & _ & -> & _). now rewrite app_nil_r.
Qed.

Lemma seg_judge_requests : judge_requests seg = judge_requests mid.
Proof.
  unfold seg, judge_requests. cbn [pick]. rewrite pick_app. fold judge_requests.
  destruct tail_facts as (_ & _ & _ & -> & _). now rewrite app_nil_r.
Qed.

Lemma seg_in_loop : forallb in_loop seg = true.
Proof.
  unfold seg. cbn [forallb in_loop andb]. rewrite forallb_app, mid_in_loop.
  now destruct tail_facts as (_ & _ & _ & _ & ->).
Qed.

End RoundEvents.

(** What the end of a round does to the loop variables. *)
Lemma conclude_spec (i : nat) (item : RankItem) (st : ContentCurator.LoopState)
    (r : Round.t) :
  (List.length (ContentCurator.approved_threads st) < 3)%nat ->
  let st1 := fst (Round.conclude st (r_score item) r) in
  let tail := Round.verdict_tail i item (Ok r) in
  ContentCurator.approved_threads st1
    = ContentCurator.approved_threads st ++ Observe.approvals tail
  /\ (ContentCurator.best_judge_score st1, ContentCurator.best_thread_so_far st1)
     = fold_left Observe.track (Observe.rejections tail)
         (ContentCurator.best_judge_score st, ContentCurator.best_thread_so_far st)
  /\ (snd (Round.conclude st (r_score item) r) = false ->
      (List.length (ContentCurator.approved_threads st1) < 3)%nat)
  /\ (snd (Round.conclude st (r_score item) r) = true ->
      List.length (ContentCurator.approved_threads st1) = 3%nat
      /\ exists t s, r = Round.Judged t true s).
Proof.
  intros Hlt. destruct r as [s|t [|] s]; cbn.
  - rewrite app_nil_r. repeat split; try lia; discriminate.
  - rewrite length_app. cbn. repeat split.
    + intros H. apply Z.leb_gt in H. lia.
    + apply Z.leb_le in H. lia.
    + now do 2 eexists.
  - unfold Observe.track. cbn.
    destruct (ContentCurator.best_judge_score st <? r_score item); cbn;
      rewrite app_nil_r; repeat split; try lia; discriminate.
Qed.

(** The loop as a whole, for every world: its events, in order, are rounds
    of candidates taken from the list in list order; the approved threads
    and the best rejected thread are what the verdicts of the trace say; the
    loop stops with the verdict that makes the third approval. *)
Lemma loop_spec (w : World) (self : ContentCurator.t) (all_posts : list Post)
    (items : list RankItem) :
  forall (i : nat) (st : ContentCurator.LoopState) (tr : Trace),
  (List.length (ContentCurator.approved_threads st) < 3)%nat ->
  exists res evs,
    ContentCurator.editorial_loop w self all_posts i items st tr = (res, tr ++ evs)
    /\ forallb Observe.in_loop evs = true
    /\ Observe.Subseq (Observe.candidates evs) (Observe.enumerate_from i items)
    /\ (List.length (Observe.page_fetches evs)
        <= List.length (Observe.candidates evs))%nat
    /\ List.length (Observe.generate_requests evs)
       = List.length (Observe.candidates evs)
    /\ (List.length (Observe.judge_requests evs)
        <= List.length (Observe.candidates evs))%nat
    /\ (List.length (ContentCurator.approved_threads st)
        + List.length (Observe.approvals evs) <= 3)%nat
    /\ ((List.length (ContentCurator.approved_threads st)
         + List.length (Observe.approvals evs) = 3)%nat ->
        exists pre j it t, evs = pre ++ [EVerdict j it t true])
    /\ (forall st', res = Ok st' ->
          ContentCurator.approved_threads st'
            = ContentCurator.approved_threads st ++ Observe.approvals evs
          /\ (ContentCurator.best_judge_score st', ContentCurator.best_thread_so_far st')
             = fold_left Observe.track (Observe.rejections evs)
                 (ContentCurator.best_judge_score st,
                  ContentCurator.best_thread_so_far st))
    /\ (models_fit self -> judge_counts_in_range w -> exists st', res = Ok st').
Proof.
  induction items as [|item rest IH]; intros i st tr Hlt.
  - exists (Ok st), []. cbn. rewrite !app_nil_r.
    repeat split; try lia; try constructor.
    + inversion H; subst. reflexivity.
    + inversion H; subst. reflexivity.
    + intros _ _. now eexists.
  - rewrite editorial_loop_cons.
    destruct (ContentCurator.find_post all_posts (r_id item)) as [post|].
    2:{ destruct (IH (S i) st tr Hlt)
          as (res & evs & Hrun & Hin & Hsub & Hp & Hg & Hj & Hle & Hstop & Hst & Hok).
        exists res, evs. repeat split; try assumption; try (now apply Hst).
        unfold Observe.enumerate_from. cbn. now apply Observe.Subseq_skip. }
    destruct (round_spec w self i item post (ContentCurator.usage_stats st) tr)
      as (rr & mid & -> & Hmid & Hpm & Hgm & Hjm & Hrok).
    pose proof (@seg_candidates i item mid Hmid rr) as Hc.
    pose proof (@seg_approvals i item mid Hmid rr) as Ha.
    pose proof (@seg_rejections i item mid Hmid rr) as Hr.
    pose proof (@seg_page_fetches i item mid rr) as Hpf.
    pose proof (@seg_generate_requests i item mid rr) as Hgr.
    pose proof (@seg_judge_requests i item mid rr) as Hjr.
    pose proof (@seg_in_loop i item mid Hmid rr) as Hil.
    set (seg := ECandidate i item :: mid ++ Round.verdict_tail i item rr) in *.
    assert (Hsub1 : forall l, Observe.Subseq l (Observe.enumerate_from (S i) rest) ->
              Observe.Subseq ((i, item) :: l) (Observe.enumerate_from i (item :: rest))).
    { intros l Hl. unfold Observe.enumerate_from. cbn. now apply Observe.Subseq_take. }
    destruct rr as [r|e].
    2:{ exists (Raised e), seg. rewrite Ha, Hc, Hpf, Hgr, Hjr. cbn.
        repeat split; try assumption; try lia.
        - apply Hsub1. constructor.
        - discriminate.
        - discriminate.
        - intros Hm Hf. destruct (Hrok Hm Hf) as (r & Hr'). discriminate Hr'. }
    destruct (@conclude_spec i item st r Hlt) as (Happ & Hbest & Hcont & Hbreak).
    destruct (snd (Round.conclude st (r_score item) r)) eqn:Hstop.
    + destruct (Hbreak eq_refl) as (H3 & t & s & ->).
      exists (Ok (fst (Round.conclude st (r_score item) (Round.Judged t true s)))), seg.
      rewrite Ha, Hc, Hpf, Hgr, Hjr.
      rewrite Happ, length_app in H3.
      repeat split; try assumption; try lia.
      * apply Hsub1. constructor.
      * intros _. exists (ECandidate i item :: mid), i, item, t. reflexivity.
      * injection H as <-. exact Happ.
      * injection H as <-. rewrite Hr. exact Hbest.
      * intros _ _. now eexists.
    + specialize (Hcont eq_refl).
      destruct (IH (S i) (fst (Round.conclude st (r_score item) r)) (tr ++ seg) Hcont)
        as (res & evs & Hrun & Hin & Hsub & Hp & Hg & Hj & Hle & Hstop' & Hst & Hok).
      exists res, (seg ++ evs).
      unfold Observe.candidates, Observe.approvals, Observe.rejections,
        Observe.page_fetches, Observe.generate_requests, Observe.judge_requests.
      rewrite !pick_app.
      fold Observe.candidates Observe.approvals Observe.rejections
        Observe.page_fetches Observe.generate_requests Observe.judge_requests.
      rewrite Hc, Hpf, Hgr, Hjr, !length_app. cbn [List.length app].
      rewrite Happ, length_app in Hle, Hstop'.
      rewrite Ha, Hr.
      repeat split.
      * rewrite Hrun. now rewrite app_assoc.
      * now rewrite forallb_app, Hil, Hin.
      * now apply Hsub1.
      * lia.
      * lia.
      * lia.
      * lia.
      * intros H. destruct Hstop' as (pre & j & it & t & ->); [lia|].
        exists (seg ++ pre), j, it, t. now rewrite app_assoc.
      * destruct (Hst st' H) as [H1 _]. rewrite H1, Happ. now rewrite app_assoc.
      * destruct (Hst st' H) as [_ H2]. rewrite H2, Hbest. now rewrite fold_left_app.
      * exact Hok.
Qed.

(** *** The quota *)


Lemma enumerate_from_cons {A} (i : nat) (a : A) (l : list A) :
  Observe.enumerate_from i (a :: l) = (i, a) :: Observe.enumerate_from (S i) l.
Proof. reflexivity. Qed.



(** *** Delivery after the loop *)

Lemma send_each_ok (w : World) (self : TelegramNotifier.t) (threads : list Thread) :
  reliable_delivery w ->
  forall tr, exists sent,
    TelegramNotifier.send_each w self threads tr = (Ok tt, tr ++ sent)
    /\ forallb Observe.delivery sent = true.
Proof.
  intros Hd. induction threads as [|t threads IH]; intros tr.
  - exists []. cbn. now rewrite app_nil_r.
  - cbn [TelegramNotifier.send_each]. unfold bind at 1.
    unfold TelegramNotifier.send_thread.
    destruct (TelegramNotifier.credentials_missing self).
    + unfold ret at 1. apply IH.
    + destruct (negb (nonempty (get (tweets t) []))).
      * unfold ret at 1. apply IH.
      * unfold bind, call. rewrite Hd. unfold ret at 1.
        match goal with
        | |- context [TelegramNotifier.send_each w self threads ?tr1] =>
            destruct (IH tr1) as (sent & -> & Hs)
        end.
        eexists. split; [rewrite <- app_assoc; reflexivity|]. exact Hs.
Qed.

Lemma notify_ok (w : World) (self : TelegramNotifier.t) (threads : list Thread)
    (tr : Trace) :
  reliable_delivery w ->
  exists sent,
    (if nonempty threads then TelegramNotifier.notify_all w self threads else ret tt) tr
    = (Ok tt, tr ++ sent)
    /\ forallb Observe.delivery sent = true.
Proof.
  intros Hd. destruct threads as [|t threads].
  - exists []. cbn. now rewrite app_nil_r.
  - cbn [nonempty]. unfold TelegramNotifier.notify_all. cbn [nonempty negb].
    now apply send_each_ok.
Qed.

Lemma send_each_general (w : World) (self : TelegramNotifier.t) (threads : list Thread) :
  forall tr, exists res sent,
    TelegramNotifier.send_each w self threads tr = (res, tr ++ sent)
    /\ forallb Observe.delivery sent = true
    /\ (List.length sent <= List.length threads)%nat.
Proof.
  induction threads as [|t threads IH]; intros tr.
  - exists (Ok tt), []. cbn. rewrite app_nil_r. repeat split. lia.
  - cbn [TelegramNotifier.send_each]. unfold bind at 1.
    unfold TelegramNotifier.send_thread.
    destruct (TelegramNotifier.credentials_missing self).
    + unfold ret at 1. destruct (IH tr) as (res & sent & -> & Hs & Hl).
      exists res, sent. repeat split; try assumption. cbn. lia.
    + destruct (negb (nonempty (get (tweets t) []))).
      * unfold ret at 1. destruct (IH tr) as (res & sent & -> & Hs & Hl).
        exists res, sent. repeat split; try assumption. cbn. lia.
      * unfold bind at 1, call.
        destruct (telegram_post w tr _).
        -- unfold ret at 1.
           match goal with
           | |- context [TelegramNotifier.send_each w self threads ?tr1] =>
               destruct (IH tr1) as (res & sent & -> & Hs & Hl)
           end.
           eexists. eexists. split; [rewrite <- app_assoc; reflexivity|].
           split; [exact Hs|]. cbn. lia.
        -- eexists. eexists. split; [reflexivity|]. split; [reflexivity|]. cbn. lia.
Qed.

Lemma notify_general (w : World) (self : TelegramNotifier.t) (threads : list Thread)
    (tr : Trace) :
  exists res sent,
    (if nonempty threads then TelegramNotifier.notify_all w self threads else ret tt) tr
    = (res, tr ++ sent)
    /\ forallb Observe.delivery sent = true
    /\ (List.length sent <= List.length threads)%nat.
Proof.
  destruct threads as [|t threads].
  - exists (Ok tt), []. cbn. rewrite app_nil_r. repeat split. lia.
  - cbn [nonempty]. unfold TelegramNotifier.notify_all. cbn [nonempty negb].
    apply send_each_general.
Qed.



(** *** The fallback *)

(** Folding [track] leaves the first entry of highest score, provided some
    entry beats the starting score. *)
Lemma track_first_max (rs : list (Z * Thread)) :
  forall (b0 : Z) (bt0 : option Thread),
    (Forall (fun r => fst r <= b0) rs
     /\ fold_left Observe.track rs (b0, bt0) = (b0, bt0))
    \/ (exists k s t,
          nth_error rs k = Some (s, t)
          /\ fold_left Observe.track rs (b0, bt0) = (s, Some t)
          /\ b0 < s
          /\ forall j s' t', nth_error rs j = Some (s', t') ->
               ((j < k)%nat -> s' < s) /\ ((k < j)%nat -> s' <= s)).
Proof.
  induction rs as [|[s1 t1] rs IH]; intros b0 bt0.
  - left. split; [constructor | reflexivity].
  - cbn [fold_left].
    assert (Ht : Observe.track (b0, bt0) (s1, t1)
                 = if b0 <? s1 then (s1, Some t1) else (b0, bt0)) by reflexivity.
    rewrite Ht. clear Ht.
    destruct (b0 <? s1) eqn:E.
    + apply Z.ltb_lt in E. right.
      destruct (IH s1 (Some t1)) as [[Hall Hf] | (k & s & t & Hk & Hf & Hlt & Hord)].
      * exists 0%nat, s1, t1.
        split; [reflexivity|]. split; [exact Hf|]. split; [exact E|].
        intros j s' t' Hnth. split; intros Hj; [lia|].
        destruct j as [|j]; [lia|]. cbn in Hnth.
        rewrite Forall_forall in Hall.
        apply nth_error_In in Hnth. now apply (Hall (s', t')).
      * exists (S k), s, t.
        split; [exact Hk|]. split; [exact Hf|]. split; [lia|].
        intros j s' t' Hnth. split; intros Hj.
        -- destruct j as [|j]; cbn in Hnth.
           ++ inversion Hnth; subst. lia.
           ++ apply (Hord j s' t' Hnth). lia.
        -- destruct j as [|j]; [lia|]. cbn in Hnth.
           apply (Hord j s' t' Hnth). lia.
    + apply Z.ltb_ge in E.
      destruct (IH b0 bt0) as [[Hall Hf] | (k & s & t & Hk & Hf & Hlt & Hord)].
      * left. split; [|exact Hf]. constructor; [exact E | exact Hall].
      * right. exists (S k), s, t.
        split; [exact Hk|]. split; [exact Hf|]. split; [exact Hlt|].
        intros j s' t' Hnth. split; intros Hj.
        -- destruct j as [|j]; cbn in Hnth.
           ++ inversion Hnth; subst. lia.
           ++ apply (Hord j s' t' Hnth). lia.
        -- destruct j as [|j]; [lia|]. cbn in Hnth.
           apply (Hord j s' t' Hnth). lia.
Qed.

Lemma fallback_origin (st : ContentCurator.LoopState) (looped : Trace) :
  ContentCurator.approved_threads st = Observe.approvals looped ->
  (ContentCurator.best_judge_score st, ContentCurator.best_thread_so_far st)
  = fold_left Observe.track (Observe.rejections looped) (-1, None) ->
  (List.length (Observe.approvals looped) <= 3)%nat ->
  (List.length (ContentCurator.fallback st) <= 3)%nat
  /\ forall t, In t (ContentCurator.fallback st) ->
       In t (Observe.approvals looped)
       \/ exists s, In (s, t) (Observe.rejections looped).
Proof.
  intros Happ Hbest Hle. unfold ContentCurator.fallback. rewrite Happ.
  destruct (Observe.approvals looped) as [|a l] eqn:Ha.
  - destruct (ContentCurator.best_thread_so_far st) as [best|] eqn:Hb;
      [|split; [cbn; lia | intros t []]].
    destruct (thread_truthy best); [|split; [cbn; lia | intros t []]].
    split; [cbn; lia|]. intros t [<- | []]. right.
    destruct (track_first_max (Observe.rejections looped) (-1) None)
      as [[_ Hf] | (k & s & t & Hk & Hf & _)];
      rewrite Hf in Hbest; injection Hbest as Hs Ht.
    + discriminate Ht.
    + rewrite Ht. exists s. now apply nth_error_In in Hk.
  - destruct (ContentCurator.best_thread_so_far st); split; try exact Hle;
      intros x Hx; now left.
Qed.

(** A whole run, when no model is named like the key of the grand total,
    the counts of the judgment replies are inside the float range and every
    delivery succeeds: aggregation and ranking, then the loop, then
    the deliveries; the result is made of the loop variables. *)
Lemma run_pipeline_spec (w : World) (self : ContentCurator.t)
    (subreddits : list str) (posts_per_sub : Z) (tr : Trace) :
  AIFilter.model (ContentCurator.ai_filter self) <> lit "total_cost" ->
  models_fit self -> judge_counts_in_range w -> reliable_delivery w ->
  exists res first looped sent,
    ContentCurator.run_pipeline w self subreddits posts_per_sub tr
    = (res, tr ++ first ++ looped ++ sent)
    /\ forallb Observe.early first = true
    /\ forallb Observe.in_loop looped = true
    /\ forallb Observe.delivery sent = true
    /\ (looped = []
        \/ exists st,
             res = Ok {| ContentCurator.posts := [];
                         ContentCurator.output_selected_threads :=
                           ContentCurator.fallback st;
                         ContentCurator.usage := ContentCurator.usage_stats st |}
             /\ ContentCurator.approved_threads st = Observe.approvals looped
             /\ (ContentCurator.best_judge_score st,
                 ContentCurator.best_thread_so_far st)
                = fold_left Observe.track (Observe.rejections looped) (-1, None)).
Proof.
  intros Hfm Hfit Hrange Hd.
  unfold ContentCurator.run_pipeline. unfold bind at 1.
  destruct (fetch_all_trace w subreddits posts_per_sub 2.0%float tr)
    as (ps & evs1 & -> & Hevs1).
  assert (Hearly1 : forallb Observe.early evs1 = true).
  { rewrite forallb_forall in *. intros e He. specialize (Hevs1 e He).
    destruct e; simpl in *; congruence. }
  destruct ps as [|p ps]; cbn [negb nonempty].
  - exists (Raised (RuntimeError
              (lit "[ORCHESTRATOR] Stage 1 Failed: No posts aggregated from subreddits."))),
      evs1, [], [].
    unfold raise. rewrite !app_nil_r. repeat split; auto.
  - unfold bind at 1.
    destruct (@filter_pair w (ContentCurator.ai_filter self) p ps 300 1500 (tr ++ evs1))
      as (ranked & usage & -> & Hum & Hpr).
    unfold bind at 1.
    match goal with
    | |- context [ContentCurator.update_if_any ?s usage ?tr1] =>
        destruct (@update_if_any_ok s usage tr1) as (stats & ->)
    end.
    { intros u Hu. now rewrite (Hum u Hu). }
    { exact Hpr. }
    set (rank_ev := ERankRequest (AIFilter.model (ContentCurator.ai_filter self))
                      (AIFilter.build_payload 300 1500 (p :: ps))).
    assert (Hearly : forallb Observe.early (evs1 ++ [rank_ev]) = true).
    { rewrite forallb_app, Hearly1. reflexivity. }
    destruct ranked as [|r ranked]; cbn [negb nonempty].
    + eexists. exists (evs1 ++ [rank_ev]), [], [].
      unfold ret. rewrite !app_nil_r, <- app_assoc.
      split; [reflexivity|]. repeat split; auto.
    + unfold bind at 1.
      assert (Hlt : (List.length (ContentCurator.approved_threads
                                    (ContentCurator.loop_start stats)) < 3)%nat)
        by (cbn; lia).
      destruct (@loop_spec w self (p :: ps) (firstn 10 (r :: ranked)) 0
                  (ContentCurator.loop_start stats) ((tr ++ evs1) ++ [rank_ev]) Hlt)
        as (res & looped & -> & Hin & _ & _ & _ & _ & _ & _ & Hst & Hok).
      destruct (Hok Hfit Hrange) as (st & ->).
      destruct (Hst st eq_refl) as (Happ & Hbest).
      unfold bind at 1.
      destruct (@notify_ok w (ContentCurator.notifier self) (ContentCurator.fallback st)
                  (((tr ++ evs1) ++ [rank_ev]) ++ looped) Hd)
        as (sent & -> & Hsent).
      eexists. exists (evs1 ++ [rank_ev]), looped, sent.
      unfold ret. rewrite <- !app_assoc.
      split; [reflexivity|]. repeat split; auto.
      right. exists st. repeat split; assumption.
Qed.

Lemma quiet_outside_loop (first looped sent : Trace) :
  forallb Observe.early first = true ->
  forallb Observe.delivery sent = true ->
  Observe.approvals (first ++ looped ++ sent) = Observe.approvals looped
  /\ Observe.rejections (first ++ looped ++ sent) = Observe.rejections looped.
Proof.
  intros Hf Hs.
  unfold Observe.approvals, Observe.rejections. rewrite !pick_app.
  rewrite (pick_none _ Observe.early first), (pick_none _ Observe.delivery sent),
    (pick_none _ Observe.early first), (pick_none _ Observe.delivery sent);
    try assumption; try (intros e He; destruct e; simpl in *; congruence).
  now rewrite !app_nil_r.
Qed.

(** C3, as the code has it.  In a run whose deliveries succeed (no service
    being named like the key of the grand total, the token counts of the
    replies of the chat service lying inside the float range): when at least one thread was
    approved, the output is the list of approved threads and nothing else.
    When none was approved and some thread was rejected, the loop has
    retained the rejected thread whose candidate had the highest ranking
    score, the earliest of them in case of a tie, provided that score is
    above -1; the output is that one thread when its object is not empty,
    and it is empty when no rejected candidate scored above -1 or when the
    retained thread is the empty object. *)
Theorem C3_fallback_selection (w : World) (self : ContentCurator.t)
    (subreddits : list str) (posts_per_sub : Z) (tr : Trace) :
  AIFilter.model (ContentCurator.ai_filter self) <> lit "total_cost" ->
  models_fit self -> reply_counts_in_range w -> reliable_delivery w ->
  exists res evs,
    ContentCurator.run_pipeline w self subreddits posts_per_sub tr = (res, tr ++ evs)
    /\ (Observe.approvals evs <> [] ->
        exists out,
          res = Ok out
          /\ ContentCurator.output_selected_threads out = Observe.approvals evs)
    /\ (Observe.approvals evs = [] -> Observe.rejections evs <> [] ->
        exists out,
          res = Ok out
          /\ ((Forall (fun r => fst r <= -1) (Observe.rejections evs)
               /\ ContentCurator.output_selected_threads out = [])
              \/ exists k s t,
                   nth_error (Observe.rejections evs) k = Some (s, t)
                   /\ -1 < s
                   /\ (forall j s' t',
                         nth_error (Observe.rejections evs) j = Some (s', t') ->
                         ((j < k)%nat -> s' < s) /\ ((k < j)%nat -> s' <= s))
                   /\ ContentCurator.output_selected_threads out
                      = if thread_truthy t then [t] else [])).
Proof.
  intros Hfm Hfit (_ & _ & Hrange) Hd.
  destruct (@run_pipeline_spec w self subreddits posts_per_sub tr Hfm Hfit Hrange Hd)
    as (res & first & looped & sent & Hrun & Hfirst & Hloop & Hsent & Hcases).
  exists res, (first ++ looped ++ sent). split; [exact Hrun|].
  destruct (@quiet_outside_loop first looped sent Hfirst Hsent) as [-> ->].
  destruct Hcases as [-> | (st & -> & Happ & Hbest)].
  - split; [intros H; now contradiction H|]. intros _ H. now contradiction H.
  - split.
    + intros Hne. eexists. split; [reflexivity|]. cbn.
      unfold ContentCurator.fallback. rewrite Happ.
      destruct (Observe.approvals looped); [contradiction|reflexivity].
    + intros Hnone Hsome. eexists. split; [reflexivity|].
      cbn [ContentCurator.output_selected_threads].
      unfold ContentCurator.fallback. rewrite Happ, Hnone.
      destruct (track_first_max (Observe.rejections looped) (-1) None)
        as [[Hle Hf] | (k & s & t & Hk & Hf & Hlt & Hord)];
        rewrite Hf in Hbest; injection Hbest as Hs Ht; rewrite Ht.
      * left. split; [exact Hle | reflexivity].
      * right. exists k, s, t. split; [exact Hk|]. split; [exact Hlt|].
        split; [exact Hord | reflexivity].
Qed.

Lemma C3_fallback_selection_witness :
  exists out t,
    fst (ContentCurator.run_pipeline Examples.all_rejected
           (Examples.curator Examples.all_rejected) [lit "rust"] 3 []) = Ok out
    /\ ContentCurator.output_selected_threads out = [t]
    /\ post_title t = Some (lit "Title 3").
Proof.
  assert (Hfm : AIFilter.model
                  (ContentCurator.ai_filter (Examples.curator Examples.all_rejected))
                <> lit "total_cost") by (vm_compute; discriminate).
  assert (Hfit : models_fit (Examples.curator Examples.all_rejected))
    by (split; vm_compute; discriminate).
  assert (Hrange : reply_counts_in_range Examples.all_rejected).
  { split; [|split]; intros tr m x r H; injection H as <-; split;
      vm_compute; discriminate. }
  assert (Hd : reliable_delivery Examples.all_rejected) by (intros tr text; reflexivity).
  destruct (@C3_fallback_selection Examples.all_rejected
              (Examples.curator Examples.all_rejected) [lit "rust"] 3 [] Hfm Hfit Hrange Hd)
    as (res & evs & Hrun & _ & Hfallback).
  rewrite Hrun. cbn [fst].
  vm_compute in Hrun. injection Hrun as Hres Hevs. subst res evs.
  destruct Hfallback as (out & Hout & Hsel).
  - vm_compute. reflexivity.
  - vm_compute. discriminate.
  - injection Hout as <-. eexists. eexists. split; [reflexivity|].
    destruct Hsel as [[Hle _] | (k & s & t & _ & _ & _ & Hsel)].
    + exfalso. inversion Hle as [|r l Hr _]. vm_compute in Hr. now apply Hr.
    + split; reflexivity.
Defined.

(** C3 as stated fails: a run in which the one generated thread is judged
    "revise" and its candidate was ranked with the score -1 has a rejected
    thread, a non-empty object, and yet no output. *)
Lemma C3_rejected_thread_is_not_selected :
  exists out evs t,
    ContentCurator.run_pipeline Examples.scored_minus_one
      (Examples.curator Examples.scored_minus_one) [lit "rust"] 3 [] = (Ok out, evs)
    /\ Observe.approvals evs = []
    /\ Observe.rejections evs = [(-1, t)]
    /\ thread_truthy t = true
    /\ ContentCurator.output_selected_threads out = [].
Proof.
  do 3 eexists.
  split; [vm_compute; reflexivity|].
  split; [vm_compute; reflexivity|].
  split; [vm_compute; reflexivity|].
  split; vm_compute; reflexivity.
Qed.

(** * Further properties *)

(** ** Aggregation (RedditProvider) *)

Lemma Forall_firstn_keep {A} (P : A -> Prop) (n : nat) (l : list A) :
  Forall P l -> Forall P (firstn n l).
Proof.
  revert n. induction l as [|a l IH]; intros [|n] H; simpl; try constructor.
  - now inversion H.
  - apply IH. now inversion H.
Qed.

(** One fetch is one download, and its result is read off the answer. *)
Lemma fetch_subreddit_posts_eq (w : World) (sub ft : str) (limit : Z) (tr : Trace) :
  RedditProvider.fetch_subreddit_posts w sub ft limit tr
  = (Ok (posts_of_answer w sub limit (feed_get w tr (RedditProvider.feed_url ft sub))),
     tr ++ [EFeedGet (RedditProvider.feed_url ft sub)]).
Proof.
  unfold RedditProvider.fetch_subreddit_posts, posts_of_answer, bind, call.
  destruct (feed_get w tr _) as [[status entries]|]; [|reflexivity].
  destruct (status =? 200); reflexivity.
Qed.

(** X1.  A feed that cannot be downloaded, or that answers with another
    status than 200, gives the empty list after its one download: the
    failure stays with this community and nothing is raised. *)
Theorem fetch_isolates_feed_failure (w : World) (subreddit filter_type : str)
    (limit : Z) (tr : Trace) :
  (forall status entries,
     feed_get w tr (RedditProvider.feed_url filter_type subreddit)
       = Some (status, entries) -> status <> 200) ->
  RedditProvider.fetch_subreddit_posts w subreddit filter_type limit tr
  = (Ok [], tr ++ [EFeedGet (RedditProvider.feed_url filter_type subreddit)]).
Proof.
  intros H. rewrite fetch_subreddit_posts_eq. unfold posts_of_answer.
  destruct (feed_get w tr _) as [[status entries]|]; [|reflexivity].
  destruct (status =? 200) eqn:E; [|reflexivity].
  apply Z.eqb_eq in E. now destruct (H status entries eq_refl).
Qed.

Lemma fetch_isolates_feed_failure_witness :
  RedditProvider.fetch_subreddit_posts Examples.silent (lit "rust") (lit "new") 5 []
  = (Ok [], [EFeedGet (lit "https://www.reddit.com/r/rust/new/.rss")]).
Proof.
  apply (@fetch_isolates_feed_failure Examples.silent (lit "rust") (lit "new") 5 []).
  intros status entries H. discriminate H.
Defined.

Lemma posts_of_answer_wellformed (w : World) (community : str) (limit : Z)
    (answer : option (Z * list Entry)) :
  Z.of_nat (List.length (posts_of_answer w community limit answer)) <= Z.max 0 limit
  /\ Forall (fun p =>
               subreddit p = community
               /\ full_content p = None
               /\ RedditProvider.is_moderator (author p) = false
               /\ id p = slice_to 10 (md5_hexdigest w (link p))
               /\ len (id p) <= 10)
       (posts_of_answer w community limit answer).
Proof.
  unfold posts_of_answer.
  destruct answer as [[status entries]|]; [|split; [cbn; lia | constructor]].
  destruct (status =? 200); [|split; [cbn; lia | constructor]].
  rewrite collect_spec, Z.sub_0_r. cbn [app]. split.
  - rewrite length_firstn. lia.
  - apply Forall_firstn_keep. apply Forall_forall. intros p Hin.
    apply in_map_iff in Hin as (e & <- & He).
    apply filter_In in He as [_ Hk]. unfold kept in Hk.
    apply negb_true_iff in Hk. cbn.
    repeat split; try assumption.
    unfold slice_to. cbn [Z.leb Z.compare]. unfold len. rewrite length_firstn. lia.
Qed.

(** X2.  Whatever the feed answers, [fetch_subreddit_posts] returns
    normally after one download, with at most [limit] posts (none for a
    limit of zero or less); every post carries the requested community, no
    full content yet, an author that is not a moderator, and as id the first
    ten characters of the digest of its link. *)
Theorem fetched_posts_wellformed (w : World) (community filter_type : str)
    (limit : Z) (tr : Trace) :
  exists ps,
    RedditProvider.fetch_subreddit_posts w community filter_type limit tr
    = (Ok ps, tr ++ [EFeedGet (RedditProvider.feed_url filter_type community)])
    /\ Z.of_nat (List.length ps) <= Z.max 0 limit
    /\ Forall (fun p =>
                 subreddit p = community
                 /\ full_content p = None
                 /\ RedditProvider.is_moderator (author p) = false
                 /\ id p = slice_to 10 (md5_hexdigest w (link p))
                 /\ len (id p) <= 10) ps.
Proof.
  eexists. split; [apply fetch_subreddit_posts_eq|].
  apply posts_of_answer_wellformed.
Qed.

Lemma fetch_all_from_shape (w : World) (n : Z) (d : float) (subs : list str) :
  forall (i : nat) (acc : list Post) (tr : Trace),
  exists ps evs,
    RedditProvider.fetch_all_from w i subs n d acc tr = (Ok (acc ++ ps), tr ++ evs)
    /\ Observe2.feed_gets evs = map (RedditProvider.feed_url (lit "hot")) subs
    /\ List.length (Observe2.sleeps evs)
       = (if PrimFloat.ltb 0 d
          then match i with O => Nat.pred (List.length subs) | S _ => List.length subs end
          else O)
    /\ Forall (fun p => In (subreddit p) subs) ps
    /\ (steady_feeds w ->
        ps = flat_map
               (fun sub => posts_of_answer w sub n
                             (feed_get w [] (RedditProvider.feed_url (lit "hot") sub)))
               subs).
Proof.
  induction subs as [|sub subs IH]; intros i acc tr.
  - exists [], []. cbn. rewrite !app_nil_r.
    repeat split; try constructor. now destruct (PrimFloat.ltb 0 d), i.
  - cbn [RedditProvider.fetch_all_from]. unfold bind at 1.
    set (url := RedditProvider.feed_url (lit "hot") sub).
    assert (Hstep : exists pre,
              (if (0 <? i)%nat && PrimFloat.ltb 0 d then emit ESleep else ret tt) tr
              = (Ok tt, tr ++ pre)
              /\ Observe2.feed_gets pre = []
              /\ List.length (Observe2.sleeps pre)
                 = (if PrimFloat.ltb 0 d then match i with O => O | S _ => 1%nat end
                    else O)).
    { destruct i as [|i]; cbn [Nat.ltb Nat.leb andb].
      - exists []. unfold ret. rewrite app_nil_r.
        repeat split. now destruct (PrimFloat.ltb 0 d).
      - destruct (PrimFloat.ltb 0 d).
        + exists [ESleep]. repeat split.
        + exists []. unfold ret. rewrite app_nil_r. repeat split. }
    destruct Hstep as (pre & -> & Hpre_g & Hpre_s).
    unfold bind at 1. rewrite fetch_subreddit_posts_eq. fold url.
    destruct (IH (S i) (acc ++ posts_of_answer w sub n (feed_get w (tr ++ pre) url))
                ((tr ++ pre) ++ [EFeedGet url]))
      as (ps & evs & -> & Hg & Hs & Hin & Hsteady).
    exists (posts_of_answer w sub n (feed_get w (tr ++ pre) url) ++ ps),
      (pre ++ EFeedGet url :: evs).
    split; [now rewrite <- !app_assoc|].
    unfold Observe2.feed_gets, Observe2.sleeps in *.
    rewrite !pick_app. cbn [Observe.pick]. rewrite Hpre_g, Hg, length_app, Hpre_s, Hs.
    split; [reflexivity|]. split.
    { cbn [List.length]. destruct (PrimFloat.ltb 0 d); [|reflexivity].
      destruct i; cbn; lia. }
    split.
    + apply Forall_app. split.
      * destruct (@posts_of_answer_wellformed w sub n (feed_get w (tr ++ pre) url))
          as [_ Hw].
        eapply Forall_impl; [|exact Hw]. intros p (Hp & _). left. now rewrite Hp.
      * eapply Forall_impl; [|exact Hin]. intros p Hp. now right.
    + intros Hst. cbn [flat_map]. rewrite <- (Hsteady Hst).
      now rewrite (Hst (tr ++ pre) [] url).
Qed.

(** X3.  [fetch_all] never raises; it downloads the "hot" feed of every
    community once, in the order given, pausing before each but the first
    when the delay is positive; every post it returns belongs to one of the
    communities; and when the feeds answer the same at any moment, its
    result is the results of the communities one after the other, so that a
    community that fails only contributes nothing. *)
Theorem fetch_all_covers_every_community (w : World) (subreddits : list str)
    (posts_per_sub : Z) (delay : float) (tr : Trace) :
  exists ps evs,
    RedditProvider.fetch_all w subreddits posts_per_sub delay tr = (Ok ps, tr ++ evs)
    /\ Observe2.feed_gets evs = map (RedditProvider.feed_url (lit "hot")) subreddits
    /\ List.length (Observe2.sleeps evs)
       = (if PrimFloat.ltb 0 delay then Nat.pred (List.length subreddits) else O)
    /\ List.length evs
       = (List.length (Observe2.feed_gets evs) + List.length (Observe2.sleeps evs))%nat
    /\ Forall (fun p => In (subreddit p) subreddits) ps
    /\ (steady_feeds w ->
        ps = flat_map
               (fun sub => posts_of_answer w sub posts_per_sub
                             (feed_get w [] (RedditProvider.feed_url (lit "hot") sub)))
               subreddits).
Proof.
  destruct (@fetch_all_from_shape w posts_per_sub delay subreddits 0%nat [] tr)
    as (ps & evs & Hrun & Hg & Hs & Hin & Hst).
  destruct (fetch_all_trace w subreddits posts_per_sub delay tr)
    as (ps' & evs' & Hrun' & Hfeed).
  unfold RedditProvider.fetch_all in *. rewrite Hrun in Hrun'.
  injection Hrun' as _ Hevs. apply app_inv_head in Hevs. subst evs'.
  exists ps, evs. repeat split; try assumption.
  clear - Hfeed. unfold Observe2.feed_gets, Observe2.sleeps.
  induction evs as [|e evs IH]; [reflexivity|].
  cbn [forallb] in Hfeed. apply andb_true_iff in Hfeed as [He Hr].
  destruct e; try discriminate He; cbn [Observe.pick List.length];
    rewrite (IH Hr); lia.
Qed.

Lemma fetch_all_covers_every_community_witness :
  exists ps evs,
    RedditProvider.fetch_all Examples.all_accepted [lit "rust"; lit "golang"] 2
      2.0%float [] = (Ok ps, evs)
    /\ map subreddit ps = [lit "rust"; lit "rust"; lit "golang"; lit "golang"]
    /\ List.length evs = 3%nat.
Proof.
  destruct (@fetch_all_covers_every_community Examples.all_accepted
              [lit "rust"; lit "golang"] 2 2.0%float [])
    as (ps & evs & Hrun & Hg & Hs & Hlen & _ & Hsteady).
  exists ps, evs. split; [exact Hrun|]. split.
  - rewrite Hsteady; [vm_compute; reflexivity|]. intros tr tr' url. reflexivity.
  - rewrite Hlen, Hg, Hs. reflexivity.
Defined.

(** ** Ranking (AIFilter) *)

(** X4.  When the ranking request is answered, [filter] returns at most
    fifteen entries, the leading ones of the answer in the same order (all
    of them when the answer has fifteen or fewer), with a usage record that
    names the configured model, carries the token counts of the answer and
    prices them at 0.15 and 0.60 per million whatever the model is.  When
    the request fails it returns an empty ranking and no usage. *)
Theorem filter_keeps_the_top_fifteen (w : World) (self : AIFilter.t)
    (p : Post) (ps : list Post) (title_limit summary_limit : Z) (tr : Trace) :
  (forall r,
     chat_rank w tr (AIFilter.model self)
       (AIFilter.build_payload title_limit summary_limit (p :: ps)) = Some r ->
     exists ranked usage rest,
       fst (AIFilter.filter w self (p :: ps) title_limit summary_limit tr)
         = Ok (AIFilter.Pair ranked (Some usage))
       /\ ranked_posts r = ranked ++ rest
       /\ (List.length ranked <= 15)%nat
       /\ ((List.length (ranked_posts r) <= 15)%nat -> rest = [])
       /\ ((15 < List.length (ranked_posts r))%nat -> List.length ranked = 15%nat)
       /\ u_model usage = AIFilter.model self
       /\ prompt_tokens usage = rank_prompt r
       /\ completion_tokens usage = rank_completion r
       /\ total_tokens usage = rank_total r
       /\ u_cost usage
          = Some (float_of_Z (rank_prompt r) * 0.15 / 1000000
                  + float_of_Z (rank_completion r) * 0.60 / 1000000)%float)
  /\ (chat_rank w tr (AIFilter.model self)
        (AIFilter.build_payload title_limit summary_limit (p :: ps)) = None ->
      fst (AIFilter.filter w self (p :: ps) title_limit summary_limit tr)
        = Ok (AIFilter.Pair [] None)).
Proof.
  split.
  - intros r Hr. unfold AIFilter.filter, bind, call. rewrite Hr. cbn [fst ret].
    exists (firstn 15 (ranked_posts r)). eexists. exists (skipn 15 (ranked_posts r)).
    split; [reflexivity|].
    split; [now rewrite firstn_skipn|].
    split; [rewrite length_firstn; lia|].
    split; [intros H; now apply skipn_all2|].
    split; [intros H; rewrite length_firstn; lia|].
    repeat split.
  - intros Hr. unfold AIFilter.filter, bind, call. now rewrite Hr.
Qed.

Lemma filter_keeps_the_top_fifteen_witness :
  exists usage,
    fst (AIFilter.filter Examples.all_accepted Examples.mini_filter
           [Examples.long_post] 300 1500 [])
      = Ok (AIFilter.Pair Examples.five (Some usage))
    /\ total_tokens usage = 12800.
Proof.
  destruct (@filter_keeps_the_top_fifteen Examples.all_accepted Examples.mini_filter
              Examples.long_post [] 300 1500 []) as [H _].
  destruct (H _ eq_refl)
    as (ranked & usage & rest & Hrun & Hsplit & _ & Hall & _ & _ & _ & _ & Htot & _).
  exists usage. split; [|exact Htot].
  rewrite Hrun. specialize (Hall ltac:(cbn; lia)). subst rest.
  rewrite app_nil_r in Hsplit. cbn in Hsplit. now rewrite <- Hsplit.
Defined.

(** X5.  For limits of three or more, every entry of the ranking payload
    keeps the id and community of its post and has a title and a summary no
    longer than the limits; the payload has one entry per post, in order;
    and when no title and no summary exceeds its limit the payload is the
    list of the minimal views of the posts. *)
Theorem payload_is_bounded_view (title_limit summary_limit : Z) (posts : list Post) :
  3 <= title_limit -> 3 <= summary_limit ->
  map pl_id (AIFilter.build_payload title_limit summary_limit posts) = map id posts
  /\ map pl_subreddit (AIFilter.build_payload title_limit summary_limit posts)
     = map subreddit posts
  /\ Forall (fun e => len (pl_title e) <= title_limit
                      /\ len (pl_rss_summary e) <= summary_limit)
       (AIFilter.build_payload title_limit summary_limit posts)
  /\ (Forall (fun p => len (title p) <= title_limit
                       /\ len (rss_summary p) <= summary_limit) posts ->
      AIFilter.build_payload title_limit summary_limit posts
      = map PostViews.to_minimal_dict posts).
Proof.
  intros Ht Hs. unfold AIFilter.build_payload.
  assert (Hb : forall limit s, 3 <= limit -> len (AIFilter.shorten limit s) <= limit).
  { intros limit s Hl. destruct (Z.lt_ge_cases limit (len s)) as [Hlong|Hshort].
    - destruct (@shorten_long limit s Hl Hlong) as [_ ->]. lia.
    - rewrite shorten_short by lia. lia. }
  split; [|split; [|split]].
  - rewrite map_map. reflexivity.
  - rewrite map_map. reflexivity.
  - apply Forall_forall. intros e He. apply in_map_iff in He as (p & <- & _). cbn.
    pose proof (Hb title_limit (title p) Ht). pose proof (Hb summary_limit (rss_summary p) Hs).
    lia.
  - intros Hall. apply map_ext_in. intros p Hp.
    rewrite Forall_forall in Hall. destruct (Hall p Hp) as [H1 H2].
    unfold PostViews.to_minimal_dict. now rewrite !shorten_short.
Qed.

Lemma payload_is_bounded_view_witness :
  AIFilter.build_payload 300 1500 Examples.posts
  = map PostViews.to_minimal_dict Examples.posts.
Proof.
  destruct (@payload_is_bounded_view 300 1500 Examples.posts) as (_ & _ & _ & H);
    try lia.
  apply H. vm_compute. repeat constructor; discriminate.
Defined.

(** ** Deep fetch (ContentExtractor) *)

Lemma from_listing_spec (web : Extractor.Web) (url : str) (tr : Trace) :
  exists listed evs,
    Extractor.from_listing web url tr = (Ok listed, tr ++ evs)
    /\ ((contains (lit "reddit.com") url = false /\ evs = [] /\ listed = None)
        \/ (contains (lit "reddit.com") url = true
            /\ evs = [EPageFetch (Extractor.rstrip_slash url ++ lit ".json")])).
Proof.
  unfold Extractor.from_listing.
  destruct (contains (lit "reddit.com") url).
  - unfold bind, call.
    destruct (Extractor.http_get web tr _) as [[status body]|e].
    + destruct (status =? 200); do 2 eexists;
        (split; [reflexivity|]); right; now split.
    + do 2 eexists. split; [reflexivity|]. right; now split.
  - exists None, []. unfold ret. rewrite app_nil_r.
    split; [reflexivity|]. now left.
Qed.

Lemma from_page_spec (web : Extractor.Web) (url : str) (tr : Trace) :
  exists text,
    Extractor.from_page web url tr = (Ok text, tr ++ [EPageFetch url]).
Proof.
  unfold Extractor.from_page, bind, call.
  destruct (Extractor.http_get web tr url) as [[status body]|e]; [|now eexists].
  destruct (negb (status =? 200)); [now eexists|].
  destruct (Extractor.visible_text web body); now eexists.
Qed.

(** X6.  [extract] never raises and downloads at most twice: nothing for a
    post without link, and otherwise the page itself, preceded for a link
    that contains "reddit.com" by the listing of the link (the link without
    its trailing slashes, plus ".json"), or that listing alone. *)
Theorem extract_downloads (web : Extractor.Web) (post : Post) (tr : Trace) :
  exists text evs,
    Extractor.extract web post tr = (Ok text, tr ++ evs)
    /\ (link post = [] -> text = [] /\ evs = [])
    /\ (link post <> [] -> contains (lit "reddit.com") (link post) = false ->
        evs = [EPageFetch (link post)])
    /\ (link post <> [] -> contains (lit "reddit.com") (link post) = true ->
        evs = [EPageFetch (Extractor.rstrip_slash (link post) ++ lit ".json")]
        \/ evs = [EPageFetch (Extractor.rstrip_slash (link post) ++ lit ".json");
                  EPageFetch (link post)]).
Proof.
  unfold Extractor.extract.
  destruct (link post) as [|c url] eqn:Hl; cbn [nonempty negb].
  - exists [], []. unfold ret. rewrite app_nil_r.
    repeat split; congruence.
  - unfold bind.
    destruct (from_listing_spec web (c :: url) tr) as (listed & evs & -> & Hevs).
    destruct listed as [text|].
    + exists text, evs. split; [reflexivity|].
      split; [discriminate|].
      destruct Hevs as [(_ & _ & Hn) | [Hr ->]]; [discriminate Hn|].
      split; [congruence|]. intros _ _. now left.
    + destruct (from_page_spec web (c :: url) (tr ++ evs)) as (text & ->).
      exists text, (evs ++ [EPageFetch (c :: url)]).
      split; [now rewrite app_assoc|].
      split; [discriminate|].
      destruct Hevs as [(Hr & -> & _) | [Hr ->]].
      * split; [reflexivity|]. congruence.
      * split; [congruence|]. intros _ _. now right.
Qed.

Lemma extract_downloads_witness :
  exists text,
    Extractor.extract Examples2.web Examples2.outside_post []
    = (Ok text, [EPageFetch (lit "https://example.org/article")]).
Proof.
  destruct (@extract_downloads Examples2.web Examples2.outside_post [])
    as (text & evs & Hrun & _ & Hout & _).
  exists text. rewrite Hrun, Hout; [reflexivity | discriminate | reflexivity].
Defined.

(** X7.  For a link that contains "reddit.com", a listing answered with
    status 200 and readable gives the text of the listing as it is, of any
    length and even empty, with no second download; a listing that raises,
    answers with another status or cannot be read is passed over in silence
    and the page itself is fetched as for any other link. *)
Theorem extract_prefers_the_listing (web : Extractor.Web) (post : Post) (tr : Trace) :
  contains (lit "reddit.com") (link post) = true ->
  (forall body text,
     Extractor.http_get web tr (Extractor.rstrip_slash (link post) ++ lit ".json")
       = inl (200, body) ->
     Extractor.listing_selftext web body = Some text ->
     Extractor.extract web post tr
     = (Ok text, tr ++ [EPageFetch (Extractor.rstrip_slash (link post) ++ lit ".json")]))
  /\ ((forall body,
         Extractor.http_get web tr (Extractor.rstrip_slash (link post) ++ lit ".json")
           = inl (200, body) ->
         Extractor.listing_selftext web body = None) ->
      Extractor.extract web post tr
      = Extractor.from_page web (link post)
          (tr ++ [EPageFetch (Extractor.rstrip_slash (link post) ++ lit ".json")])).
Proof.
  intros Hr.
  assert (Hne : nonempty (link post) = true).
  { destruct (link post); [discriminate Hr | reflexivity]. }
  unfold Extractor.extract, Extractor.from_listing. rewrite Hne, Hr. cbn [negb].
  split.
  - intros body text Hget Hsel. unfold bind, call. rewrite Hget. cbn.
    now rewrite Hsel.
  - intros Hfail. unfold bind at 1. unfold bind at 1. unfold call at 1.
    destruct (Extractor.http_get web tr _) as [[status body]|e] eqn:Hget;
      [|reflexivity].
    destruct (status =? 200) eqn:Hs; [|reflexivity].
    apply Z.eqb_eq in Hs. subst status. unfold ret.
    now rewrite (Hfail body eq_refl).
Qed.

Lemma extract_prefers_the_listing_witness :
  exists text,
    Extractor.extract Examples2.web Examples2.reddit_post []
    = (Ok text,
       [EPageFetch (lit "https://www.reddit.com/r/rust/comments/1.json")])
    /\ len text = 6000.
Proof.
  destruct (@extract_prefers_the_listing Examples2.web Examples2.reddit_post []
              eq_refl) as [H _].
  eexists. split; [apply (H (lit "body") (repeat 97%N (60 * 100))); reflexivity|].
  vm_compute. reflexivity.
Defined.

(** X8.  For a link that does not contain "reddit.com": a page answered
    with another status than 200 gives "[Error <status>]"; a page whose
    visible text has at most 5000 characters gives that text, a longer one
    its first 5000 characters and "..." (5003 characters); a download or a
    parse that raises gives "[Extraction Failed: <exception>]". *)
Theorem extract_reads_the_page (web : Extractor.Web) (post : Post) (tr : Trace) :
  link post <> [] -> contains (lit "reddit.com") (link post) = false ->
  exists text,
    Extractor.extract web post tr = (Ok text, tr ++ [EPageFetch (link post)])
    /\ (forall status body,
          Extractor.http_get web tr (link post) = inl (status, body) ->
          status <> 200 ->
          text = lit "[Error " ++ Extractor.decimal_Z status ++ lit "]")
    /\ (forall body visible,
          Extractor.http_get web tr (link post) = inl (200, body) ->
          Extractor.visible_text web body = inl visible ->
          (len visible <= 5000 -> text = visible)
          /\ (5000 < len visible ->
              text = firstn 5000 visible ++ lit "..." /\ len text = 5003))
    /\ (forall e,
          Extractor.http_get web tr (link post) = inr e
          \/ (exists body, Extractor.http_get web tr (link post) = inl (200, body)
                           /\ Extractor.visible_text web body = inr e) ->
          text = lit "[Extraction Failed: " ++ e ++ lit "]").
Proof.
  intros Hne Hr.
  unfold Extractor.extract, Extractor.from_listing. rewrite Hr.
  destruct (link post) as [|c url] eqn:Hl; [contradiction|].
  cbn [nonempty negb]. unfold bind at 1. unfold ret at 1.
  destruct (from_page_spec web (c :: url) tr) as (text & Hpage).
  exists text. split; [exact Hpage|].
  unfold Extractor.from_page, bind, call in Hpage.
  split; [|split].
  - intros status body Hget Hs. rewrite Hget in Hpage.
    apply Z.eqb_neq in Hs. rewrite Hs in Hpage. cbn in Hpage.
    now injection Hpage as <-.
  - intros body visible Hget Hv. rewrite Hget in Hpage. cbn [Z.eqb Pos.eqb negb] in Hpage.
    rewrite Hv in Hpage. unfold ret in Hpage. injection Hpage as <-.
    split; intros Hlen.
    + assert (E : (5000 <? len visible) = false) by (apply Z.ltb_ge; lia).
      now rewrite E.
    + assert (E : (5000 <? len visible) = true) by (apply Z.ltb_lt; lia).
      rewrite E. unfold slice_to. cbn [Z.leb Z.compare].
      split; [reflexivity|].
      rewrite len_app, len_firstn by (change (Z.of_nat (Z.to_nat 5000)) with 5000; lia).
      reflexivity.
  - intros e [Hget | (body & Hget & Hv)]; rewrite Hget in Hpage.
    + now injection Hpage as <-.
    + cbn [Z.eqb Pos.eqb negb] in Hpage. rewrite Hv in Hpage.
      now injection Hpage as <-.
Qed.

Lemma extract_reads_the_page_witness :
  (exists text,
     fst (Extractor.extract Examples2.web Examples2.outside_post []) = Ok text
     /\ len text = 5003)
  /\ fst (Extractor.extract Examples2.web Examples2.missing_post [])
     = Ok (lit "[Error 404]").
Proof.
  split.
  - destruct (@extract_reads_the_page Examples2.web Examples2.outside_post [])
      as (text & Hrun & _ & Hpage & _); [discriminate | reflexivity |].
    exists text. rewrite Hrun. split; [reflexivity|].
    destruct (Hpage (lit "body") (repeat 98%N (60 * 100)) eq_refl eq_refl) as [_ Hlong].
    apply Hlong. vm_compute. reflexivity.
  - destruct (@extract_reads_the_page Examples2.web Examples2.missing_post [])
      as (text & Hrun & Herr & _); [discriminate | reflexivity |].
    rewrite Hrun. cbn [fst].
    rewrite (Herr 404 (lit "not found") eq_refl); [reflexivity | discriminate].
Defined.

(** The two models of [extract] agree on the text when the oracle of the
    coarse one answers with what the downloads give. *)
Lemma extract_models_agree (w : World) (web : Extractor.Web) (post : Post) (tr : Trace) :
  (forall text tr',
     Extractor.extract web post tr = (Ok text, tr') ->
     page_text w tr (link post) = text) ->
  fst (ContentExtractor.extract w post tr) = fst (Extractor.extract web post tr).
Proof.
  intros H.
  destruct (extract_downloads web post tr) as (text & evs & Hrun & Hnil & _).
  rewrite Hrun. cbn [fst]. unfold ContentExtractor.extract.
  destruct (link post) as [|c url] eqn:Hl.
  - destruct (Hnil eq_refl) as [-> _]. reflexivity.
  - unfold call. cbn [fst]. f_equal. now apply (H text (tr ++ evs)).
Qed.

(** ** Delivery (TelegramNotifier) *)

(** X9.  The text [send_thread] posts is the composed message when that has
    at most 4000 characters, and otherwise its first 3997 characters and
    "...": it never exceeds 4000 characters. *)
Theorem posted_message_fits (thread : Thread) :
  (len (composed_message thread) <= 4000 -> message_of thread = composed_message thread)
  /\ (4000 < len (composed_message thread) ->
      message_of thread = firstn 3997 (composed_message thread) ++ lit "..."
      /\ len (message_of thread) = 4000)
  /\ len (message_of thread) <= 4000.
Proof.
  unfold message_of, TelegramNotifier.thread_message. fold (composed_message thread).
  destruct (4000 <? len (composed_message thread)) eqn:E.
  - apply Z.ltb_lt in E.
    assert (Hcut : len (slice_to 3997 (composed_message thread) ++ lit "...") = 4000).
    { unfold slice_to. cbn [Z.leb Z.compare]. rewrite len_app, len_firstn.
      - reflexivity.
      - change (Z.of_nat (Z.to_nat 3997)) with 3997. lia. }
    split; [lia|]. split; [intros _; split; [reflexivity | exact Hcut]|]. lia.
  - apply Z.ltb_ge in E. split; [reflexivity|]. split; [lia | exact E].
Qed.

Lemma posted_message_fits_witness :
  len (message_of
         {| post_id := None; post_title := Some (lit "Long");
            tweets := Some [repeat 120%N (50 * 100)];
            thread_length := None; reasoning := None |}) = 4000.
Proof.
  apply (@posted_message_fits
           {| post_id := None; post_title := Some (lit "Long");
              tweets := Some [repeat 120%N (50 * 100)];
              thread_length := None; reasoning := None |}).
  vm_compute. reflexivity.
Defined.

Lemma send_each_silent (w : World) (self : TelegramNotifier.t) (threads : list Thread) :
  (TelegramNotifier.credentials_missing self = true
   \/ Forall (fun t => deliverable t = false) threads) ->
  forall tr, TelegramNotifier.send_each w self threads tr = (Ok tt, tr).
Proof.
  intros H. induction threads as [|t threads IH]; intros tr; [reflexivity|].
  cbn [TelegramNotifier.send_each]. unfold bind, TelegramNotifier.send_thread.
  destruct (TelegramNotifier.credentials_missing self) eqn:Hc.
  - unfold ret at 1. apply IH. now left.
  - destruct H as [H|H]; [discriminate H|]. inversion H as [|? ? Ht Hr]; subst.
    unfold deliverable in Ht. rewrite Ht. cbn [negb]. unfold ret at 1.
    apply IH. now right.
Qed.

(** X10.  Without the bot token or the chat id (unset or empty), and for
    threads without tweets whatever the credentials, nothing is posted and
    nothing is raised: [send_thread] and [send_rejection_notice] return
    False and [notify_all] returns, all with no outside call. *)
Theorem nothing_posted_without_credentials (w : World) (self : TelegramNotifier.t)
    (tr : Trace) :
  (TelegramNotifier.credentials_missing self = true ->
   (forall thread, TelegramNotifier.send_thread w self thread tr = (Ok false, tr))
   /\ (forall title reason,
         TelegramNotifier.send_rejection_notice w self title reason tr = (Ok false, tr))
   /\ (forall threads, TelegramNotifier.notify_all w self threads tr = (Ok tt, tr)))
  /\ (forall threads,
        Forall (fun t => deliverable t = false) threads ->
        TelegramNotifier.notify_all w self threads tr = (Ok tt, tr))
  /\ (TelegramNotifier.credentials_missing self = true
      <-> (get (TelegramNotifier.bot_token self) [] = []
           \/ get (TelegramNotifier.chat_id self) [] = [])).
Proof.
  split; [|split].
  - intros Hc. split; [|split].
    + intros thread. unfold TelegramNotifier.send_thread. now rewrite Hc.
    + intros title reason. unfold TelegramNotifier.send_rejection_notice.
      now rewrite Hc.
    + intros threads. unfold TelegramNotifier.notify_all.
      destruct (negb (nonempty threads)); [reflexivity|].
      apply send_each_silent. now left.
  - intros threads H. unfold TelegramNotifier.notify_all.
    destruct (negb (nonempty threads)); [reflexivity|].
    apply send_each_silent. now right.
  - unfold TelegramNotifier.credentials_missing.
    destruct (TelegramNotifier.bot_token self) as [[|? ?]|];
      destruct (TelegramNotifier.chat_id self) as [[|? ?]|]; cbn;
      split; try discriminate; auto; intros [H|H]; discriminate H.
Qed.

Lemma nothing_posted_without_credentials_witness :
  TelegramNotifier.notify_all Examples.silent (TelegramNotifier.init Examples.silent)
    [Examples.thread_for Examples.long_post] [] = (Ok tt, []).
Proof.
  destruct (@nothing_posted_without_credentials Examples.silent
              (TelegramNotifier.init Examples.silent) []) as [H _].
  destruct (H eq_refl) as (_ & _ & Hn). apply Hn.
Defined.

(** The texts [notify_all] has to post for a list of threads. *)
Lemma send_each_prefix (w : World) (self : TelegramNotifier.t) (threads : list Thread) :
  TelegramNotifier.credentials_missing self = false ->
  forall tr, exists res k,
    TelegramNotifier.send_each w self threads tr
    = (res, tr ++ map EThreadPost
                    (firstn k (map message_of (List.filter deliverable threads))))
    /\ ((res = Ok tt
         /\ k = List.length (map message_of (List.filter deliverable threads)))
        \/ (res = Raised (RequestException (lit "sendMessage failed"))
            /\ (0 < k <= List.length (map message_of (List.filter deliverable threads)))%nat
            /\ exists tr1 m,
                 nth_error (map message_of (List.filter deliverable threads)) (k - 1)
                   = Some m
                 /\ telegram_post w tr1 m = false)).
Proof.
  intros Hc. induction threads as [|t threads IH]; intros tr.
  - exists (Ok tt), 0%nat. cbn. rewrite app_nil_r. split; [reflexivity | now left].
  - cbn [TelegramNotifier.send_each List.filter]. unfold bind at 1.
    unfold TelegramNotifier.send_thread. rewrite Hc.
    fold (deliverable t). destruct (deliverable t) eqn:Hd; cbn [negb].
    + fold (message_of t). unfold bind at 1, call.
      destruct (telegram_post w tr (message_of t)) eqn:Hp.
      * unfold ret at 1.
        destruct (IH (tr ++ [EThreadPost (message_of t)])) as (res & k & -> & Hk).
        exists res, (S k). cbn [map firstn]. rewrite <- app_assoc.
        split; [reflexivity|].
        destruct Hk as [[-> ->] | (-> & Hk & tr1 & m & Hm & Hf)].
        -- left. now split.
        -- right. split; [reflexivity|]. split; [cbn [List.length]; lia|].
           exists tr1, m. split; [|exact Hf].
           destruct k as [|k]; [lia|]. cbn [Nat.sub] in *.
           now rewrite Nat.sub_0_r in *.
      * exists (Raised (RequestException (lit "sendMessage failed"))), 1%nat.
        cbn [map firstn]. split; [reflexivity|]. right.
        split; [reflexivity|]. split; [cbn [List.length]; lia|].
        exists tr, (message_of t). now split.
    + unfold ret at 1. apply IH.
Qed.

(** X11.  With credentials, [notify_all] posts the threads that have
    tweets, in list order, one POST each, and skips the others.  It returns
    when every POST succeeded; the first POST that fails ends it with the
    exception, the messages before it posted and those after it not tried. *)
Theorem notify_all_posts_in_order (w : World) (self : TelegramNotifier.t)
    (threads : list Thread) (tr : Trace) :
  TelegramNotifier.credentials_missing self = false ->
  exists res k,
    TelegramNotifier.notify_all w self threads tr
    = (res, tr ++ map EThreadPost
                    (firstn k (map message_of (List.filter deliverable threads))))
    /\ ((res = Ok tt
         /\ k = List.length (map message_of (List.filter deliverable threads)))
        \/ (res = Raised (RequestException (lit "sendMessage failed"))
            /\ (0 < k <= List.length (map message_of (List.filter deliverable threads)))%nat
            /\ exists tr1 m,
                 nth_error (map message_of (List.filter deliverable threads)) (k - 1)
                   = Some m
                 /\ telegram_post w tr1 m = false))
    /\ (reliable_delivery w -> res = Ok tt).
Proof.
  intros Hc. unfold TelegramNotifier.notify_all.
  destruct threads as [|t threads]; cbn [nonempty negb].
  - exists (Ok tt), 0%nat. cbn. rewrite app_nil_r.
    split; [reflexivity|]. split; [now left | reflexivity].
  - destruct (@send_each_prefix w self (t :: threads) Hc tr) as (res & k & Hrun & Hk).
    exists res, k. split; [exact Hrun|]. split; [exact Hk|].
    intros Hd. destruct Hk as [[-> _] | (_ & _ & tr1 & m & _ & Hf)]; [reflexivity|].
    rewrite Hd in Hf. discriminate Hf.
Qed.

Lemma notify_all_posts_in_order_witness :
  exists k,
    TelegramNotifier.notify_all Examples.all_accepted
      (ContentCurator.notifier (Examples.curator Examples.all_accepted))
      (map Examples.thread_for Examples.posts) []
    = (Ok tt, map EThreadPost
                (firstn k (map message_of (map Examples.thread_for Examples.posts))))
    /\ k = 5%nat.
Proof.
  destruct (@notify_all_posts_in_order Examples.all_accepted
              (ContentCurator.notifier (Examples.curator Examples.all_accepted))
              (map Examples.thread_for Examples.posts) [] eq_refl)
    as (res & k & Hrun & Hk & Hok).
  rewrite (Hok (fun _ _ => eq_refl)) in *.
  destruct Hk as [[_ Hk] | (H & _)]; [|discriminate H].
  exists k. split; [exact Hrun|]. rewrite Hk. vm_compute. reflexivity.
Defined.

(** ** Judgment of one thread (ContentCurator) *)

(** X12.  When the judge is not named like the key of the grand total and
    the prompt and completion counts of its reply lie inside the float
    range, [_process_single_thread] asks the judge once about the tweets
    joined by blank lines and gives the thread back unchanged.  The thread
    is approved exactly when the judge answered and its action is the
    string "accept"; any other action, and a judgment that failed, is a
    rejection, followed (with credentials) by one rejection notice that
    states the weakness named by the judge or the text of the failure.  A
    failed judgment leaves the ledger as it was. *)
Theorem judgment_of_one_thread (w : World) (self : ContentCurator.t)
    (thread : Thread) (stats : ContentCurator.UsageStats) (tr : Trace) :
  EditorialJudge.model (ContentCurator.judge self) <> lit "total_cost" ->
  (forall r,
     chat_judge w tr (EditorialJudge.model (ContentCurator.judge self))
       (judged_text thread) = inl r ->
     in_float_range (judge_prompt r) /\ in_float_range (judge_completion r)) ->
  exists approved stats' notice,
    ContentCurator._process_single_thread w self thread stats tr
    = (Ok (thread, approved, stats'),
       tr ++ EJudgeRequest (EditorialJudge.model (ContentCurator.judge self))
               (judged_text thread) :: notice)
    /\ (approved = true
        <-> exists r,
              chat_judge w tr (EditorialJudge.model (ContentCurator.judge self))
                (judged_text thread) = inl r
              /\ action (decision r) = lit "accept")
    /\ (approved = true -> notice = [])
    /\ (approved = false ->
        notice
        = if TelegramNotifier.credentials_missing (ContentCurator.notifier self)
          then []
          else [ERejectionPost
                  (notice_of thread
                     (chat_judge w tr (EditorialJudge.model (ContentCurator.judge self))
                        (judged_text thread)))])
    /\ (forall e,
          chat_judge w tr (EditorialJudge.model (ContentCurator.judge self))
            (judged_text thread) = inr e ->
          approved = false /\ stats' = stats).
Proof.
  intros Hm Hrange.
  unfold ContentCurator._process_single_thread, EditorialJudge.evaluate.
  fold (judged_text thread). unfold bind at 1. unfold bind at 1. unfold call at 1.
  set (m := EditorialJudge.model (ContentCurator.judge self)) in *.
  destruct (chat_judge w tr m (judged_text thread)) as [r|e] eqn:Hj.
  - unfold ret at 1. unfold bind at 1.
    match goal with
    | |- context [ContentCurator.update_if_any stats (Some ?u) ?tr1] =>
        destruct (@update_if_any_ok stats (Some u) tr1) as (s1 & ->)
    end.
    { intros u Hu. inversion Hu; subst. exact Hm. }
    { intros u Hu. injection Hu as <-.
      match goal with
      | |- ContentCurator.merged_cost ?u <> None =>
          assert (Hr : counts_in_range u) by exact (Hrange r eq_refl);
          rewrite (merged_cost_in_range Hr); discriminate
      end. }
    destruct (str_eqb (action (decision r)) (lit "accept")) eqn:Ha.
    + apply str_eqb_eq in Ha. exists true, s1, []. unfold ret.
      split; [reflexivity|]. split; [split; [intros _; now exists r | reflexivity]|].
      split; [reflexivity|]. split; [discriminate|]. intros e He. discriminate He.
    + apply str_eqb_neq in Ha.
      unfold bind, TelegramNotifier.send_rejection_notice, notice_of, stated_reason.
      destruct (TelegramNotifier.credentials_missing (ContentCurator.notifier self)).
      * exists false, s1, []. unfold ret.
        split; [reflexivity|]. split.
        { split; [discriminate|]. intros (r' & Hr' & Hacc). congruence. }
        split; [reflexivity|]. split; [reflexivity|]. intros e He. discriminate He.
      * exists false, s1. eexists. unfold bind, call, ret.
        split; [rewrite <- app_assoc; reflexivity|]. split.
        { split; [discriminate|]. intros (r' & Hr' & Hacc). congruence. }
        split; [discriminate|]. split; [reflexivity|]. intros e He. discriminate He.
  - unfold ret at 1. unfold bind at 1. cbn [ContentCurator.update_if_any].
    unfold ret at 1. cbn [action].
    assert (Hab : str_eqb (lit "abort") (lit "accept") = false) by reflexivity.
    rewrite Hab.
    unfold bind, TelegramNotifier.send_rejection_notice, notice_of, stated_reason.
    cbn [weakness].
    destruct (TelegramNotifier.credentials_missing (ContentCurator.notifier self)).
    + exists false, stats, []. unfold ret.
      split; [reflexivity|]. split.
      { split; [discriminate|]. intros (r' & Hr' & _). discriminate Hr'. }
      split; [reflexivity|]. split; [reflexivity|]. intros e' _. now split.
    + exists false, stats. eexists. unfold bind, call, ret.
      split; [rewrite <- app_assoc; reflexivity|]. split.
      { split; [discriminate|]. intros (r' & Hr' & _). discriminate Hr'. }
      split; [discriminate|]. split; [reflexivity|]. intros e' _. now split.
Qed.

Lemma judgment_of_one_thread_witness :
  exists stats' notice,
    ContentCurator._process_single_thread Examples.all_rejected
      (Examples.curator Examples.all_rejected)
      (Examples.thread_for Examples.long_post) ContentCurator.initial_usage_stats []
    = (Ok (Examples.thread_for Examples.long_post, false, stats'),
       EJudgeRequest (lit "gpt-5.2") (judged_text (Examples.thread_for Examples.long_post))
         :: notice)
    /\ List.length notice = 1%nat.
Proof.
  assert (Hm : EditorialJudge.model
                 (ContentCurator.judge (Examples.curator Examples.all_rejected))
               <> lit "total_cost") by (vm_compute; discriminate).
  assert (Hrange : forall r,
             chat_judge Examples.all_rejected []
               (EditorialJudge.model
                  (ContentCurator.judge (Examples.curator Examples.all_rejected)))
               (judged_text (Examples.thread_for Examples.long_post)) = inl r ->
             in_float_range (judge_prompt r) /\ in_float_range (judge_completion r)).
  { intros r H. injection H as <-. split; vm_compute; discriminate. }
  destruct (@judgment_of_one_thread Examples.all_rejected
              (Examples.curator Examples.all_rejected)
              (Examples.thread_for Examples.long_post)
              ContentCurator.initial_usage_stats [] Hm Hrange)
    as (approved & stats' & notice & Hrun & Hiff & _ & Hrej & _).
  destruct approved.
  - exfalso. destruct (proj1 Hiff eq_refl) as (r & Hr & Ha).
    injection Hr as <-. vm_compute in Ha. discriminate Ha.
  - exists stats', notice. split; [exact Hrun|].
    rewrite (Hrej eq_refl). reflexivity.
Defined.

(** ** The run as a whole (ContentCurator) *)

Lemma fetch_all_from_down (w : World) (n : Z) (d : float) (subs : list str) :
  feeds_down w ->
  forall (i : nat) (acc : list Post) (tr : Trace),
  exists evs,
    RedditProvider.fetch_all_from w i subs n d acc tr = (Ok acc, tr ++ evs)
    /\ forallb Observe.feed_only evs = true.
Proof.
  intros Hdown i acc tr.
  destruct (@fetch_all_from_shape w n d subs i acc tr)
    as (ps & evs & Hrun & _ & _ & _ & _).
  destruct (fetch_all_from_trace w n d subs i acc tr) as (ps' & evs' & Hrun' & Hfeed).
  rewrite Hrun in Hrun'. injection Hrun' as Hps Hevs.
  apply app_inv_head in Hevs. subst evs'.
  exists evs. split; [|exact Hfeed]. rewrite Hrun. f_equal. f_equal.
  clear Hps Hfeed. revert i acc tr ps evs Hrun.
  induction subs as [|sub subs IH]; intros i acc tr ps evs Hrun.
  - cbn in Hrun. injection Hrun as Hps _.
    rewrite <- (app_nil_r acc) in Hps at 1. apply app_inv_head in Hps.
    subst ps. now rewrite app_nil_r.
  - cbn [RedditProvider.fetch_all_from] in Hrun. unfold bind at 1 in Hrun.
    destruct ((if (0 <? i)%nat && PrimFloat.ltb 0 d then emit ESleep else ret tt) tr)
      as [[[]|e] tr1] eqn:Hs.
    2:{ destruct ((0 <? i)%nat && PrimFloat.ltb 0 d); discriminate Hs. }
    unfold bind at 1 in Hrun. rewrite fetch_subreddit_posts_eq in Hrun.
    assert (Hnone : posts_of_answer w sub n
                      (feed_get w tr1 (RedditProvider.feed_url (lit "hot") sub)) = []).
    { unfold posts_of_answer.
      destruct (feed_get w tr1 _) as [[status entries]|] eqn:Hf; [|reflexivity].
      destruct (status =? 200) eqn:E; [|reflexivity].
      apply Z.eqb_eq in E. now destruct (Hdown _ _ _ _ Hf). }
    rewrite Hnone, app_nil_r in Hrun.
    destruct (@fetch_all_from_shape w n d subs (S i) acc
                (tr1 ++ [EFeedGet (RedditProvider.feed_url (lit "hot") sub)]))
      as (ps2 & evs2 & Hrun2 & _).
    pose proof (IH _ _ _ _ _ Hrun2) as Hacc.
    rewrite Hrun2, Hacc in Hrun. now injection Hrun as Hps _.
Qed.

(** X13.  When no feed answers with status 200, [run_pipeline] raises the
    "no posts aggregated" error after the feed downloads (one for every
    community): no ranking request is made and nothing else happens.  In
    general, an aggregation that returns no post ends the run in this way. *)
Theorem run_aborts_without_posts (w : World) (self : ContentCurator.t)
    (subreddits : list str) (posts_per_sub : Z) (tr : Trace) :
  (fst (RedditProvider.fetch_all w subreddits posts_per_sub 2.0%float tr) = Ok []
   \/ feeds_down w) ->
  exists evs,
    ContentCurator.run_pipeline w self subreddits posts_per_sub tr
    = (Raised (RuntimeError
         (lit "[ORCHESTRATOR] Stage 1 Failed: No posts aggregated from subreddits.")),
       tr ++ evs)
    /\ forallb Observe.feed_only evs = true
    /\ Observe2.feed_gets evs = map (RedditProvider.feed_url (lit "hot")) subreddits.
Proof.
  intros H.
  destruct (@fetch_all_from_shape w posts_per_sub 2.0%float subreddits 0%nat [] tr)
    as (ps & evs & Hrun & Hg & _).
  destruct (fetch_all_trace w subreddits posts_per_sub 2.0%float tr)
    as (ps' & evs' & Hrun' & Hfeed).
  unfold RedditProvider.fetch_all in *. rewrite Hrun in Hrun'.
  injection Hrun' as _ Hevs. apply app_inv_head in Hevs. subst evs'.
  assert (Hnil : ps = []).
  { destruct H as [H|H].
    - rewrite Hrun in H. cbn in H. now injection H.
    - destruct (@fetch_all_from_down w posts_per_sub 2.0%float subreddits H 0%nat [] tr)
        as (evs2 & Hrun2 & _).
      rewrite Hrun in Hrun2. now injection Hrun2. }
  subst ps. exists evs. split; [|split; assumption].
  unfold ContentCurator.run_pipeline, RedditProvider.fetch_all, bind.
  now rewrite Hrun.
Qed.

Lemma run_aborts_without_posts_witness :
  exists e,
    ContentCurator.run_pipeline Examples.silent (Examples.curator Examples.silent)
      [lit "rust"; lit "golang"] 3 []
    = (Raised e,
       [EFeedGet (lit "https://www.reddit.com/r/rust/.rss"); ESleep;
        EFeedGet (lit "https://www.reddit.com/r/golang/.rss")]).
Proof.
  destruct (@run_aborts_without_posts Examples.silent (Examples.curator Examples.silent)
              [lit "rust"; lit "golang"] 3 [])
    as (evs & Hrun & _).
  - right. intros tr url status entries H. discriminate H.
  - eexists. rewrite Hrun. f_equal.
    apply (f_equal snd) in Hrun. cbn [snd] in Hrun. rewrite <- Hrun.
    vm_compute. reflexivity.
Defined.

Lemma loop_skips_unresolved (w : World) (self : ContentCurator.t)
    (all_posts : list Post) (items : list RankItem) :
  (forall item, In item items ->
     ContentCurator.find_post all_posts (r_id item) = None) ->
  forall i st tr,
    ContentCurator.editorial_loop w self all_posts i items st tr = (Ok st, tr).
Proof.
  induction items as [|item rest IH]; intros H i st tr; [reflexivity|].
  rewrite editorial_loop_cons, (H item (or_introl eq_refl)).
  apply IH. intros it Hin. apply H. now right.
Qed.

Lemma find_post_none_iff (all_posts : list Post) (post_id : str) :
  ContentCurator.find_post all_posts post_id = None
  <-> ~ In post_id (map id all_posts).
Proof.
  unfold ContentCurator.find_post. induction all_posts as [|p ps IH]; cbn.
  - split; [auto | reflexivity].
  - destruct (str_eqb (id p) post_id) eqn:E.
    + apply str_eqb_eq in E. split; [discriminate | intros H; exfalso; auto].
    + apply str_eqb_neq in E. rewrite IH. split.
      * intros H [Hp|Hp]; auto.
      * intros H Hp. apply H. now right.
Qed.

(** X14.  A ranked entry whose id belongs to no aggregated post is passed
    over without any event; when none of the first ten ranked ids belongs to
    an aggregated post the run ends normally with no selected thread: no
    page is fetched, nothing is generated, judged or sent, and the ledger
    holds the ranking call only. *)
Theorem unresolved_ranking_gives_empty_run (w : World) (self : ContentCurator.t)
    (subreddits : list str) (posts_per_sub : Z) (tr tr1 : Trace)
    (all_posts : list Post) (ranked : list RankItem) (usage : option UsageData) :
  RedditProvider.fetch_all w subreddits posts_per_sub 2.0%float tr = (Ok all_posts, tr1) ->
  all_posts <> [] ->
  fst (AIFilter.filter w (ContentCurator.ai_filter self) all_posts 300 1500 tr1)
    = Ok (AIFilter.Pair ranked usage) ->
  AIFilter.model (ContentCurator.ai_filter self) <> lit "total_cost" ->
  (forall item, In item (firstn 10 ranked) -> ~ In (r_id item) (map id all_posts)) ->
  exists stats,
    match usage with
    | Some u => ContentCurator._update_usage ContentCurator.initial_usage_stats u = Ok stats
    | None => stats = ContentCurator.initial_usage_stats
    end
    /\ ContentCurator.run_pipeline w self subreddits posts_per_sub tr
       = (Ok {| ContentCurator.posts := [];
                ContentCurator.output_selected_threads := [];
                ContentCurator.usage := stats |},
          tr1 ++ [ERankRequest (AIFilter.model (ContentCurator.ai_filter self))
                    (AIFilter.build_payload 300 1500 all_posts)]).
Proof.
  intros Hfetch Hne Hfilter Hmodel Hunres.
  destruct all_posts as [|p ps]; [contradiction|].
  destruct (@filter_pair w (ContentCurator.ai_filter self) p ps 300 1500 tr1)
    as (ranked' & usage' & Hfil & Hum & Hpr).
  rewrite Hfil in Hfilter. cbn [fst] in Hfilter.
  injection Hfilter as -> ->.
  assert (Hu : forall u, usage = Some u -> u_model u <> lit "total_cost").
  { intros u Hu. now rewrite (Hum u Hu). }
  destruct (@update_if_any_ok ContentCurator.initial_usage_stats usage [] Hu Hpr)
    as (stats & Hup).
  exists stats.
  assert (Hup' : forall t, ContentCurator.update_if_any
                             ContentCurator.initial_usage_stats usage t = (Ok stats, t)).
  { intros t. unfold ContentCurator.update_if_any in *. destruct usage as [u|].
    - destruct (ContentCurator._update_usage _ u); [|discriminate Hup].
      unfold ret in *. now injection Hup as ->.
    - unfold ret in *. now injection Hup as ->. }
  split.
  { unfold ContentCurator.update_if_any in Hup. destruct usage as [u|].
    - destruct (ContentCurator._update_usage _ u); [|discriminate Hup].
      unfold ret in Hup. now injection Hup as ->.
    - unfold ret in Hup. now injection Hup as ->. }
  unfold ContentCurator.run_pipeline, bind. rewrite Hfetch.
  cbn [negb nonempty]. rewrite Hfil, Hup'.
  destruct ranked as [|r ranked]; cbn [negb nonempty]; [reflexivity|].
  rewrite loop_skips_unresolved.
  - reflexivity.
  - intros item Hin. apply find_post_none_iff. now apply Hunres.
Qed.

Lemma unresolved_ranking_gives_empty_run_witness :
  exists stats evs,
    ContentCurator.run_pipeline Examples2.strangers
      (Examples.curator Examples2.strangers) [lit "rust"] 3 []
    = (Ok {| ContentCurator.posts := [];
             ContentCurator.output_selected_threads := [];
             ContentCurator.usage := stats |}, evs)
    /\ List.length evs = 2%nat.
Proof.
  assert (Hne : map (RedditProvider.make_post Examples2.strangers (lit "rust"))
                  (firstn 3 (List.filter kept Examples.feed)) <> [])
    by (vm_compute; discriminate).
  assert (Hm : AIFilter.model
                 (ContentCurator.ai_filter (Examples.curator Examples2.strangers))
               <> lit "total_cost") by (vm_compute; discriminate).
  destruct (@unresolved_ranking_gives_empty_run Examples2.strangers
              (Examples.curator Examples2.strangers) [lit "rust"] 3 []
              [EFeedGet (RedditProvider.feed_url (lit "hot") (lit "rust"))]
              (map (RedditProvider.make_post Examples2.strangers (lit "rust"))
                 (firstn 3 (List.filter kept Examples.feed)))
              (Examples.ranking [("9"%string, 90); ("8"%string, 80)])
              (Some Examples.rank_usage)
              eq_refl Hne eq_refl Hm)
    as (stats & _ & Hrun).
  - intros item Hin. cbn in Hin.
    destruct Hin as [<- | [<- | []]]; vm_compute;
      intros H; repeat (destruct H as [H|H]; [discriminate H|]); exact H.
  - exists stats. eexists. split; [exact Hrun | reflexivity].
Defined.

(** X15.  Every run, in every world, goes in this order: the feed
    downloads with their pauses and the ranking request, then the rounds of
    the loop, then the deliveries.  At most three threads are approved and
    at most three are posted.  When the run returns, its list of posts is
    empty, it selects at most three threads, each of them a thread that was
    judged in this run (approved, or rejected with a score), and it has
    posted no more threads than it selected. *)
Theorem run_goes_in_stages (w : World) (self : ContentCurator.t)
    (subreddits : list str) (posts_per_sub : Z) (tr : Trace) :
  exists res first looped sent,
    ContentCurator.run_pipeline w self subreddits posts_per_sub tr
    = (res, tr ++ first ++ looped ++ sent)
    /\ forallb Observe.early first = true
    /\ forallb Observe.in_loop looped = true
    /\ forallb Observe.delivery sent = true
    /\ (List.length (Observe.approvals looped) <= 3)%nat
    /\ (List.length sent <= 3)%nat
    /\ forall out, res = Ok out ->
         ContentCurator.posts out = []
         /\ (List.length (ContentCurator.output_selected_threads out) <= 3)%nat
         /\ (List.length sent
             <= List.length (ContentCurator.output_selected_threads out))%nat
         /\ forall t, In t (ContentCurator.output_selected_threads out) ->
              In t (Observe.approvals looped)
              \/ exists s, In (s, t) (Observe.rejections looped).
Proof.
  unfold ContentCurator.run_pipeline. unfold bind at 1.
  destruct (fetch_all_trace w subreddits posts_per_sub 2.0%float tr)
    as (ps & evs1 & -> & Hevs1).
  assert (Hearly1 : forallb Observe.early evs1 = true).
  { rewrite forallb_forall in *. intros e He. specialize (Hevs1 e He).
    destruct e; simpl in *; congruence. }
  destruct ps as [|p ps]; cbn [negb nonempty].
  - eexists. exists evs1, [], []. unfold raise. rewrite !app_nil_r.
    split; [reflexivity|]. repeat split; auto; try (cbn; lia); discriminate.
  - unfold bind at 1.
    destruct (@filter_pair w (ContentCurator.ai_filter self) p ps 300 1500 (tr ++ evs1))
      as (ranked & usage & -> & Hum).
    set (rank_ev := ERankRequest (AIFilter.model (ContentCurator.ai_filter self))
                      (AIFilter.build_payload 300 1500 (p :: ps))).
    assert (Hearly : forallb Observe.early (evs1 ++ [rank_ev]) = true).
    { rewrite forallb_app, Hearly1. reflexivity. }
    unfold bind at 1.
    destruct (update_if_any_cases ContentCurator.initial_usage_stats usage
                ((tr ++ evs1) ++ [rank_ev]))
      as [(stats & ->) | (e & u & -> & _)].
    2:{ eexists. exists (evs1 ++ [rank_ev]), [], [].
        rewrite !app_nil_r, <- app_assoc. split; [reflexivity|].
        repeat split; auto; try (cbn; lia); discriminate. }
    destruct ranked as [|r ranked]; cbn [negb nonempty].
    + eexists. exists (evs1 ++ [rank_ev]), [], [].
      unfold ret. rewrite !app_nil_r, <- app_assoc. split; [reflexivity|].
      repeat split; auto; try (cbn; lia);
        match goal with
        | H : Ok _ = Ok _ |- _ => injection H as <-
        end; cbn; try lia; try reflexivity; intros [].
    + unfold bind at 1.
      assert (Hlt : (List.length (ContentCurator.approved_threads
                                    (ContentCurator.loop_start stats)) < 3)%nat)
        by (cbn; lia).
      destruct (@loop_spec w self (p :: ps) (firstn 10 (r :: ranked)) 0
                  (ContentCurator.loop_start stats) ((tr ++ evs1) ++ [rank_ev]) Hlt)
        as (res & looped & -> & Hin & _ & _ & _ & _ & Hle & _ & Hst & _).
      cbn [ContentCurator.loop_start ContentCurator.approved_threads List.length
             Nat.add] in Hle.
      destruct res as [st|e].
      2:{ eexists. exists (evs1 ++ [rank_ev]), looped, [].
          rewrite !app_nil_r, <- !app_assoc. split; [reflexivity|].
          repeat split; auto; try (cbn; lia); discriminate. }
      destruct (Hst st eq_refl) as (Happ & Hbest).
      cbn [ContentCurator.loop_start ContentCurator.approved_threads
             ContentCurator.best_judge_score ContentCurator.best_thread_so_far app]
        in Happ, Hbest.
      destruct (@fallback_origin st looped Happ Hbest Hle) as (Hlen & Horigin).
      unfold bind at 1.
      destruct (notify_general w (ContentCurator.notifier self) (ContentCurator.fallback st)
                  (((tr ++ evs1) ++ [rank_ev]) ++ looped))
        as (resn & sent & -> & Hsent & Hsl).
      destruct resn as [[]|e].
      * eexists. exists (evs1 ++ [rank_ev]), looped, sent.
        unfold ret. rewrite <- !app_assoc. split; [reflexivity|].
        repeat split; auto; try lia;
          match goal with
          | H : Ok _ = Ok _ |- _ => injection H as <-
          end; cbn [ContentCurator.posts ContentCurator.output_selected_threads];
          [reflexivity | exact Hlen | exact Hsl | exact Horigin].
      * eexists. exists (evs1 ++ [rank_ev]), looped, sent.
        rewrite <- !app_assoc. split; [reflexivity|].
        repeat split; auto; try lia; discriminate.
Qed.

(** ** The ledger (ContentCurator._update_usage) *)

Section LedgerCounts.
Import ContentCurator.

Lemma merge_all_token_sums (us : list UsageData) :
  Forall mergeable us ->
  forall s0, exists s,
    merge_all s0 us = Ok s
    /\ forall m,
         prompt (entry_of m s)
         = prompt (entry_of m s0)
           + Zsum (map prompt_tokens (List.filter (for_model m) us))
         /\ completion (entry_of m s)
            = completion (entry_of m s0)
              + Zsum (map completion_tokens (List.filter (for_model m) us))
         /\ total (entry_of m s)
            = total (entry_of m s0)
              + Zsum (map total_tokens (List.filter (for_model m) us)).
Proof.
  induction 1 as [|u us Hu Hus IH]; intros s0.
  - exists s0. split; [reflexivity|]. intros m. cbn. lia.
  - destruct (@update_usage_mergeable s0 u Hu) as (s1 & Hs1 & He & Ht & Ho).
    destruct (IH s1) as (s & Hs & Hm).
    exists s. cbn [merge_all]. rewrite Hs1. split; [exact Hs|].
    intros m. destruct (Hm m) as (Hp & Hc & Htot).
    rewrite Hp, Hc, Htot. cbn [List.filter].
    change (for_model m u) with (str_eqb (u_model u) m).
    destruct (str_eqb (u_model u) m) eqn:E.
    + apply str_eqb_eq in E. subst m. rewrite He.
      unfold Zsum. cbn [map fold_right prompt completion total]. lia.
    + apply str_eqb_neq in E. rewrite Ho by congruence. lia.
Qed.

Lemma Zsum_filter_perm (f : UsageData -> Z) (p : UsageData -> bool)
    (us us' : list UsageData) :
  Permutation us us' ->
  Zsum (map f (List.filter p us)) = Zsum (map f (List.filter p us')).
Proof.
  induction 1 as [|x l l' _ IH|x y l|l l' l'' _ IH1 _ IH2]; cbn [List.filter].
  - reflexivity.
  - destruct (p x); [|exact IH]. unfold Zsum in *. cbn [map fold_right]. lia.
  - destruct (p x), (p y); unfold Zsum; cbn [map fold_right]; lia.
  - congruence.
Qed.

Lemma entry_of_initial_tokens (m : str) :
  prompt (entry_of m initial_usage_stats) = 0
  /\ completion (entry_of m initial_usage_stats) = 0
  /\ total (entry_of m initial_usage_stats) = 0.
Proof.
  cbv [entry_of initial_usage_stats models lookup].
  destruct (str_eqb (lit "gpt-5-mini") m); [repeat split|].
  destruct (str_eqb (lit "gpt-5.2") m); repeat split.
Qed.

(** X16.  The token counts of the ledger are exact and do not depend on the
    order of the calls: for records whose model is not named "total_cost"
    and whose prompt and completion counts lie inside the float range, the
    merges return, and after the records have been merged into a fresh
    ledger, the prompt, completion and total counts of every model are the
    integer sums of those fields over the records of that model, and merging
    the same records in any other order gives the same counts. *)
Theorem ledger_counts_tokens_exactly (records records' : list UsageData) :
  Forall mergeable records ->
  Permutation records records' ->
  exists s s',
    merge_all initial_usage_stats records = Ok s
    /\ merge_all initial_usage_stats records' = Ok s'
    /\ forall m,
         prompt (entry_of m s)
         = Zsum (map prompt_tokens (List.filter (for_model m) records))
         /\ completion (entry_of m s)
            = Zsum (map completion_tokens (List.filter (for_model m) records))
         /\ total (entry_of m s)
            = Zsum (map total_tokens (List.filter (for_model m) records))
         /\ prompt (entry_of m s') = prompt (entry_of m s)
         /\ completion (entry_of m s') = completion (entry_of m s)
         /\ total (entry_of m s') = total (entry_of m s).
Proof.
  intros Hfit Hperm.
  assert (Hfit' : Forall mergeable records')
    by (eapply Permutation_Forall; eassumption).
  destruct (@merge_all_token_sums records Hfit initial_usage_stats) as (s & Hs & Hm).
  destruct (@merge_all_token_sums records' Hfit' initial_usage_stats) as (s' & Hs' & Hm').
  exists s, s'. split; [exact Hs|]. split; [exact Hs'|].
  intros m. destruct (Hm m) as (Hp & Hc & Ht). destruct (Hm' m) as (Hp' & Hc' & Ht').
  destruct (entry_of_initial_tokens m) as (Zp & Zc & Zt).
  rewrite Zp in Hp, Hp'. rewrite Zc in Hc, Hc'. rewrite Zt in Ht, Ht'.
  rewrite Hp', Hc', Ht', Hp, Hc, Ht.
  rewrite <- !(@Zsum_filter_perm _ (for_model m) records records' Hperm).
  repeat split; lia.
Qed.

Lemma ledger_counts_tokens_exactly_witness :
  exists s s',
    merge_all initial_usage_stats
      [Examples.rank_usage; Examples.gen_usage; Examples.judge_usage] = Ok s
    /\ merge_all initial_usage_stats
         [Examples.judge_usage; Examples.rank_usage; Examples.gen_usage] = Ok s'
    /\ total (entry_of (lit "gpt-5.2") s) = 4720
    /\ total (entry_of (lit "gpt-5.2") s') = 4720.
Proof.
  assert (Hfit : Forall mergeable
                   [Examples.rank_usage; Examples.gen_usage; Examples.judge_usage])
    by (repeat constructor; vm_compute; discriminate).
  assert (Hperm : Permutation
                    [Examples.rank_usage; Examples.gen_usage; Examples.judge_usage]
                    [Examples.judge_usage; Examples.rank_usage; Examples.gen_usage]).
  { apply Permutation_sym.
    apply (@Permutation_cons_app _ [Examples.rank_usage; Examples.gen_usage] 
             [Examples.rank_usage; Examples.gen_usage] [] Examples.judge_usage).
    rewrite app_nil_r. apply Permutation_refl. }
  destruct (@ledger_counts_tokens_exactly _ _ Hfit Hperm) as (s & s' & Hs & Hs' & Hm).
  exists s, s'. split; [exact Hs|]. split; [exact Hs'|].
  destruct (Hm (lit "gpt-5.2")) as (_ & _ & Ht & _ & _ & Ht').
  rewrite Ht', Ht. split; reflexivity.
Defined.

Lemma store_keys_old (m : str) (v : ModelStats) (d : list (str * ModelStats)) :
  In m (map fst d) -> map fst (store m v d) = map fst d.
Proof.
  induction d as [|[k v'] d IH]; cbn [map fst store In]; [intros []|].
  intros Hin. destruct (str_eqb k m) eqn:E; [reflexivity|].
  cbn [map fst]. f_equal. apply IH. destruct Hin as [->|Hin]; [|exact Hin].
  rewrite str_eqb_refl in E. discriminate.
Qed.

Lemma store_keys_new (m : str) (v : ModelStats) (d : list (str * ModelStats)) :
  ~ In m (map fst d) -> map fst (store m v d) = map fst d ++ [m].
Proof.
  induction d as [|[k v'] d IH]; cbn [map fst store In app]; [reflexivity|].
  intros Hnot. destruct (str_eqb k m) eqn:E.
  - apply str_eqb_eq in E. exfalso. apply Hnot. now left.
  - cbn [map fst]. f_equal. apply IH. intros Hin. apply Hnot. now right.
Qed.

Lemma update_usage_keys (s s' : UsageStats) (u : UsageData) :
  _update_usage s u = Ok s' ->
  (In (u_model u) (map fst (models s)) /\ map fst (models s') = map fst (models s))
  \/ (~ In (u_model u) (map fst (models s))
      /\ map fst (models s') = map fst (models s) ++ [u_model u]).
Proof.
  unfold _update_usage.
  destruct (str_eqb (u_model u) (lit "total_cost")); [discriminate|].
  destruct (merged_cost u) as [paid|]; [|discriminate].
  intros H. injection H as <-. cbn [models].
  destruct (in_dec (list_eq_dec N.eq_dec) (u_model u) (map fst (models s))) as [Hin|Hnot].
  - left. split; [exact Hin|]. now apply store_keys_old.
  - right. split; [exact Hnot|]. now apply store_keys_new.
Qed.

(** X17.  The ledger lists every model once, in the order in which the
    models were first billed: merging records (none for a model named
    "total_cost", all with prompt and completion counts inside the float
    range) into a ledger whose keys are distinct returns and keeps the keys
    it had in their places, appends the models it did not have, and the keys
    stay distinct.  A model is appended exactly when a record names it and
    the ledger did not have it. *)
Theorem ledger_lists_each_model_once (records : list UsageData) :
  Forall mergeable records ->
  forall s0, NoDup (map fst (models s0)) ->
  exists s added,
    merge_all s0 records = Ok s
    /\ map fst (models s) = map fst (models s0) ++ added
    /\ NoDup (map fst (models s))
    /\ forall m, In m added
                 <-> In m (map u_model records) /\ ~ In m (map fst (models s0)).
Proof.
  induction 1 as [|u us Hu Hus IH]; intros s0 Hnd.
  - exists s0, []. rewrite app_nil_r. cbn. repeat split; try assumption; tauto.
  - destruct (@update_usage_mergeable s0 u Hu) as (s1 & Hs1 & _).
    cbn [merge_all]. rewrite Hs1.
    destruct (@update_usage_keys s0 s1 u Hs1) as [[Hin Hk] | [Hnot Hk]].
    + destruct (IH s1) as (s & added & Hs & Hks & Hnds & Hadd);
        [rewrite Hk; exact Hnd|].
      exists s, added. rewrite Hk in Hks, Hadd.
      split; [exact Hs|]. split; [exact Hks|]. split; [exact Hnds|].
      intros m. rewrite Hadd. cbn [map In]. split.
      * intros [H1 H2]. split; [now right | exact H2].
      * intros [[<-|H1] H2]; [contradiction | now split].
    + assert (Hnd1 : NoDup (map fst (models s1))).
      { rewrite Hk. apply NoDup_app; [exact Hnd | repeat constructor; intros [] |].
        intros a Ha [<-|[]]. contradiction. }
      destruct (IH s1 Hnd1) as (s & added & Hs & Hks & Hnds & Hadd).
      exists s, (u_model u :: added). rewrite Hk in Hks, Hadd.
      split; [exact Hs|]. split; [rewrite Hks, <- app_assoc; reflexivity|].
      split; [exact Hnds|].
      intros m. cbn [map In]. rewrite Hadd. split.
      * intros [<-|[H1 H2]]; [split; [now left | exact Hnot]|].
        split; [now right|]. intros H3. apply H2. apply in_or_app. now left.
      * intros [H1 H2].
        destruct (list_eq_dec N.eq_dec (u_model u) m) as [E|E]; [now left|].
        right. destruct H1 as [H1|H1]; [contradiction|]. split; [exact H1|].
        intros H3. apply in_app_or in H3 as [H3|[H3|[]]]; contradiction.
Qed.

Lemma ledger_lists_each_model_once_witness :
  exists s,
    merge_all initial_usage_stats
      [Examples.judge_usage; Examples.rank_usage; Examples.judge_usage] = Ok s
    /\ map fst (models s) = [lit "gpt-5-mini"; lit "gpt-5.2"].
Proof.
  assert (Hfit : Forall mergeable
                   [Examples.judge_usage; Examples.rank_usage; Examples.judge_usage])
    by (repeat constructor; vm_compute; discriminate).
  assert (Hnd : NoDup (map fst (models initial_usage_stats))).
  { repeat constructor; cbn; [|tauto]. intros [H|[]]. vm_compute in H. discriminate H. }
  destruct (@ledger_lists_each_model_once _ Hfit initial_usage_stats Hnd)
    as (s & added & Hs & _ & _ & _).
  exists s. split; [exact Hs|].
  vm_compute in Hs. injection Hs as <-. reflexivity.
Defined.

End LedgerCounts.

(** ** The list of communities (main) *)

Lemma lstrip_head (s : str) (c : N) (rest : str) :
  lstrip s = c :: rest -> is_space c = false.
Proof.
  induction s as [|x s IH]; cbn [lstrip]; [discriminate|].
  destruct (is_space x) eqn:E; [exact IH|].
  intros H. injection H as <- _. exact E.
Qed.

Lemma lstrip_In (s : str) (c : N) : In c (lstrip s) -> In c s.
Proof.
  destruct (lstrip_suffix s) as (pre & Hs & _). intros H.
  rewrite Hs. apply in_or_app. now right.
Qed.

Lemma strip_In (s : str) (c : N) : In c (strip s) -> In c s.
Proof.
  unfold strip. intros H. apply in_rev in H. apply lstrip_In in H.
  apply in_rev in H. now apply lstrip_In.
Qed.

Lemma strip_prefix (s : str) : exists post, lstrip s = strip s ++ post.
Proof.
  destruct (lstrip_suffix (rev (lstrip s))) as (pre & Hs & _).
  exists (rev pre). unfold strip.
  rewrite <- (rev_involutive (lstrip s)) at 1. rewrite Hs at 1.
  now rewrite rev_app_distr.
Qed.

Lemma strip_clean (s : str) : strip s <> [] -> ~ In 44%N s -> clean_name (strip s).
Proof.
  intros Hne Hcomma. split; [exact Hne|]. split; [|split].
  - intros H. apply Hcomma. now apply strip_In.
  - intros c rest Hs. destruct (strip_prefix s) as (post & Hp).
    rewrite Hs in Hp. cbn [app] in Hp. now apply lstrip_head in Hp.
  - intros c front Hs. unfold strip in Hs.
    apply (f_equal (@rev N)) in Hs.
    rewrite rev_involutive, rev_app_distr in Hs. cbn [rev app] in Hs.
    now apply lstrip_head in Hs.
Qed.

Lemma split_on_no_sep (sep : N) (s : str) :
  ~ In sep (fst (split_on sep s)) /\ Forall (fun f => ~ In sep f) (snd (split_on sep s)).
Proof.
  induction s as [|c s [IHc IHr]]; cbn [split_on].
  - split; [intros [] | constructor].
  - destruct (split_on sep s) as [cur rest]. cbn [fst snd] in *.
    destruct (N.eqb c sep) eqn:E; cbn [fst snd].
    + split; [intros [] | now constructor].
    + apply N.eqb_neq in E. split; [|exact IHr].
      intros [H|H]; [congruence | contradiction].
Qed.

(** X18.  Whatever the value of SUBREDDITS, every community name that
    [main] passes on is clean: it is not empty, holds no comma and neither
    starts nor ends with white space. *)
Theorem parsed_names_are_clean (subreddits_env : str) :
  Forall clean_name (Main.parse_subreddits subreddits_env).
Proof.
  unfold Main.parse_subreddits, split.
  destruct (split_on_no_sep 44%N subreddits_env) as [Hc Hr].
  destruct (split_on 44%N subreddits_env) as [cur rest]. cbn [fst snd] in *.
  assert (Hall : Forall (fun f => ~ In 44%N f) (cur :: rest)) by now constructor.
  induction Hall as [|f l Hf _ IH]; cbn [List.filter map]; [constructor|].
  destruct (strip f) as [|c r] eqn:E; cbn [nonempty]; [exact IH|].
  cbn [map]. constructor; [|exact IH].
  rewrite E. rewrite <- E. apply strip_clean; [rewrite E; discriminate | exact Hf].
Qed.

Lemma split_on_field (sep : N) (f rest : str) :
  ~ In sep f ->
  split_on sep (f ++ sep :: rest)
  = (f, fst (split_on sep rest) :: snd (split_on sep rest)).
Proof.
  induction f as [|c f IH]; intros Hnot; cbn [app split_on].
  - destruct (split_on sep rest) as [cur more]. now rewrite N.eqb_refl.
  - rewrite IH by (intros H; apply Hnot; now right).
    destruct (N.eqb c sep) eqn:E; [|reflexivity].
    apply N.eqb_eq in E. exfalso. apply Hnot. now left.
Qed.

Lemma split_on_last (sep : N) (f : str) : ~ In sep f -> split_on sep f = (f, []).
Proof.
  induction f as [|c f IH]; intros Hnot; cbn [split_on]; [reflexivity|].
  rewrite IH by (intros H; apply Hnot; now right).
  destruct (N.eqb c sep) eqn:E; [|reflexivity].
  apply N.eqb_eq in E. exfalso. apply Hnot. now left.
Qed.

Lemma split_join (sep : N) (names : list str) :
  names <> [] -> Forall (fun f => ~ In sep f) names ->
  split sep (join [sep] names) = names.
Proof.
  unfold split. induction names as [|f names IH]; intros Hne Hall; [congruence|].
  inversion Hall as [|? ? Hf Hrest]; subst.
  destruct names as [|g names].
  - cbn [join]. now rewrite split_on_last.
  - change (join [sep] (f :: g :: names)) with (f ++ sep :: join [sep] (g :: names)).
    rewrite split_on_field by exact Hf.
    specialize (IH ltac:(discriminate) Hrest).
    destruct (split_on sep (join [sep] (g :: names))) as [cur more].
    cbn [fst snd]. now rewrite IH.
Qed.

Lemma strip_of_clean (name : str) : clean_name name -> strip name = name.
Proof.
  intros (Hne & _ & Hhead & Hlast). unfold strip.
  assert (H1 : lstrip name = name).
  { destruct name as [|c r]; [reflexivity|]. cbn [lstrip].
    now rewrite (Hhead c r eq_refl). }
  rewrite H1.
  assert (H2 : lstrip (rev name) = rev name).
  { destruct (rev name) as [|c r] eqn:E; [reflexivity|]. cbn [lstrip].
    assert (Hn : name = rev r ++ [c]).
    { rewrite <- (rev_involutive name), E. reflexivity. }
    now rewrite (Hlast c (rev r) Hn). }
  rewrite H2. apply rev_involutive.
Qed.

(** X19.  A list of clean community names, written with commas between
    them, is read back by [main] as it was. *)
Theorem parse_reads_back_clean_names (names : list str) :
  Forall clean_name names ->
  Main.parse_subreddits (join [44%N] names) = names.
Proof.
  intros Hall. unfold Main.parse_subreddits.
  destruct names as [|f names]; [reflexivity|].
  rewrite split_join; [|discriminate|].
  2:{ eapply Forall_impl; [|exact Hall]. intros a (_ & H & _). exact H. }
  induction Hall as [|a l Ha _ IH]; [reflexivity|].
  cbn [List.filter]. rewrite (strip_of_clean Ha).
  destruct Ha as (Hne & Hrest). destruct a as [|c a]; [congruence|].
  cbn [nonempty map]. rewrite (strip_of_clean (conj Hne Hrest)). now rewrite IH.
Qed.

Lemma parse_reads_back_clean_names_witness :
  Main.parse_subreddits (lit "rust,machine learning,ocaml")
  = [lit "rust"; lit "machine learning"; lit "ocaml"].
Proof.
  assert (Hclean : forall n : str,
             In n [lit "rust"; lit "machine learning"; lit "ocaml"] -> clean_name n).
  { intros n Hin.
    assert (Hb : nonempty n = true /\ existsb (N.eqb 44) n = false
                 /\ is_space (hd 0%N n) = false /\ is_space (last n 0%N) = false).
    { destruct Hin as [<-|[<-|[<-|[]]]]; vm_compute; repeat split. }
    destruct Hb as (H1 & H2 & H3 & H4). split; [|split; [|split]].
    - intros ->. discriminate H1.
    - intros Hin'. assert (existsb (N.eqb 44) n = true); [|congruence].
      apply existsb_exists. exists 44%N. split; [exact Hin' | reflexivity].
    - intros c rest ->. exact H3.
    - intros c front ->. now rewrite last_last in H4. }
  apply (@parse_reads_back_clean_names
           [lit "rust"; lit "machine learning"; lit "ocaml"]).
  apply Forall_forall. exact Hclean.
Defined.

(** ** The ledger of a run *)

Lemma merge_all_snoc (records : list UsageData) (u : UsageData) :
  forall s s1 s2 : ContentCurator.UsageStats,
  ContentCurator.merge_all s records = Ok s1 ->
  ContentCurator._update_usage s1 u = Ok s2 ->
  ContentCurator.merge_all s (records ++ [u]) = Ok s2.
Proof.
  induction records as [|r records IH]; intros s s1 s2 H1 H2;
    cbn [ContentCurator.merge_all app] in *.
  - injection H1 as ->. now rewrite H2.
  - destruct (ContentCurator._update_usage s r); [|discriminate].
    eapply IH; eassumption.
Qed.

Lemma update_if_any_inv (s s' : ContentCurator.UsageStats) (usage : option UsageData)
    (tr tr' : Trace) :
  ContentCurator.update_if_any s usage tr = (Ok s', tr') ->
  (usage = None /\ s' = s)
  \/ exists u, usage = Some u /\ ContentCurator._update_usage s u = Ok s'.
Proof.
  unfold ContentCurator.update_if_any, ret, raise. destruct usage as [u|].
  - destruct (ContentCurator._update_usage s u) as [s1|e] eqn:E; [|discriminate].
    intros H. injection H as <- _. right. now exists u.
  - intros H. injection H as <- _. now left.
Qed.

Section LedgerInvariant.

Variable w : World.
Variable self : ContentCurator.t.
Variable P : ContentCurator.UsageStats -> Prop.

Hypothesis P_kept : forall s u s',
  P s ->
  u_model u = ThreadGenerator.model (ContentCurator.thread_gen self)
  \/ u_model u = EditorialJudge.model (ContentCurator.judge self) ->
  ContentCurator._update_usage s u = Ok s' -> P s'.

Lemma process_single_thread_keeps (thread : Thread) (stats : ContentCurator.UsageStats)
    (tr tr' : Trace) (t : Thread) (b : bool) (s' : ContentCurator.UsageStats) :
  P stats ->
  ContentCurator._process_single_thread w self thread stats tr = (Ok (t, b, s'), tr') ->
  P s'.
Proof.
  intros HP. unfold ContentCurator._process_single_thread. unfold bind at 1.
  destruct (evaluate_spec w (ContentCurator.judge self)
              (join (NL ++ NL) (get (tweets thread) [])) tr)
    as (d & usage & -> & Hu & _).
  unfold bind at 1.
  destruct (ContentCurator.update_if_any stats usage _) as [[s1|e] tr1] eqn:Eu;
    [|discriminate].
  assert (HP1 : P s1).
  { apply update_if_any_inv in Eu as [[_ ->] | (u & Hsome & Hup)]; [exact HP|].
    eapply P_kept; [exact HP | right; exact (Hu u Hsome) | exact Hup]. }
  destruct (str_eqb (action d) (lit "accept")).
  - unfold ret. intros H. now injection H as _ _ <- _.
  - unfold bind.
    destruct (send_rejection_notice_spec w (ContentCurator.notifier self)
                (get (post_title thread) (lit "Untitled")) (weakness d) tr1)
      as (sent & notice & -> & _).
    unfold ret. intros H. now injection H as _ _ <- _.
Qed.

Lemma round_keeps (i : nat) (item : RankItem) (post : Post)
    (stats : ContentCurator.UsageStats) (tr tr' : Trace) (r : Round.t)
    (st : ContentCurator.LoopState) (score : Z) :
  P stats ->
  Round.run w self i item post stats tr = (Ok r, tr') ->
  P (ContentCurator.usage_stats (fst (Round.conclude st score r))).
Proof.
  intros HP. unfold Round.run, emit. unfold bind at 1. unfold bind at 1.
  destruct (enrich_spec w post (tr ++ [ECandidate i item]))
    as (enriched & page & -> & _).
  unfold bind at 1.
  destruct (generate_threads_spec w (ContentCurator.thread_gen self) enriched
              ((tr ++ [ECandidate i item]) ++ page))
    as (out & usage & -> & Hu & _).
  unfold bind at 1.
  destruct (ContentCurator.update_if_any stats usage _) as [[s1|e] tr1] eqn:Eu;
    [|discriminate].
  assert (HP1 : P s1).
  { apply update_if_any_inv in Eu as [[_ ->] | (u & Hsome & Hup)]; [exact HP|].
    eapply P_kept; [exact HP | left; exact (Hu u Hsome) | exact Hup]. }
  destruct out as [|current others].
  - unfold ret. intros H. injection H as <- _. exact HP1.
  - unfold bind at 1.
    destruct (ContentCurator._process_single_thread w self current s1 tr1)
      as [[[[t b] s2]|e] tr2] eqn:Ep; [|discriminate].
    pose proof (@process_single_thread_keeps _ _ _ _ _ _ _ HP1 Ep) as HP2.
    unfold bind, ret. intros H. injection H as <- _.
    destruct b; cbn [Round.conclude fst ContentCurator.usage_stats]; [exact HP2|].
    destruct (ContentCurator.best_judge_score st <? score); exact HP2.
Qed.

Lemma loop_keeps (all_posts : list Post) (items : list RankItem) :
  forall (i : nat) (st st' : ContentCurator.LoopState) (tr tr' : Trace),
  P (ContentCurator.usage_stats st) ->
  ContentCurator.editorial_loop w self all_posts i items st tr = (Ok st', tr') ->
  P (ContentCurator.usage_stats st').
Proof.
  induction items as [|item rest IH]; intros i st st' tr tr' HP.
  - cbn [ContentCurator.editorial_loop]. unfold ret.
    intros H. injection H as <- _. exact HP.
  - rewrite editorial_loop_cons.
    destruct (ContentCurator.find_post all_posts (r_id item)) as [post|];
      [|now apply IH].
    destruct (Round.run w self i item post (ContentCurator.usage_stats st) tr)
      as [[r|e] tr1] eqn:Er; [|discriminate].
    pose proof (@round_keeps _ _ _ _ _ _ _ st (r_score item) HP Er) as HP1.
    destruct (snd (Round.conclude st (r_score item) r)).
    + intros H. injection H as <- _. exact HP1.
    + now apply IH.
Qed.

End LedgerInvariant.

(** X20.  The ledger a run returns was built by calls of [_update_usage]
    alone, starting from the fresh ledger: it is the merge of a list of
    usage records, each of them for the model of the ranking, the generation
    or the judgment service of this installation.  No other model is ever
    billed in a run. *)
Theorem run_ledger_is_a_merge (w : World) (self : ContentCurator.t)
    (subreddits : list str) (posts_per_sub : Z) (tr tr' : Trace)
    (out : ContentCurator.PipelineResult) :
  ContentCurator.run_pipeline w self subreddits posts_per_sub tr = (Ok out, tr') ->
  exists records,
    ContentCurator.merge_all ContentCurator.initial_usage_stats records
    = Ok (ContentCurator.usage out)
    /\ Forall (fun u =>
                 u_model u = AIFilter.model (ContentCurator.ai_filter self)
                 \/ u_model u = ThreadGenerator.model (ContentCurator.thread_gen self)
                 \/ u_model u = EditorialJudge.model (ContentCurator.judge self))
         records.
Proof.
  set (P := fun s : ContentCurator.UsageStats =>
              exists records,
                ContentCurator.merge_all ContentCurator.initial_usage_stats records = Ok s
                /\ Forall (fun u =>
                     u_model u = AIFilter.model (ContentCurator.ai_filter self)
                     \/ u_model u = ThreadGenerator.model (ContentCurator.thread_gen self)
                     \/ u_model u = EditorialJudge.model (ContentCurator.judge self))
                     records).
  assert (P_step : forall s u s',
             P s ->
             u_model u = AIFilter.model (ContentCurator.ai_filter self)
             \/ u_model u = ThreadGenerator.model (ContentCurator.thread_gen self)
             \/ u_model u = EditorialJudge.model (ContentCurator.judge self) ->
             ContentCurator._update_usage s u = Ok s' -> P s').
  { intros s u s' (records & Hm & Hall) Hu Hup. exists (records ++ [u]). split.
    - eapply merge_all_snoc; eassumption.
    - apply Forall_app. split; [exact Hall | constructor; [exact Hu | constructor]]. }
  assert (P_kept : forall s u s',
             P s ->
             u_model u = ThreadGenerator.model (ContentCurator.thread_gen self)
             \/ u_model u = EditorialJudge.model (ContentCurator.judge self) ->
             ContentCurator._update_usage s u = Ok s' -> P s').
  { intros s u s' HP Hu. apply (P_step s u s' HP). now right. }
  assert (P0 : P ContentCurator.initial_usage_stats) by (exists []; now split).
  change (ContentCurator.run_pipeline w self subreddits posts_per_sub tr = (Ok out, tr')
          -> P (ContentCurator.usage out)).
  unfold ContentCurator.run_pipeline. unfold bind at 1.
  destruct (fetch_all_trace w subreddits posts_per_sub 2.0%float tr)
    as (ps & evs1 & -> & _).
  destruct ps as [|p ps]; cbn [negb nonempty]; [discriminate|].
  unfold bind at 1.
  destruct (@filter_pair w (ContentCurator.ai_filter self) p ps 300 1500 (tr ++ evs1))
    as (ranked & usage & -> & Hum & _).
  unfold bind at 1.
  destruct (ContentCurator.update_if_any ContentCurator.initial_usage_stats usage _)
    as [[stats|e] tr1] eqn:Eu; [|discriminate].
  assert (HP1 : P stats).
  { apply update_if_any_inv in Eu as [[_ ->] | (u & Hsome & Hup)]; [exact P0|].
    apply (P_step _ u _ P0 (or_introl (Hum u Hsome)) Hup). }
  destruct ranked as [|r ranked]; cbn [negb nonempty].
  - unfold ret. intros H. injection H as <- _. exact HP1.
  - unfold bind at 1.
    destruct (ContentCurator.editorial_loop w self (p :: ps) 0 (firstn 10 (r :: ranked))
                (ContentCurator.loop_start stats) tr1) as [[st|e] tr2] eqn:El;
      [|discriminate].
    pose proof (@loop_keeps w self P P_kept (p :: ps) (firstn 10 (r :: ranked)) 0
                  (ContentCurator.loop_start stats) st tr1 tr2 HP1 El) as HP2.
    unfold bind.
    match goal with
    | |- context [(if ?b then ?m1 else ?m2) tr2] =>
        destruct ((if b then m1 else m2) tr2) as [[[]|e] tr3]
    end; [|discriminate].
    unfold ret. intros H. injection H as <- _. exact HP2.
Qed.

Lemma run_ledger_is_a_merge_witness :
  exists records,
    ContentCurator.merge_all ContentCurator.initial_usage_stats records
    = Ok (ContentCurator.usage
            (match fst (ContentCurator.run_pipeline Examples.all_rejected
                          (Examples.curator Examples.all_rejected) [lit "rust"] 3 []) with
             | Ok out => out
             | Raised _ => {| ContentCurator.posts := [];
                              ContentCurator.output_selected_threads := [];
                              ContentCurator.usage := ContentCurator.initial_usage_stats |}
             end))
    /\ Forall (fun u => u_model u = lit "gpt-5-mini" \/ u_model u = lit "gpt-5.2"
                        \/ u_model u = lit "gpt-5.2") records.
Proof.
  destruct (ContentCurator.run_pipeline Examples.all_rejected
              (Examples.curator Examples.all_rejected) [lit "rust"] 3 [])
    as [[out|e] tr'] eqn:E.
  - cbn [fst]. exact (@run_ledger_is_a_merge _ _ _ _ _ _ _ E).
  - vm_compute in E. discriminate E.
Defined.
